(** * Retrieve, rerank, prompt and generate: the notebook pipeline

    A shallow embedding of the helper functions the workshop notebooks
    define around the managed retrieval, rerank, generation and guardrail
    services:

    - [Lab 2/2.4 Bedrock Inference with Reranking.ipynb]:
      [get_value_by_key_path], [invoke_converse], [search_kb],
      [rerank_results] and the context loop that follows them;
    - the guardrail notebook stored after it:
      [retrieve_from_bedrock], [format_prompt], [generate_response],
      [apply_output_guardrail];
    - [Lab 1/1.7 Retrieval and Generation using SageMaker Endpoint LLM.ipynb]:
      [retrieve_from_bedrock], [generate_response].

    The functions are dynamically typed Python over JSON-shaped service
    responses, so the embedding has three layers: a universe of Python
    values with the built-in operations the notebooks apply to them
    (module [Py]), a small monad for exceptions, printed lines and service
    calls (module [Run]), and the notebook functions themselves, one module
    per notebook. *)

From Stdlib Require Import List String Ascii ZArith Bool Lia PrimFloat DecimalString.
Import ListNotations.
Local Open Scope string_scope.
Local Set Warnings "-register-all,-inexact-float".

(* ================================================================= *)
(** * Python values, exceptions and built-in operations *)

Module Py.

(** The values that travel through the notebooks are what [json.load] and
    the service clients hand back: [None], booleans, unbounded integers,
    binary64 floats, strings, lists, and dictionaries with string keys.
    A dictionary keeps its insertion order and is read by its first
    binding of a key. A character of a string is one [ascii]. *)
Inductive pyval : Type :=
| VNone
| VBool (b : bool)
| VInt (z : Z)
| VFloat (f : float)
| VStr (s : string)
| VList (items : list pyval)
| VDict (fields : list (string * pyval)).

(** The classes of [Exception] the notebooks can meet. [ClientError]
    stands for whatever a service client raises: a botocore client error,
    a connection error, a timeout. *)
Inductive exn_class : Type :=
| KeyError
| IndexError
| TypeError
| AttributeError
| ValueError
| RuntimeError
| ClientError.

(** An exception is its class and the text [str(e)] gives. *)
Record exn : Type := Exn { exn_type : exn_class; exn_text : string }.

Inductive outcome (A : Type) : Type :=
| Ok (a : A)
| Raise (e : exn).
Arguments Ok {A} a.
Arguments Raise {A} e.

Definition rbind {A B : Type} (r : outcome A) (k : A -> outcome B) : outcome B :=
  match r with
  | Ok a => k a
  | Raise e => Raise e
  end.

Definition str (e : exn) : string := exn_text e.

Definition class_eqb (c d : exn_class) : bool :=
  match c, d with
  | KeyError, KeyError | IndexError, IndexError | TypeError, TypeError
  | AttributeError, AttributeError | ValueError, ValueError
  | RuntimeError, RuntimeError | ClientError, ClientError => true
  | _, _ => false
  end.

(** Does [except (c1, c2, ...)] catch [e]? *)
Definition caught_by (classes : list exn_class) (e : exn) : bool :=
  existsb (class_eqb (exn_type e)) classes.

(** A [for] loop that threads the variables it updates. *)
Fixpoint for_each {A S : Type} (items : list A) (s : S)
    (body : S -> A -> outcome S) : outcome S :=
  match items with
  | [] => Ok s
  | x :: rest => rbind (body s x) (fun s' => for_each rest s' body)
  end.

(** A list comprehension. *)
Fixpoint comprehension {A B : Type} (f : A -> outcome B) (items : list A)
  : outcome (list B) :=
  match items with
  | [] => Ok []
  | x :: rest =>
      rbind (f x) (fun y => rbind (comprehension f rest) (fun ys => Ok (y :: ys)))
  end.

(** [enumerate(items)] *)
Definition enumerate {A : Type} (items : list A) : list (nat * A) :=
  combine (seq 0 (List.length items)) items.

Definition nl : string := String (ascii_of_nat 10) EmptyString.

(** The characters [str.strip()] removes, among those an [ascii] can be. *)
Definition isspace (c : ascii) : bool :=
  let n := nat_of_ascii c in
  ((9 <=? n) && (n <=? 13) || (28 <=? n) && (n <=? 32)
   || (n =? 133) || (n =? 160))%nat.

Fixpoint lstrip (s : string) : string :=
  match s with
  | String c rest => if isspace c then lstrip rest else s
  | EmptyString => EmptyString
  end.

Fixpoint rstrip (s : string) : string :=
  match s with
  | String c rest =>
      match rstrip rest with
      | EmptyString => if isspace c then EmptyString else String c EmptyString
      | kept => String c kept
      end
  | EmptyString => EmptyString
  end.

Definition strip (s : string) : string := rstrip (lstrip s).

Definition raise_ {A : Type} (c : exn_class) (text : string) : outcome A :=
  Raise (Exn c text).

(** [type(v).__name__] *)
Definition type_name (v : pyval) : string :=
  match v with
  | VNone => "NoneType"
  | VBool _ => "bool"
  | VInt _ => "int"
  | VFloat _ => "float"
  | VStr _ => "str"
  | VList _ => "list"
  | VDict _ => "dict"
  end.

Definition isinstance_list (v : pyval) : bool :=
  match v with VList _ => true | _ => false end.

Definition isinstance_dict (v : pyval) : bool :=
  match v with VDict _ => true | _ => false end.

(** Truth value of an object, as [if v:] tests it. *)
Definition truthy (v : pyval) : bool :=
  match v with
  | VNone => false
  | VBool b => b
  | VInt z => negb (z =? 0)%Z
  | VFloat f => negb (PrimFloat.eqb f PrimFloat.zero)
  | VStr s => negb (String.eqb s "")
  | VList items => match items with [] => false | _ => true end
  | VDict fields => match fields with [] => false | _ => true end
  end.

Fixpoint lookup (k : string) (fields : list (string * pyval)) : option pyval :=
  match fields with
  | [] => None
  | (k', v) :: rest => if String.eqb k k' then Some v else lookup k rest
  end.

(** Sequence indexing: an index [i] with [-len <= i < len] selects an
    element, a negative one counting from the end. *)
Definition seq_index {A : Type} (l : list A) (i : Z) : option A :=
  let n := Z.of_nat (List.length l) in
  if (0 <=? i)%Z then nth_error l (Z.to_nat i)
  else if (- n <=? i)%Z then nth_error l (Z.to_nat (n + i))
  else None.

Definition chars (s : string) : list string :=
  map (fun c => String c EmptyString) (list_ascii_of_string s).

Section Builtins.

(** [repr] of a value is Python's own formatting of integers, floats,
    quoted strings and containers. The notebooks never inspect the text,
    so it stays a parameter of the model. *)
Variable repr : pyval -> string.

(** [str(v)], also what an f-string slot [{v}] produces. *)
Definition py_str (v : pyval) : string :=
  match v with
  | VStr s => s
  | _ => repr v
  end.

Definition not_subscriptable {A : Type} (v : pyval) : outcome A :=
  raise_ TypeError ("'" ++ type_name v ++ "' object is not subscriptable").

(** [container[key]] *)
Definition getitem (container key : pyval) : outcome pyval :=
  match container with
  | VDict fields =>
      match key with
      | VStr k =>
          match lookup k fields with
          | Some v => Ok v
          | None => raise_ KeyError (repr key)
          end
      | VList _ | VDict _ =>
          raise_ TypeError ("unhashable type: '" ++ type_name key ++ "'")
      | _ => raise_ KeyError (repr key)
      end
  | VList items =>
      let at_ (i : Z) :=
        match seq_index items i with
        | Some v => Ok v
        | None => raise_ IndexError "list index out of range"
        end in
      match key with
      | VInt i => at_ i
      | VBool b => at_ (Z.b2z b)
      | _ => raise_ TypeError
               ("list indices must be integers or slices, not " ++ type_name key)
      end
  | VStr s =>
      let at_ (i : Z) :=
        match seq_index (chars s) i with
        | Some c => Ok (VStr c)
        | None => raise_ IndexError "string index out of range"
        end in
      match key with
      | VInt i => at_ i
      | VBool b => at_ (Z.b2z b)
      | _ => raise_ TypeError
               ("string indices must be integers, not '" ++ type_name key ++ "'")
      end
  | _ => not_subscriptable container
  end.

(** [d.get(key, default)]: a method of dictionaries only. *)
Definition get (d : pyval) (key : string) (default : pyval) : outcome pyval :=
  match d with
  | VDict fields =>
      match lookup key fields with
      | Some v => Ok v
      | None => Ok default
      end
  | _ => raise_ AttributeError
           ("'" ++ type_name d ++ "' object has no attribute 'get'")
  end.

Definition is_str (k : string) (v : pyval) : bool :=
  match v with VStr s => String.eqb s k | _ => false end.

Definition substring (k s : string) : bool :=
  match String.index 0 k s with Some _ => true | None => false end.

(** [key in container] for a string [key]: a key of a dictionary, an
    element of a list, a substring of a string. *)
Definition contains (key : string) (container : pyval) : outcome bool :=
  match container with
  | VDict fields =>
      Ok (match lookup key fields with Some _ => true | None => false end)
  | VList items => Ok (existsb (is_str key) items)
  | VStr s => Ok (substring key s)
  | _ => raise_ TypeError
           ("argument of type '" ++ type_name container ++ "' is not iterable")
  end.

(** The elements a [for] loop or a comprehension visits. *)
Definition iter (v : pyval) : outcome (list pyval) :=
  match v with
  | VList items => Ok items
  | VStr s => Ok (map VStr (chars s))
  | VDict fields => Ok (map (fun kv => VStr (fst kv)) fields)
  | _ => raise_ TypeError ("'" ++ type_name v ++ "' object is not iterable")
  end.

(** [sep.join(v)]: every element visited must be a string. *)
Fixpoint str_items (n : nat) (items : list pyval) : outcome (list string) :=
  match items with
  | [] => Ok []
  | VStr s :: rest => rbind (str_items (S n) rest) (fun ss => Ok (s :: ss))
  | v :: _ =>
      raise_ TypeError
        ("sequence item " ++ NilEmpty.string_of_uint (Nat.to_uint n)
         ++ ": expected str instance, " ++ type_name v ++ " found")
  end.

Definition join (sep : string) (v : pyval) : outcome string :=
  match iter v with
  | Ok items => rbind (str_items 0 items) (fun ss => Ok (String.concat sep ss))
  | Raise _ => raise_ TypeError "can only join an iterable"
  end.

Definition dquote : string := String (ascii_of_nat 34) EmptyString.

Definition cannot_concatenate {A : Type} (left right : string) : outcome A :=
  raise_ TypeError
    ("can only concatenate " ++ left ++ " (not " ++ dquote ++ right ++ dquote
     ++ ") to " ++ left).

(** [v + 1] *)
Definition plus_one (v : pyval) : outcome pyval :=
  match v with
  | VInt z => Ok (VInt (z + 1))
  | VBool b => Ok (VInt (Z.b2z b + 1))
  | VFloat f => Ok (VFloat (PrimFloat.add f PrimFloat.one))
  | VStr _ => cannot_concatenate "str" "int"
  | VList _ => cannot_concatenate "list" "int"
  | _ => raise_ TypeError
           ("unsupported operand type(s) for +: '" ++ type_name v ++ "' and 'int'")
  end.

(** [answer += v] for a string [answer] *)
Definition str_plus (answer : string) (v : pyval) : outcome string :=
  match v with
  | VStr s => Ok (answer ++ s)
  | _ => cannot_concatenate "str" (type_name v)
  end.

(** [v + s] for a string [s] *)
Definition plus_str (v : pyval) (s : string) : outcome string :=
  match v with
  | VStr t => Ok (t ++ s)
  | VList _ => cannot_concatenate "list" "str"
  | _ => raise_ TypeError
           ("unsupported operand type(s) for +: '" ++ type_name v ++ "' and 'str'")
  end.

(** [v == 200]: numbers compare by value across [bool], [int] and [float];
    nothing else equals a number. *)
Definition eq_200 (v : pyval) : bool :=
  match v with
  | VInt z => (z =? 200)%Z
  | VFloat f => PrimFloat.eqb f 200%float
  | _ => false
  end.

End Builtins.

End Py.

(* ================================================================= *)
(** * Running a notebook function: exceptions, printed lines, service calls *)

Module Run.
Import Py.

(** A boto3 client: the service it was made for and the region it was
    given, if any. *)
Record client : Type := Client { service : string; region_name : option string }.

Inductive event : Type :=
| Printed (line : string)
| Called (c : client) (operation : string) (kwargs : pyval).

(** A run leaves the events it caused, in order, and ends in a value or
    in an exception. *)
Definition M (A : Type) : Type := (list event * outcome A)%type.

Definition ret {A : Type} (a : A) : M A := ([], Ok a).

Definition raise {A : Type} (c : exn_class) (text : string) : M A :=
  ([], Raise (Exn c text)).

Definition lift {A : Type} (r : outcome A) : M A := ([], r).

Definition bind {A B : Type} (m : M A) (k : A -> M B) : M B :=
  match m with
  | (t, Ok a) => let '(t', r) := k a in ((t ++ t')%list, r)
  | (t, Raise e) => (t, Raise e)
  end.

(** [try: body  except Exception as e: handler] *)
Definition try_except {A : Type} (body : M A) (handler : exn -> M A) : M A :=
  match body with
  | (t, Ok a) => (t, Ok a)
  | (t, Raise e) => let '(t', r) := handler e in ((t ++ t')%list, r)
  end.

Definition print (line : string) : M unit := ([Printed line], Ok tt).

Definition events {A : Type} (m : M A) : list event := fst m.
Definition result_of {A : Type} (m : M A) : outcome A := snd m.

Notation "x <- m ;; k" := (bind m (fun x => k))
  (at level 61, m at next level, right associativity).
Notation "m ;;; k" := (bind m (fun _ => k))
  (at level 61, right associativity).

(** What the notebooks take from their surroundings. *)
Record world : Type := World {
  (** Python's [repr] *)
  repr : pyval -> string;
  (** [client.operation(...)] for the operations that answer with a
      JSON-shaped dictionary: [retrieve], [rerank], [converse],
      [apply_guardrail] *)
  aws : client -> string -> pyval -> outcome pyval;
  (** [runtime.invoke_endpoint(...)['Body'].read()]: the bytes of the
      endpoint's answer *)
  endpoint_body : client -> pyval -> outcome string;
  (** [bytes.decode("utf-8")] *)
  decode_utf8 : string -> outcome string;
  (** [json.dumps] and [json.loads] *)
  json_dumps : pyval -> outcome string;
  json_loads : string -> outcome pyval
}.

Definition call (w : world) (c : client) (operation : string) (kwargs : pyval)
  : M pyval :=
  ([Called c operation kwargs], aws w c operation kwargs).

Definition call_endpoint (w : world) (c : client) (kwargs : pyval) : M string :=
  ([Called c "invoke_endpoint" kwargs], endpoint_body w c kwargs).

End Run.

(* ================================================================= *)
(** * Lab 2/2.4 Bedrock Inference with Reranking *)

Module Reranking.
Import Py Run.

(** [get_value_by_key_path(d, path)]: [path] is the list of keys the
    docstring asks for. *)
Fixpoint get_value_by_key_path (repr : pyval -> string) (d : pyval)
    (path : list pyval) : outcome pyval :=
  match path with
  | [] => Ok d
  | key :: rest =>
      match getitem repr d key with
      | Ok current => get_value_by_key_path repr current rest
      | Raise e =>
          if caught_by [KeyError; IndexError; TypeError] e
          then Ok VNone
          else Raise e
      end
  end.

Section Notebook.

Variable w : world.
(** The notebook's global [regionName]. *)
Variable regionName : string.

Definition default_temperature : float := 0.1%float.
Definition default_max_tokens : Z := 4000.

(** The body of the loop over [content_list]. *)
Definition add_content (answer : string) (content : pyval) : outcome string :=
  rbind (get content "text" VNone) (fun text =>
  if truthy text then str_plus answer text else Ok answer).

Definition invoke_converse (system_prompt user_prompt model_id : string)
    (temperature : float) (max_tokens : Z) : M (pyval * pyval) :=
  try_except
    (let client := Client "bedrock-runtime" (Some regionName) in
     let system_prompt := VList [VDict [("text", VStr system_prompt)]] in
     let message :=
       VDict [("role", VStr "user");
              ("content", VList [VDict [("text", VStr user_prompt)]])] in
     let messages := VList [message] in
     let inferenceConfig :=
       VDict [("maxTokens", VInt 4096); ("temperature", VFloat temperature)] in
     response <- call w client "converse"
                   (VDict [("modelId", VStr model_id);
                           ("messages", messages);
                           ("system", system_prompt);
                           ("inferenceConfig", inferenceConfig)]) ;;
     metadata <- lift (getitem (repr w) response (VStr "ResponseMetadata")) ;;
     status <- lift (getitem (repr w) metadata (VStr "HTTPStatusCode")) ;;
     if eq_200 status then
       content_list <- lift (get_value_by_key_path (repr w) response
                               [VStr "output"; VStr "message"; VStr "content"]) ;;
       contents <- lift (iter content_list) ;;
       answer <- lift (for_each contents "" add_content) ;;
       ret (VStr answer, response)
     else
       error <- lift (getitem (repr w) response (VStr "Error")) ;;
       message <- lift (getitem (repr w) error (VStr "Message")) ;;
       ret (VStr ("Error: " ++ py_str (repr w) status ++ " - "
                  ++ py_str (repr w) message), response))
    (fun e =>
       print ("Error in invoke_converse: " ++ str e) ;;;
       ret (VNone, VNone)).

(** One element of the comprehension over [result["content"]["text"]]. *)
Definition span_of (item : pyval) : outcome pyval :=
  if isinstance_dict item then get item "span" (VStr "")
  else Ok (VStr (py_str (repr w) item)).

(** The text [search_kb] extracts from one retrieval result. *)
Definition result_text (result : pyval) : outcome string :=
  rbind (contains "content" result) (fun has_content =>
  rbind (if has_content
         then rbind (getitem (repr w) result (VStr "content"))
                    (contains "text")
         else Ok false) (fun has_text =>
  if has_text then
    rbind (getitem (repr w) result (VStr "content")) (fun content =>
    rbind (getitem (repr w) content (VStr "text")) (fun spans =>
    rbind (iter spans) (fun items =>
    rbind (comprehension span_of items) (fun texts =>
    join "" (VList texts)))))
  else Ok "")).

(** The body of the loop of [search_kb], on the pair
    [(documents, original_results)]. *)
Definition add_result (lists : list pyval * list pyval) (numbered : nat * pyval)
  : outcome (list pyval * list pyval) :=
  let '(documents, original_results) := lists in
  let '(i, result) := numbered in
  rbind (result_text result) (fun text =>
  rbind (get result "scoreValue" (VInt 0)) (fun score =>
  Ok ((documents ++ [VStr text])%list,
      (original_results ++
       [VDict [("position", VInt (Z.of_nat i + 1));
               ("score", score);
               ("text", VStr text)]])%list))).

Definition search_kb (query kb_id : string) (numberOfResults : Z) : M pyval :=
  let client := Client "bedrock-agent-runtime" (Some regionName) in
  kb_response <- call w client "retrieve"
    (VDict [("knowledgeBaseId", VStr kb_id);
            ("retrievalQuery", VDict [("text", VStr query)]);
            ("retrievalConfiguration",
             VDict [("vectorSearchConfiguration",
                     VDict [("numberOfResults", VInt numberOfResults)])])]) ;;
  results <- lift (get kb_response "retrievalResults" (VList [])) ;;
  items <- lift (iter results) ;;
  lists <- lift (for_each (enumerate items) ([], []) add_result) ;;
  ret (VList (fst lists)).

(** [kb_context = '\n\n'.join(original_kb_results)], the context of the
    first, unranked question. *)
Definition kb_context_joined (original_kb_results : pyval) : outcome string :=
  join (nl ++ nl) original_kb_results.

(** The body of the loop of [rerank_results]. *)
Definition add_reranked (kb_results : pyval) (reranked_results : list pyval)
    (result : pyval) : outcome (list pyval) :=
  rbind (get result "index" (VInt 0)) (fun idx =>
  rbind (plus_one idx) (fun original_position =>
  let new_position := VInt (Z.of_nat (List.length reranked_results) + 1) in
  rbind (get result "relevanceScore" (VInt 0)) (fun relevance_score =>
  rbind (getitem (repr w) kb_results idx) (fun text =>
  Ok (reranked_results ++
      [VDict [("original_position", original_position);
              ("new_position", new_position);
              ("relevance_score", relevance_score);
              ("text", text)]])%list)))).

Definition source_of (doc : pyval) : pyval :=
  VDict [("inlineDocumentSource",
          VDict [("textDocument", VDict [("text", doc)]);
                 ("type", VStr "TEXT")]);
         ("type", VStr "INLINE")].

Definition rerank_results (query : string) (kb_results : pyval)
    (rerank_model_arn : string) (reranked_result_count : Z) : M pyval :=
  let client := Client "bedrock-agent-runtime" (Some regionName) in
  docs <- lift (iter kb_results) ;;
  reranked <- call w client "rerank"
    (VDict [("queries",
             VList [VDict [("textQuery", VDict [("text", VStr query)]);
                           ("type", VStr "TEXT")]]);
            ("rerankingConfiguration",
             VDict [("bedrockRerankingConfiguration",
                     VDict [("modelConfiguration",
                             VDict [("modelArn", VStr rerank_model_arn)]);
                            ("numberOfResults", VInt reranked_result_count)]);
                    ("type", VStr "BEDROCK_RERANKING_MODEL")]);
            ("sources", VList (map source_of docs))]) ;;
  results <- lift (get reranked "results" (VList [])) ;;
  entries <- lift (iter results) ;;
  reranked_results <- lift (for_each entries [] (add_reranked kb_results)) ;;
  ret (VDict [("original_results", kb_results);
              ("reranked_results", VList reranked_results)]).

Definition default_reranked_result_count : Z := 5.

(** The cell after the rerank call:
    [kb_context = ""] and, for each reranked result,
    [kb_context += result['text'] + "\n\n"]. *)
Definition add_text (kb_context : string) (result : pyval) : outcome string :=
  rbind (getitem (repr w) result (VStr "text")) (fun text =>
  rbind (plus_str text (nl ++ nl)) (fun paragraph =>
  Ok (kb_context ++ paragraph))).

Definition kb_context (reranked_json : pyval) : outcome string :=
  rbind (getitem (repr w) reranked_json (VStr "reranked_results")) (fun rs =>
  rbind (iter rs) (fun results =>
  for_each results "" add_text)).

(** The system prompt both questions are asked with: the f-string with
    its [{kb_context}] slot. *)
Definition system_prompt (kb_context : string) : string :=
  nl ++ "Please use the context below to respond to the question. " ++ nl
  ++ "If you have enough information to answer the question, please explain the reasoning behind the response."
  ++ nl
  ++ "If you do not have enough information to answer the question, please don't guess. Instead, just say I don't know with the reason."
  ++ nl ++ "CONTEXT:" ++ nl ++ kb_context ++ nl.

(** The notebook's globals [knowledge_base_id] (read from [variables]),
    [model_id] and [rerank_model_arn]. *)
Variable knowledge_base_id : string.

Definition model_id : string := "us.amazon.nova-pro-v1:0".

Definition rerank_model_arn : string :=
  "arn:aws:bedrock:us-west-2::foundation-model/cohere.rerank-v3-5:0".

(** Sections 5 and 6 of the notebook: five results from the knowledge
    base, joined as they come, sent with the question; the answer is
    printed. The notebook asks one fixed question; it is a parameter
    here. *)
Definition ask (query : string) : M (pyval * pyval) :=
  original_kb_results <- search_kb query knowledge_base_id 5 ;;
  context <- lift (kb_context_joined original_kb_results) ;;
  answered <- invoke_converse (system_prompt context) query model_id
                default_temperature default_max_tokens ;;
  print (py_str (repr w) (fst answered)) ;;;
  ret answered.

(** Section 8 of the notebook: twenty results, reranked to five, the
    reranked context sent with the same question. *)
Definition ask_reranked (query : string) : M (pyval * pyval) :=
  original_kb_results <- search_kb query knowledge_base_id 20 ;;
  reranked_json <- rerank_results query original_kb_results rerank_model_arn 5 ;;
  context <- lift (kb_context reranked_json) ;;
  answered <- invoke_converse (system_prompt context) query model_id
                default_temperature default_max_tokens ;;
  print (py_str (repr w) (fst answered)) ;;;
  ret answered.

End Notebook.

End Reranking.

(* ================================================================= *)
(** * Lab 1/1.7 Retrieval and Generation using SageMaker Endpoint LLM *)

Module SageMakerRAG.
Import Py Run.

Section Notebook.

Variable w : world.
(** [variables["regionName"]], read when the client is made. *)
Variable regionName : string.

Definition bedrock_agent_runtime : client :=
  Client "bedrock-agent-runtime" (Some regionName).

Definition generation_configuration : pyval :=
  VDict [("temperature", VInt 0);
         ("top_k", VInt 10);
         ("max_new_tokens", VInt 512);
         ("stop", VStr "<|eot_id|>")].

Definition default_num_results : Z := 5.

(** [result['content']['text']] *)
Definition content_text (result : pyval) : outcome pyval :=
  rbind (getitem (repr w) result (VStr "content")) (fun content =>
  getitem (repr w) content (VStr "text")).

Definition retrieve_from_bedrock (query kb_id : string) (num_results : Z)
  : M pyval :=
  try_except
    (response <- call w bedrock_agent_runtime "retrieve"
       (VDict [("knowledgeBaseId", VStr kb_id);
               ("retrievalQuery", VDict [("text", VStr query)]);
               ("retrievalConfiguration",
                VDict [("vectorSearchConfiguration",
                        VDict [("numberOfResults", VInt num_results)])])]) ;;
     results <- lift (getitem (repr w) response (VStr "retrievalResults")) ;;
     items <- lift (iter results) ;;
     texts <- lift (comprehension content_text items) ;;
     ret (VList texts))
    (fun e => raise RuntimeError ("Bedrock retrieval failed: " ++ str e)).

(** The chain of tests on the parsed response body. *)
Definition generated_text (result : pyval) : outcome pyval :=
  if isinstance_list result then
    rbind (getitem (repr w) result (VInt 0)) (fun first =>
    getitem (repr w) first (VStr "generated_text"))
  else
    rbind (contains "generated_text" result) (fun has_generated_text =>
    if has_generated_text then getitem (repr w) result (VStr "generated_text")
    else
      rbind (contains "generation" result) (fun has_generation =>
      if has_generation then getitem (repr w) result (VStr "generation")
      else raise_ RuntimeError "Unexpected response format")).

Definition generate_response (prompt endpoint_name : string) : M pyval :=
  let runtime := Client "sagemaker-runtime" None in
  let payload :=
    VDict [("inputs", VStr prompt); ("parameters", generation_configuration)] in
  try_except
    (body <- lift (json_dumps w payload) ;;
     bytes <- call_endpoint w runtime
                (VDict [("EndpointName", VStr endpoint_name);
                        ("ContentType", VStr "application/json");
                        ("Body", VStr body)]) ;;
     text <- lift (decode_utf8 w bytes) ;;
     result <- lift (json_loads w text) ;;
     lift (generated_text result))
    (fun e => raise RuntimeError ("Generation failed: " ++ str e)).

Definition indent : string := "        ".

(** [format_prompt(query, context)]: the [{context}] slot takes [str] of
    whatever it is given. *)
Definition format_prompt (query : string) (context : pyval) : string :=
  strip
    (nl ++ indent ++ "<|begin_of_text|>"
     ++ nl ++ indent ++ "<|start_header_id|>system<|end_header_id|>"
     ++ nl ++ indent
     ++ "You are an assistant for question-answering tasks. Answer the following question using the provided context. If you don't know the answer, just say "
     ++ dquote ++ "I don't know." ++ dquote ++ "."
     ++ nl ++ indent ++ "<|start_header_id|>user<|end_header_id|>"
     ++ nl ++ indent ++ "Context: " ++ py_str (repr w) context ++ " "
     ++ nl ++ indent ++ "Question: " ++ query
     ++ nl ++ indent ++ "<|start_header_id|>assistant<|end_header_id|> "
     ++ nl ++ indent ++ "Answer:"
     ++ nl ++ indent).

(** The last cell: retrieve, format, generate, print. *)
Definition answer (query KNOWLEDGE_BASE_ID : string) (NUM_RESULTS : Z)
    (ENDPOINT_NAME : string) : M pyval :=
  context <- retrieve_from_bedrock query KNOWLEDGE_BASE_ID NUM_RESULTS ;;
  let prompt := format_prompt query context in
  response <- generate_response prompt ENDPOINT_NAME ;;
  print ("Question: " ++ query) ;;;
  print ("Answer: " ++ py_str (repr w) response) ;;;
  ret response.

(** [str.encode("utf-8")] *)
Variable encode_utf8 : string -> string.

(** [ContentHandler.transform_input(prompt, model_kwargs)] *)
Definition transform_input (prompt : string) (model_kwargs : pyval)
  : outcome string :=
  rbind (json_dumps w (VDict [("inputs", VStr prompt);
                              ("parameters", model_kwargs)]))
        (fun input_str => Ok (encode_utf8 input_str)).

(** [ContentHandler.transform_output(output)], on the bytes [output.read()]
    gives. *)
Definition transform_output (output : string) : outcome pyval :=
  rbind (decode_utf8 w output) (fun text =>
  rbind (json_loads w text) (fun response_json =>
  getitem (repr w) response_json (VStr "generated_text"))).

End Notebook.

End SageMakerRAG.

(* ================================================================= *)
(** * The guardrail notebook: retrieval with a metadata filter, endpoint
      generation, output guardrail *)

Module Guardrails.
Import Py Run.

Section Notebook.

Variable w : world.
(** [variables], as [json.load] read it from [variables.json]. *)
Variable variables : pyval.
(** [variables["regionName"]], [variables["kbFixedChunk"]] and
    [variables['sagemakerLLMEndpoint']], read when the cells above the
    functions ran. *)
Variable regionName : string.
Variable KNOWLEDGE_BASE_ID : pyval.
Variable ENDPOINT_NAME : pyval.

Definition bedrock_agent_runtime : client :=
  Client "bedrock-agent-runtime" (Some regionName).
Definition bedrock_client : client :=
  Client "bedrock-runtime" (Some regionName).

Definition NUM_RESULTS : Z := 3.

Definition generation_configuration : pyval :=
  VDict [("temperature", VInt 0);
         ("top_k", VInt 10);
         ("max_new_tokens", VInt 5000);
         ("stop", VStr "<|eot_id|>")].

Definition one_group_filter : pyval :=
  VDict [("andAll",
          VList [VDict [("equals", VDict [("key", VStr "docType");
                                          ("value", VStr "10K Report")])];
                 VDict [("equals", VDict [("key", VStr "year");
                                          ("value", VInt 2023)])]])].

Definition content_text (result : pyval) : outcome pyval :=
  rbind (getitem (repr w) result (VStr "content")) (fun content =>
  getitem (repr w) content (VStr "text")).

Definition retrieve_from_bedrock (query : string) : M pyval :=
  try_except
    (response <- call w bedrock_agent_runtime "retrieve"
       (VDict [("knowledgeBaseId", KNOWLEDGE_BASE_ID);
               ("retrievalQuery", VDict [("text", VStr query)]);
               ("retrievalConfiguration",
                VDict [("vectorSearchConfiguration",
                        VDict [("numberOfResults", VInt NUM_RESULTS);
                               ("filter", one_group_filter)])])]) ;;
     results <- lift (getitem (repr w) response (VStr "retrievalResults")) ;;
     items <- lift (iter results) ;;
     texts <- lift (comprehension content_text items) ;;
     ret (VList texts))
    (fun e => raise RuntimeError ("Bedrock retrieval failed: " ++ str e)).

Definition indent : string := "        ".

(** The inner f-string of [format_prompt], with its [" ".join(context)]
    slot and the quotation mark left after it. *)
Definition system_prompt (joined : string) : string :=
  "Use the following context to answer the question. If you don't know the answer, say 'I don't know'."
  ++ nl ++ indent ++ "Context:" ++ nl ++ indent ++ joined ++ dquote ++ nl
  ++ "    ".

Definition format_prompt (query : string) (context : pyval) : outcome string :=
  rbind (join " " context) (fun joined =>
  Ok (strip
        (nl ++ indent ++ "<|begin_of_text|>"
         ++ nl ++ indent ++ "<|start_header_id|>system<|end_header_id|>"
         ++ nl ++ indent ++ system_prompt joined
         ++ nl ++ indent ++ "<|start_header_id|>user<|end_header_id|>"
         ++ nl ++ indent ++ "Question: " ++ query
         ++ nl ++ indent ++ "<|start_header_id|>assistant<|end_header_id|>"
         ++ nl ++ indent))).

Definition generated_text (result : pyval) : outcome pyval :=
  if isinstance_list result then
    rbind (getitem (repr w) result (VInt 0)) (fun first =>
    getitem (repr w) first (VStr "generated_text"))
  else
    rbind (contains "generated_text" result) (fun has_generated_text =>
    if has_generated_text then getitem (repr w) result (VStr "generated_text")
    else
      rbind (contains "generation" result) (fun has_generation =>
      if has_generation then getitem (repr w) result (VStr "generation")
      else raise_ RuntimeError "Unexpected response format")).

Definition generate_response (prompt : string) : M pyval :=
  let runtime := Client "sagemaker-runtime" None in
  let payload :=
    VDict [("inputs", VStr prompt); ("parameters", generation_configuration)] in
  try_except
    (body <- lift (json_dumps w payload) ;;
     bytes <- call_endpoint w runtime
                (VDict [("EndpointName", ENDPOINT_NAME);
                        ("ContentType", VStr "application/json");
                        ("Body", VStr body)]) ;;
     text <- lift (decode_utf8 w bytes) ;;
     result <- lift (json_loads w text) ;;
     lift (generated_text result))
    (fun e => raise RuntimeError ("Generation failed: " ++ str e)).

(** The [try] block of [apply_output_guardrail]: the policy evaluation
    and the reading of its answer. *)
Definition policy_evaluation (output_text : pyval) : M pyval :=
  guardrail_id <- lift (getitem (repr w) variables (VStr "guardrail_id")) ;;
  guardrail_version <-
    lift (getitem (repr w) variables (VStr "guardrail_version")) ;;
  response <- call w bedrock_client "apply_guardrail"
    (VDict [("guardrailIdentifier", guardrail_id);
            ("guardrailVersion", guardrail_version);
            ("source", VStr "OUTPUT");
            ("content",
             VList [VDict [("text", VDict [("text", output_text)])]])]) ;;
  has_outputs <- lift (contains "outputs" response) ;;
  nonempty <-
    (if has_outputs
     then outputs <- lift (getitem (repr w) response (VStr "outputs")) ;;
          ret (truthy outputs)
     else ret false) ;;
  if nonempty then
    outputs <- lift (getitem (repr w) response (VStr "outputs")) ;;
    first <- lift (getitem (repr w) outputs (VInt 0)) ;;
    lift (getitem (repr w) first (VStr "text"))
  else ret output_text.

Definition apply_output_guardrail (output_text : pyval) : M pyval :=
  try_except
    (policy_evaluation output_text)
    (fun e =>
       print ("Warning: Output guardrail application failed: " ++ str e) ;;;
       ret output_text).

(** Sections 5 and 6 of the notebook, for a question [query]: retrieve,
    format, generate, filter, print. [print("Question:", {query})] prints
    the one-element set. *)
Definition answer (query : string) : M pyval :=
  context <- retrieve_from_bedrock query ;;
  prompt <- lift (format_prompt query context) ;;
  raw_response <- generate_response prompt ;;
  guardrail_response <- apply_output_guardrail raw_response ;;
  print ("Question: {" ++ repr w (VStr query) ++ "}") ;;;
  print ("Answer: " ++ py_str (repr w) guardrail_response) ;;;
  ret guardrail_response.

End Notebook.

End Guardrails.

(* ================================================================= *)
(** * What the specification says, as definitions *)

Module Spec.
Import Py Run.

(** Indexing [d] successively by the keys of [path], with no handler. *)
Fixpoint index_path (repr : pyval -> string) (d : pyval) (path : list pyval)
  : outcome pyval :=
  match path with
  | [] => Ok d
  | key :: rest => rbind (getitem repr d key) (fun v => index_path repr v rest)
  end.

(** A field of a dictionary, and nothing of any other value. *)
Definition field (k : string) (v : pyval) : option pyval :=
  match v with
  | VDict fields => lookup k fields
  | _ => None
  end.

(** The three response shapes the raw-endpoint path recognises, in the
    order it tests them, each with the text it yields. *)
Inductive yields : pyval -> pyval -> Prop :=
| yields_list (fields : list (string * pyval)) (rest : list pyval) (x : pyval) :
    lookup "generated_text" fields = Some x ->
    yields (VList (VDict fields :: rest)) x
| yields_generated_text (fields : list (string * pyval)) (x : pyval) :
    lookup "generated_text" fields = Some x ->
    yields (VDict fields) x
| yields_generation (fields : list (string * pyval)) (x : pyval) :
    lookup "generated_text" fields = None ->
    lookup "generation" fields = Some x ->
    yields (VDict fields) x.

(** The endpoint answers, and its answer parses to [result]. *)
Definition endpoint_answers (w : world) (result : pyval) : Prop :=
  exists body bytes text : string,
    (forall payload, json_dumps w payload = Ok body) /\
    (forall c kwargs, endpoint_body w c kwargs = Ok bytes) /\
    decode_utf8 w bytes = Ok text /\
    json_loads w text = Ok result.

(** The text of one sub-span: the [span] of a span object (nothing when it
    has none), or the raw string itself. *)
Inductive span_text : pyval -> string -> Prop :=
| span_object (fields : list (string * pyval)) (s : string) :
    lookup "span" fields = Some (VStr s) ->
    span_text (VDict fields) s
| span_object_bare (fields : list (string * pyval)) :
    lookup "span" fields = None ->
    span_text (VDict fields) ""
| span_raw (s : string) :
    span_text (VStr s) s.

(** The text of one well-formed retrieval result. *)
Inductive passage_text : pyval -> string -> Prop :=
| passage_spans (fields content : list (string * pyval)) (spans : list pyval)
      (texts : list string) :
    lookup "content" fields = Some (VDict content) ->
    lookup "text" content = Some (VList spans) ->
    Forall2 span_text spans texts ->
    passage_text (VDict fields) (String.concat "" texts)
| passage_string (fields content : list (string * pyval)) (s : string) :
    lookup "content" fields = Some (VDict content) ->
    lookup "text" content = Some (VStr s) ->
    passage_text (VDict fields) s
| passage_no_text (fields content : list (string * pyval)) :
    lookup "content" fields = Some (VDict content) ->
    lookup "text" content = None ->
    passage_text (VDict fields) ""
| passage_no_content (fields : list (string * pyval)) :
    lookup "content" fields = None ->
    passage_text (VDict fields) "".

(** One entry of a rerank response: a dictionary whose [index] is the
    integer [idx]. *)
Definition indexed (entry : pyval) (idx : Z) : Prop :=
  field "index" entry = Some (VInt idx).

(** The index an entry selects a passage by: its [index], or [0] when it
    is a dictionary with no [index]. *)
Definition selects (entry : pyval) (idx : Z) : Prop :=
  indexed entry idx \/
  (exists fields, entry = VDict fields /\ lookup "index" fields = None /\ idx = 0%Z).

(** The relevance score an entry carries, [0] when it carries none. *)
Definition score_of (entry : pyval) : pyval :=
  match field "relevanceScore" entry with
  | Some score => score
  | None => VInt 0
  end.

(** The passage an index selects, as Python indexes a list. *)
Definition passage_at (docs : list pyval) (idx : Z) : pyval :=
  match seq_index docs idx with
  | Some text => text
  | None => VNone
  end.

(** The reranked passage for the entry met at position [new_position]
    with index [idx]. *)
Definition reranked_passage (docs : list pyval) (new_position : nat) (idx : Z)
    (entry : pyval) : pyval :=
  VDict [("original_position", VInt (idx + 1));
         ("new_position", VInt (Z.of_nat new_position));
         ("relevance_score", score_of entry);
         ("text", passage_at docs idx)].

(** The reranked passages for the entries of a response, the first at
    position [start]. *)
Fixpoint reranked_passages (docs : list pyval) (start : nat)
    (entries : list pyval) (idxs : list Z) : list pyval :=
  match entries, idxs with
  | entry :: entries', idx :: idxs' =>
      reranked_passage docs start idx entry
      :: reranked_passages docs (S start) entries' idxs'
  | _, _ => []
  end.

(** Passage texts joined by the double newline. *)
Definition double_newline_join (texts : list string) : string :=
  String.concat (nl ++ nl) texts.

(** Each passage text followed by a double newline. *)
Definition paragraphs (texts : list string) : string :=
  String.concat "" (map (fun t => t ++ nl ++ nl) texts).

(** The texts a list of indices selects among [texts]. *)
Definition selected (texts : list string) (idxs : list Z) : list string :=
  map (fun idx => match seq_index texts idx with
                  | Some text => text
                  | None => ""
                  end) idxs.

(** An index Python accepts for a list of the given length. *)
Definition in_bounds (len : nat) (idx : Z) : Prop :=
  (- Z.of_nat len <= idx < Z.of_nat len)%Z.

(** A retrieval operation wraps the errors of its backend: whenever every
    service call raises [e], the operation raises the classified failure
    that carries the text of [e]. *)
Definition wraps_backend_errors (retrieval : world -> M pyval) : Prop :=
  forall (w : world) (e : exn),
    (forall c op kwargs, aws w c op kwargs = Raise e) ->
    result_of (retrieval w) =
      Raise (Exn RuntimeError ("Bedrock retrieval failed: " ++ str e)).

(** A generation operation surfaces a failure to its caller. *)
Definition surfaces_failure {A : Type} (run : M A) : Prop :=
  exists e, result_of run = Raise e.

(** The value under a path of names, when every step is a dictionary
    that has the name. *)
Fixpoint at_path (path : list string) (v : pyval) : option pyval :=
  match path with
  | [] => Some v
  | k :: rest =>
      match field k v with
      | Some x => at_path rest x
      | None => None
      end
  end.

(** The text one element of a conversational answer's content list
    contributes: its [text] when that is a string, nothing when it is
    null or absent. *)
Inductive fragment_text : pyval -> string -> Prop :=
| fragment_string (fields : list (string * pyval)) (s : string) :
    lookup "text" fields = Some (VStr s) ->
    fragment_text (VDict fields) s
| fragment_null (fields : list (string * pyval)) :
    lookup "text" fields = Some VNone ->
    fragment_text (VDict fields) ""
| fragment_absent (fields : list (string * pyval)) :
    lookup "text" fields = None ->
    fragment_text (VDict fields) "".

(** The request [invoke_converse] submits. *)
Definition converse_request (system_prompt user_prompt model_id : string)
    (temperature : float) : pyval :=
  VDict [("modelId", VStr model_id);
         ("messages",
          VList [VDict [("role", VStr "user");
                        ("content", VList [VDict [("text", VStr user_prompt)]])]]);
         ("system", VList [VDict [("text", VStr system_prompt)]]);
         ("inferenceConfig",
          VDict [("maxTokens", VInt 4096); ("temperature", VFloat temperature)])].

(** The request [search_kb] and the first [retrieve_from_bedrock] submit. *)
Definition retrieve_request (kb_id query : string) (count : Z) : pyval :=
  VDict [("knowledgeBaseId", VStr kb_id);
         ("retrievalQuery", VDict [("text", VStr query)]);
         ("retrievalConfiguration",
          VDict [("vectorSearchConfiguration",
                  VDict [("numberOfResults", VInt count)])])].

(** The request [rerank_results] submits for a list of passages. *)
Definition rerank_request (query : string) (docs : list pyval)
    (rerank_model_arn : string) (count : Z) : pyval :=
  VDict [("queries",
          VList [VDict [("textQuery", VDict [("text", VStr query)]);
                        ("type", VStr "TEXT")]]);
         ("rerankingConfiguration",
          VDict [("bedrockRerankingConfiguration",
                  VDict [("modelConfiguration",
                          VDict [("modelArn", VStr rerank_model_arn)]);
                         ("numberOfResults", VInt count)]);
                 ("type", VStr "BEDROCK_RERANKING_MODEL")]);
         ("sources",
          VList (map (fun doc =>
                        VDict [("inlineDocumentSource",
                                VDict [("textDocument", VDict [("text", doc)]);
                                       ("type", VStr "TEXT")]);
                               ("type", VStr "INLINE")]) docs))].

(** The request [apply_output_guardrail] submits. *)
Definition guardrail_request (guardrail_id guardrail_version output_text : pyval)
  : pyval :=
  VDict [("guardrailIdentifier", guardrail_id);
         ("guardrailVersion", guardrail_version);
         ("source", VStr "OUTPUT");
         ("content", VList [VDict [("text", VDict [("text", output_text)])]])].

(** The request the filtered [retrieve_from_bedrock] submits. *)
Definition filtered_retrieve_request (KNOWLEDGE_BASE_ID : pyval) (query : string)
  : pyval :=
  VDict [("knowledgeBaseId", KNOWLEDGE_BASE_ID);
         ("retrievalQuery", VDict [("text", VStr query)]);
         ("retrievalConfiguration",
          VDict [("vectorSearchConfiguration",
                  VDict [("numberOfResults", VInt 3);
                         ("filter",
                          VDict [("andAll",
                                  VList [VDict [("equals",
                                                 VDict [("key", VStr "docType");
                                                        ("value", VStr "10K Report")])];
                                         VDict [("equals",
                                                 VDict [("key", VStr "year");
                                                        ("value", VInt 2023)])]])])])])].

(** The request [generate_response] submits, for the serialised payload
    [body]. *)
Definition endpoint_request (endpoint_name : pyval) (body : string) : pyval :=
  VDict [("EndpointName", endpoint_name);
         ("ContentType", VStr "application/json");
         ("Body", VStr body)].

End Spec.

(* ================================================================= *)
(** * Concrete worlds and inputs *)

Module Scenario.
Import Py Run.

(** A stand-in for [repr]: right on the plain strings used below, a mere
    tag on everything else. *)
Definition plain_repr (v : pyval) : string :=
  match v with
  | VStr s => "'" ++ s ++ "'"
  | _ => "<" ++ type_name v ++ ">"
  end.

(** A world whose JSON services all give [answer], and whose endpoint
    gives [body], which parses to [parsed]. *)
Definition world_of (answer : outcome pyval) (body : outcome string)
    (parsed : outcome pyval) : world :=
  {| repr := plain_repr;
     aws := fun _ _ _ => answer;
     endpoint_body := fun _ _ => body;
     decode_utf8 := fun bytes => Ok bytes;
     json_dumps := fun _ => Ok "{}";
     json_loads := fun _ => parsed |}.

Definition timeout : exn := Exn ClientError "Read timeout on endpoint URL".

(** Every service call times out. *)
Definition offline : world :=
  world_of (Raise timeout) (Raise timeout) (Ok VNone).

Definition answering (answer : pyval) : world :=
  world_of (Ok answer) (Ok "") (Ok VNone).

Definition endpoint_saying (parsed : pyval) : world :=
  world_of (Ok VNone) (Ok "body") (Ok parsed).

Definition region : string := "us-west-2".

Definition variables : pyval :=
  VDict [("regionName", VStr region);
         ("guardrail_id", VStr "gr-1");
         ("guardrail_version", VStr "1")].

(** Twenty retrieved passages and a rerank answer that keeps five. *)
Definition passage (n : nat) : string :=
  "passage " ++ NilEmpty.string_of_uint (Nat.to_uint n).

Definition texts20 : list string := map passage (seq 0 20).

Definition passages20 : list pyval := map VStr texts20.

Definition entry (idx : Z) (score : float) : pyval :=
  VDict [("index", VInt idx); ("relevanceScore", VFloat score)].

Definition top5 : list Z := [7; 0; 19; 3; 12]%Z.

Definition entries5 : list pyval :=
  [entry 7 0.875; entry 0 0.75; entry 19 0.5; entry 3 0.25; entry 12 0.125].

Definition reranked5 : pyval := VDict [("results", VList entries5)].

(** An answer whose second entry has lost its index, and one whose second
    entry points past the last passage. *)
Definition unindexed : pyval := VDict [("relevanceScore", VFloat 0.5)].

Definition reranked_unindexed : pyval :=
  VDict [("results", VList [entry 7 0.875; unindexed])].

Definition reranked_past_end : pyval :=
  VDict [("results", VList [entry 7 0.875; entry 20 0.5])].

(** A retrieval answer of three results: one whose text is a list of a
    span object and a raw string, one with no content, one whose text is a
    plain string. *)
Definition results3 : list pyval :=
  [VDict [("content",
           VDict [("text", VList [VDict [("span", VStr "Red ")];
                                  VStr "teaming"])]);
          ("scoreValue", VFloat 0.75)];
   VDict [("scoreValue", VFloat 0.5)];
   VDict [("content", VDict [("text", VStr "probes a model")])]].

Definition retrieved3 : pyval := VDict [("retrievalResults", VList results3)].

(** A world that answers each operation with its own outcome. *)
Definition services (retrieved reranked conversed guarded : outcome pyval)
    (body : outcome string) (parsed : outcome pyval) : world :=
  {| repr := plain_repr;
     aws := fun _ operation _ =>
              if String.eqb operation "retrieve" then retrieved
              else if String.eqb operation "rerank" then reranked
              else if String.eqb operation "converse" then conversed
              else guarded;
     endpoint_body := fun _ _ => body;
     decode_utf8 := fun bytes => Ok bytes;
     json_dumps := fun _ => Ok "{}";
     json_loads := fun _ => parsed |}.

(** A conversational answer of three content elements, the second with
    no text. *)
Definition conversed3 : pyval :=
  VDict [("ResponseMetadata", VDict [("HTTPStatusCode", VInt 200)]);
         ("output",
          VDict [("message",
                  VDict [("role", VStr "assistant");
                         ("content",
                          VList [VDict [("text", VStr "Red teaming ")];
                                 VDict [("toolUse", VDict [])];
                                 VDict [("text", VStr "probes a model.")]])])])].

(** A throttled answer, as a dictionary. *)
Definition throttled : pyval :=
  VDict [("ResponseMetadata", VDict [("HTTPStatusCode", VInt 429)]);
         ("Error", VDict [("Code", VStr "ThrottlingException");
                          ("Message", VStr "Too many requests")])].

(** An answer of status 200 with no output. *)
Definition hollow : pyval :=
  VDict [("ResponseMetadata", VDict [("HTTPStatusCode", VInt 200)])].

(** A guardrail answer that replaces the text. *)
Definition blocked : pyval :=
  VDict [("action", VStr "GUARDRAIL_INTERVENED");
         ("outputs",
          VList [VDict [("text", VStr "Response modified per compliance guidelines.")]])].

(** A guardrail answer that lets the text through. *)
Definition passed : pyval :=
  VDict [("action", VStr "NONE"); ("outputs", VList [])].

(** The guardrail notebook's services: one passage retrieved, an endpoint
    that gives advice, and a guardrail that blocks it, or is out of
    reach. *)
Definition retrieved1 : pyval :=
  VDict [("retrievalResults",
          VList [VDict [("content", VDict [("text", VStr "Net sales rose.")])]])].

Definition advice : pyval :=
  VDict [("generated_text", VStr "You should buy the stock.")].

Definition guarded_rag : world :=
  services (Ok retrieved1) (Ok VNone) (Ok VNone) (Ok blocked) (Ok "body")
           (Ok advice).

Definition unguarded_rag : world :=
  services (Ok retrieved1) (Ok VNone) (Ok VNone) (Raise timeout) (Ok "body")
           (Ok advice).

End Scenario.

(* ================================================================= *)
(** * Properties *)

Import Py Run Spec.

(** ** The monad *)

Lemma bind_events_result {A B : Type} (m : M A) (k : A -> M B) (a : A) :
  result_of m = Ok a ->
  bind m k = ((events m ++ events (k a))%list, result_of (k a)).
Proof.
  destruct m as [t r]; simpl; intros ->.
  now destruct (k a).
Qed.

Lemma bind_raise {A B : Type} (m : M A) (k : A -> M B) (e : exn) :
  result_of m = Raise e ->
  bind m k = (events m, Raise e).
Proof.
  destruct m as [t r]; simpl; now intros ->.
Qed.

Lemma try_except_ok {A : Type} (body : M A) (handler : exn -> M A) (a : A) :
  result_of body = Ok a ->
  try_except body handler = body.
Proof.
  destruct body as [t r]; simpl; now intros ->.
Qed.

Lemma try_except_raise {A : Type} (body : M A) (handler : exn -> M A) (e : exn) :
  result_of body = Raise e ->
  try_except body handler =
    ((events body ++ events (handler e))%list, result_of (handler e)).
Proof.
  destruct body as [t r]; simpl; intros ->.
  now destruct (handler e).
Qed.

(** A handler that re-raises turns every exception of the block into its
    own. *)
Lemma try_except_reraise {A : Type} (body : M A) (prefix : string) :
  result_of
    (try_except body (fun e => raise RuntimeError (prefix ++ str e))) =
  match result_of body with
  | Ok a => Ok a
  | Raise e => Raise (Exn RuntimeError (prefix ++ str e))
  end.
Proof.
  now destruct body as [t [a | e]].
Qed.

Lemma result_of_bind {A B : Type} (m : M A) (k : A -> M B) :
  result_of (bind m k) =
  match result_of m with
  | Ok a => result_of (k a)
  | Raise e => Raise e
  end.
Proof.
  destruct m as [t [a | e]]; simpl; [now destruct (k a) | reflexivity].
Qed.

Lemma result_of_lift {A : Type} (r : outcome A) : result_of (lift r) = r.
Proof. reflexivity. Qed.

Lemma result_of_call (w : world) (c : client) (op : string) (kwargs : pyval) :
  result_of (call w c op kwargs) = aws w c op kwargs.
Proof. reflexivity. Qed.

(** ** Built-in operations *)

(** Indexing raises nothing but what [get_value_by_key_path] handles. *)
Lemma getitem_raises (repr : pyval -> string) (container key : pyval) (e : exn) :
  getitem repr container key = Raise e ->
  caught_by [KeyError; IndexError; TypeError] e = true.
Proof.
  unfold getitem, not_subscriptable, raise_.
  destruct container as [ | b | z | f | s | items | fields ]; try (intros [= <-]; reflexivity).
  - destruct key; try (intros [= <-]; reflexivity);
      match goal with |- context [seq_index ?l ?i] => destruct (seq_index l i) end;
      intros [= <-]; reflexivity.
  - destruct key; try (intros [= <-]; reflexivity);
      match goal with |- context [seq_index ?l ?i] => destruct (seq_index l i) end;
      intros [= <-]; reflexivity.
  - destruct key; try (intros [= <-]; reflexivity).
    destruct (lookup s fields); intros [= <-]; reflexivity.
Qed.

Lemma getitem_field (repr : pyval -> string) (fields : list (string * pyval))
    (k : string) (v : pyval) :
  lookup k fields = Some v ->
  getitem repr (VDict fields) (VStr k) = Ok v.
Proof. simpl; now intros ->. Qed.

Lemma getitem_no_field (repr : pyval -> string) (fields : list (string * pyval))
    (k : string) :
  lookup k fields = None ->
  getitem repr (VDict fields) (VStr k) = Raise (Exn KeyError (repr (VStr k))).
Proof. simpl; now intros ->. Qed.

(** Only a dictionary can be indexed by a name. *)
Lemma getitem_by_name (repr : pyval -> string) (v : pyval) (k : string)
    (x : pyval) :
  getitem repr v (VStr k) = Ok x ->
  exists fields, v = VDict fields /\ lookup k fields = Some x.
Proof.
  destruct v as [ | b | z | f | s | items | fields ]; try discriminate.
  simpl. intros Hget. exists fields. split; [reflexivity | ].
  destruct (lookup k fields); [congruence | discriminate].
Qed.

(** ** Key-path resolver *)

Lemma get_value_by_key_path_index_path (repr : pyval -> string) (path : list pyval) :
  forall d : pyval,
    Reranking.get_value_by_key_path repr d path =
    Ok (match index_path repr d path with Ok v => v | Raise _ => VNone end).
Proof.
  induction path as [ | key rest IH ]; intros d;
    cbn [Reranking.get_value_by_key_path index_path].
  - reflexivity.
  - destruct (getitem repr d key) as [current | e] eqn:Hget; cbn [rbind].
    + apply IH.
    + now rewrite (getitem_raises _ _ _ _ Hget).
Qed.

(** C2. [get_value_by_key_path] is total: on every structure [d] and every
    list of keys it returns a value and never raises; when successive
    indexing reaches a value it returns that value, and when any step of
    the indexing fails (a missing key, an index out of range, a value that
    cannot be indexed by the key) it returns [None]. *)
Theorem get_value_by_key_path_total :
  forall (repr : pyval -> string) (d : pyval) (path : list pyval),
    (exists v, Reranking.get_value_by_key_path repr d path = Ok v) /\
    (forall v, index_path repr d path = Ok v ->
               Reranking.get_value_by_key_path repr d path = Ok v) /\
    (forall e, index_path repr d path = Raise e ->
               Reranking.get_value_by_key_path repr d path = Ok VNone).
Proof.
  intros repr d path.
  rewrite get_value_by_key_path_index_path.
  repeat split.
  - eauto.
  - now intros v ->.
  - now intros e ->.
Qed.

(** ** Guardrail post-filter *)

Lemma apply_output_guardrail_handler (w : world) (variables : pyval)
    (regionName : string) (output_text : pyval) (e : exn) :
  result_of (Guardrails.policy_evaluation w variables regionName output_text)
    = Raise e ->
  Guardrails.apply_output_guardrail w variables regionName output_text =
    ((events (Guardrails.policy_evaluation w variables regionName output_text)
      ++ [Printed ("Warning: Output guardrail application failed: " ++ str e)])%list,
     Ok output_text).
Proof.
  intros Hraise. unfold Guardrails.apply_output_guardrail.
  now rewrite (try_except_raise _ _ e Hraise).
Qed.

(** Whatever the service and the configuration do, the filter returns. *)
Lemma apply_output_guardrail_returns (w : world) (variables : pyval)
    (regionName : string) (output_text : pyval) :
  result_of (Guardrails.apply_output_guardrail w variables regionName output_text) =
  Ok (match result_of
              (Guardrails.policy_evaluation w variables regionName output_text)
      with
      | Ok filtered => filtered
      | Raise _ => output_text
      end).
Proof.
  unfold Guardrails.apply_output_guardrail.
  now destruct (Guardrails.policy_evaluation w variables regionName output_text)
    as [t [filtered | e]].
Qed.

(** A transport failure: the service call raises, so the block raises. *)
Lemma policy_evaluation_call_raises (w : world) (variables : pyval)
    (regionName : string) (output_text : pyval) (e : exn) :
  (forall kwargs,
      aws w (Guardrails.bedrock_client regionName) "apply_guardrail" kwargs
      = Raise e) ->
  exists e',
    result_of (Guardrails.policy_evaluation w variables regionName output_text)
    = Raise e'.
Proof.
  intros Hcall. unfold Guardrails.policy_evaluation.
  rewrite result_of_bind, result_of_lift.
  destruct (getitem (repr w) variables (VStr "guardrail_id")) as [gid | e1];
    [ | now exists e1 ].
  rewrite result_of_bind, result_of_lift.
  destruct (getitem (repr w) variables (VStr "guardrail_version")) as [gver | e2];
    [ | now exists e2 ].
  rewrite result_of_bind, result_of_call, Hcall.
  now exists e.
Qed.

(** Missing fields: an answer whose first output has no [text] makes the
    block raise. *)
Lemma policy_evaluation_missing_text (w : world) (regionName : string)
    (output_text : pyval) :
  (forall c op kwargs,
      aws w c op kwargs = Ok (VDict [("outputs", VList [VDict []])])) ->
  result_of
    (Guardrails.policy_evaluation w Scenario.variables regionName output_text)
  = Raise (Exn KeyError (repr w (VStr "text"))).
Proof.
  intros Hcall. unfold Guardrails.policy_evaluation, call, lift, bind, result_of.
  cbn. rewrite Hcall. reflexivity.
Qed.

(** C1. When the policy evaluation inside [apply_output_guardrail] raises
    an exception (the service call failing, or the reading of a malformed
    answer or of an answer with missing fields), the function prints its
    warning, does not raise, and returns the very text it was given. *)
Theorem apply_output_guardrail_passthrough :
  forall (w : world) (variables : pyval) (regionName : string)
         (output_text : pyval) (e : exn),
    result_of (Guardrails.policy_evaluation w variables regionName output_text)
      = Raise e ->
    result_of (Guardrails.apply_output_guardrail w variables regionName output_text)
      = Ok output_text /\
    events (Guardrails.apply_output_guardrail w variables regionName output_text)
      = (events (Guardrails.policy_evaluation w variables regionName output_text)
         ++ [Printed ("Warning: Output guardrail application failed: " ++ str e)])%list.
Proof.
  intros w variables regionName output_text e Hraise.
  now rewrite (apply_output_guardrail_handler _ _ _ _ _ Hraise).
Qed.

Lemma apply_output_guardrail_passthrough_witness :
  result_of (Guardrails.apply_output_guardrail Scenario.offline
               Scenario.variables Scenario.region (VStr "Sales grew 12%."))
    = Ok (VStr "Sales grew 12%.") /\
  events (Guardrails.apply_output_guardrail Scenario.offline
            Scenario.variables Scenario.region (VStr "Sales grew 12%."))
    = (events (Guardrails.policy_evaluation Scenario.offline
                 Scenario.variables Scenario.region (VStr "Sales grew 12%."))
       ++ [Printed ("Warning: Output guardrail application failed: "
                    ++ str Scenario.timeout)])%list.
Proof.
  apply (apply_output_guardrail_passthrough Scenario.offline Scenario.variables
           Scenario.region (VStr "Sales grew 12%.") Scenario.timeout).
  reflexivity.
Defined.

(** The same when the service call is the one that fails, on any
    configuration. *)
Lemma apply_output_guardrail_transport_failure (w : world) (variables : pyval)
    (regionName : string) (output_text : pyval) (e : exn) :
  (forall kwargs,
      aws w (Guardrails.bedrock_client regionName) "apply_guardrail" kwargs
      = Raise e) ->
  result_of (Guardrails.apply_output_guardrail w variables regionName output_text)
    = Ok output_text.
Proof.
  intros Hcall.
  destruct (policy_evaluation_call_raises w variables regionName output_text e Hcall)
    as [e' He'].
  now rewrite apply_output_guardrail_returns, He'.
Qed.

(** ** Reranker *)

Lemma seq_index_in_bounds {A : Type} (l : list A) (i : Z) :
  in_bounds (List.length l) i -> exists v, seq_index l i = Some v.
Proof.
  unfold in_bounds, seq_index. intros [Hlo Hhi].
  destruct (0 <=? i)%Z eqn:Hsign.
  - apply Z.leb_le in Hsign.
    destruct (nth_error l (Z.to_nat i)) as [v | ] eqn:Hnth; [now exists v | ].
    apply nth_error_None in Hnth. lia.
  - apply Z.leb_gt in Hsign.
    destruct (- Z.of_nat (List.length l) <=? i)%Z eqn:Hneg.
    + destruct (nth_error l (Z.to_nat (Z.of_nat (List.length l) + i)))
        as [v | ] eqn:Hnth; [now exists v | ].
      apply nth_error_None in Hnth. lia.
    + apply Z.leb_gt in Hneg. lia.
Qed.

Lemma seq_index_out_of_bounds {A : Type} (l : list A) (i : Z) :
  ~ in_bounds (List.length l) i -> seq_index l i = None.
Proof.
  unfold in_bounds, seq_index. intros Hout.
  destruct (0 <=? i)%Z eqn:Hsign.
  - apply Z.leb_le in Hsign. apply nth_error_None. lia.
  - apply Z.leb_gt in Hsign.
    destruct (- Z.of_nat (List.length l) <=? i)%Z eqn:Hneg; [ | reflexivity ].
    apply Z.leb_le in Hneg. lia.
Qed.

Lemma get_field (entry : pyval) (k : string) (default v : pyval) :
  field k entry = Some v -> get entry k default = Ok v.
Proof.
  destruct entry; try discriminate. simpl. now intros ->.
Qed.

Lemma get_score (fields : list (string * pyval)) :
  get (VDict fields) "relevanceScore" (VInt 0) = Ok (score_of (VDict fields)).
Proof.
  unfold score_of. simpl. now destruct (lookup "relevanceScore" fields).
Qed.

Lemma selects_dict (entry : pyval) (idx : Z) :
  selects entry idx ->
  exists fields, entry = VDict fields /\ get entry "index" (VInt 0) = Ok (VInt idx).
Proof.
  intros [Hidx | (fields & -> & Hnone & ->)].
  - destruct entry; try discriminate. exists fields. split; [reflexivity | ].
    now apply get_field.
  - exists fields. split; [reflexivity | ]. simpl. now rewrite Hnone.
Qed.

(** One entry that selects a passage adds it, at the next position. *)
Lemma add_reranked_selects (w : world) (docs acc : list pyval) (entry : pyval)
    (idx : Z) :
  selects entry idx ->
  in_bounds (List.length docs) idx ->
  Reranking.add_reranked w (VList docs) acc entry =
    Ok (acc ++ [reranked_passage docs (S (List.length acc)) idx entry])%list.
Proof.
  intros Hsel Hin. unfold Reranking.add_reranked.
  destruct (selects_dict entry idx Hsel) as (fields & -> & ->).
  cbn [rbind plus_one]. rewrite get_score. cbn [rbind getitem].
  destruct (seq_index_in_bounds docs idx Hin) as [text Htext].
  unfold reranked_passage, passage_at. rewrite Htext. cbn [rbind].
  now rewrite Nat2Z.inj_succ, Z.add_1_r.
Qed.

(** An entry whose index Python rejects stops the loop. *)
Lemma add_reranked_out_of_bounds (w : world) (docs acc : list pyval)
    (entry : pyval) (idx : Z) :
  indexed entry idx ->
  ~ in_bounds (List.length docs) idx ->
  Reranking.add_reranked w (VList docs) acc entry =
    Raise (Exn IndexError "list index out of range").
Proof.
  intros Hidx Hout. unfold Reranking.add_reranked.
  destruct (selects_dict entry idx (or_introl Hidx)) as (fields & -> & ->).
  cbn [rbind plus_one]. rewrite get_score. cbn [rbind getitem].
  now rewrite (seq_index_out_of_bounds docs idx Hout).
Qed.

Lemma for_each_add_reranked (w : world) (docs : list pyval) :
  forall (entries : list pyval) (idxs : list Z) (acc : list pyval),
    Forall2 (fun entry idx => selects entry idx /\ in_bounds (List.length docs) idx)
            entries idxs ->
    for_each entries acc (Reranking.add_reranked w (VList docs)) =
      Ok (acc ++ reranked_passages docs (S (List.length acc)) entries idxs)%list.
Proof.
  intros entries idxs acc Hall. revert acc.
  induction Hall as [ | entry idx entries idxs [Hsel Hin] _ IH ]; intros acc;
    cbn [for_each reranked_passages].
  - now rewrite app_nil_r.
  - rewrite (add_reranked_selects w docs acc entry idx Hsel Hin). cbn [rbind].
    rewrite IH, length_app, Nat.add_1_r, <- app_assoc. reflexivity.
Qed.

(** A loop stops at the first element its body raises on. *)
Lemma for_each_raises {A S : Type} (body : S -> A -> outcome S) (x : A) :
  (forall s, exists e, body s x = Raise e) ->
  forall (items : list A) (s : S),
    In x items -> exists e, for_each items s body = Raise e.
Proof.
  intros Hbody items. induction items as [ | y rest IH ]; intros s Hin.
  - destruct Hin.
  - cbn [for_each]. destruct Hin as [-> | Hin].
    + destruct (Hbody s) as [e ->]. now exists e.
    + destruct (body s y) as [s' | e]; cbn [rbind]; [now apply IH | now exists e].
Qed.

Lemma nth_error_reranked_passages (docs : list pyval) :
  forall (entries : list pyval) (idxs : list Z) (start n : nat)
         (entry : pyval) (idx : Z),
    nth_error entries n = Some entry ->
    nth_error idxs n = Some idx ->
    nth_error (reranked_passages docs start entries idxs) n =
      Some (reranked_passage docs (start + n) idx entry).
Proof.
  induction entries as [ | entry' entries IH ]; intros [ | idx' idxs ] start n entry idx;
    destruct n as [ | n ]; simpl; try discriminate.
  - intros [= ->] [= ->]. now rewrite Nat.add_0_r.
  - intros Hentry Hidx. rewrite (IH idxs (S start) n entry idx Hentry Hidx).
    now rewrite Nat.add_succ_r.
Qed.

Lemma reranked_passages_length (docs : list pyval) :
  forall (entries : list pyval) (idxs : list Z) (start : nat),
    List.length entries = List.length idxs ->
    List.length (reranked_passages docs start entries idxs) = List.length entries.
Proof.
  induction entries as [ | entry entries IH ]; intros [ | idx idxs ] start Hlen;
    simpl in *; try discriminate; auto.
Qed.

Lemma reranked_passages_new_position (docs : list pyval) :
  forall (entries : list pyval) (idxs : list Z) (start : nat),
    List.length entries = List.length idxs ->
    map (field "new_position") (reranked_passages docs start entries idxs) =
    map (fun n => Some (VInt (Z.of_nat n))) (seq start (List.length entries)).
Proof.
  induction entries as [ | entry entries IH ]; intros [ | idx idxs ] start Hlen;
    simpl in *; try discriminate; auto.
  f_equal. apply IH. now injection Hlen.
Qed.

Lemma reranked_passages_original_position (docs : list pyval) :
  forall (entries : list pyval) (idxs : list Z) (start : nat),
    List.length entries = List.length idxs ->
    map (field "original_position") (reranked_passages docs start entries idxs) =
    map (fun idx => Some (VInt (idx + 1))) idxs.
Proof.
  induction entries as [ | entry entries IH ]; intros [ | idx idxs ] start Hlen;
    simpl in *; try discriminate; auto.
  f_equal. apply IH. now injection Hlen.
Qed.

Lemma reranked_passages_text (docs : list pyval) :
  forall (entries : list pyval) (idxs : list Z) (start : nat),
    List.length entries = List.length idxs ->
    map (field "text") (reranked_passages docs start entries idxs) =
    map (fun idx => Some (passage_at docs idx)) idxs.
Proof.
  induction entries as [ | entry entries IH ]; intros [ | idx idxs ] start Hlen;
    simpl in *; try discriminate; auto.
  f_equal. apply IH. now injection Hlen.
Qed.

(** What [rerank_results] returns when every entry selects a passage. *)
Lemma rerank_results_selects (w : world) (regionName query : string)
    (docs : list pyval) (rerank_model_arn : string) (reranked_result_count : Z)
    (reranked : pyval) (entries : list pyval) (idxs : list Z) :
  (forall kwargs,
      aws w (Client "bedrock-agent-runtime" (Some regionName)) "rerank" kwargs
      = Ok reranked) ->
  field "results" reranked = Some (VList entries) ->
  Forall2 (fun entry idx => selects entry idx /\ in_bounds (List.length docs) idx)
          entries idxs ->
  result_of (Reranking.rerank_results w regionName query (VList docs)
               rerank_model_arn reranked_result_count) =
    Ok (VDict [("original_results", VList docs);
               ("reranked_results",
                VList (reranked_passages docs 1 entries idxs))]).
Proof.
  intros Hcall Hresults Hall. unfold Reranking.rerank_results.
  rewrite result_of_bind, result_of_lift. cbn [iter].
  rewrite result_of_bind, result_of_call, Hcall.
  rewrite result_of_bind, result_of_lift, (get_field _ _ _ _ Hresults).
  rewrite result_of_bind, result_of_lift. cbn [iter].
  rewrite result_of_bind, result_of_lift.
  now rewrite (for_each_add_reranked w docs entries idxs [] Hall).
Qed.

(** C3. On a rerank response whose entries each carry an integer index
    into the passage list, at most [reranked_result_count] of them as the
    backend was asked, [rerank_results] returns passages whose
    [new_position] values are exactly 1, 2, ..., N in order, N being the
    number of passages returned (no more than [reranked_result_count]),
    and whose [original_position] is the entry's index plus 1. *)
Theorem rerank_results_positions :
  forall (w : world) (regionName query : string) (docs : list pyval)
         (rerank_model_arn : string) (reranked_result_count : Z)
         (reranked : pyval) (entries : list pyval) (idxs : list Z),
    (forall kwargs,
        aws w (Client "bedrock-agent-runtime" (Some regionName)) "rerank" kwargs
        = Ok reranked) ->
    field "results" reranked = Some (VList entries) ->
    Forall2 (fun entry idx => indexed entry idx /\ in_bounds (List.length docs) idx)
            entries idxs ->
    (Z.of_nat (List.length entries) <= reranked_result_count)%Z ->
    exists passages : list pyval,
      result_of (Reranking.rerank_results w regionName query (VList docs)
                   rerank_model_arn reranked_result_count) =
        Ok (VDict [("original_results", VList docs);
                   ("reranked_results", VList passages)]) /\
      List.length passages = List.length entries /\
      (Z.of_nat (List.length passages) <= reranked_result_count)%Z /\
      map (field "new_position") passages =
        map (fun n => Some (VInt (Z.of_nat n))) (seq 1 (List.length passages)) /\
      map (field "original_position") passages =
        map (fun idx => Some (VInt (idx + 1))) idxs.
Proof.
  intros w regionName query docs arn top_k reranked entries idxs
         Hcall Hresults Hall Hcount.
  assert (Hlen : List.length entries = List.length idxs)
    by exact (Forall2_length Hall).
  assert (Hsel : Forall2 (fun entry idx =>
                            selects entry idx /\ in_bounds (List.length docs) idx)
                         entries idxs).
  { apply Forall2_impl with (2 := Hall).
    intros entry idx [Hidx Hin]. split; [now left | assumption]. }
  exists (reranked_passages docs 1 entries idxs).
  rewrite (reranked_passages_length docs entries idxs 1 Hlen).
  repeat split.
  - now apply rerank_results_selects with (reranked := reranked).
  - assumption.
  - now apply reranked_passages_new_position.
  - now apply reranked_passages_original_position.
Qed.

Lemma rerank_results_positions_witness :
  exists passages : list pyval,
    result_of (Reranking.rerank_results (Scenario.answering Scenario.reranked5)
                 Scenario.region "What is red teaming?"
                 (VList Scenario.passages20) "arn:rerank" 5) =
      Ok (VDict [("original_results", VList Scenario.passages20);
                 ("reranked_results", VList passages)]) /\
    List.length passages = List.length Scenario.entries5 /\
    (Z.of_nat (List.length passages) <= 5)%Z /\
    map (field "new_position") passages =
      map (fun n => Some (VInt (Z.of_nat n))) (seq 1 (List.length passages)) /\
    map (field "original_position") passages =
      map (fun idx => Some (VInt (idx + 1))) Scenario.top5.
Proof.
  apply (rerank_results_positions (Scenario.answering Scenario.reranked5)
           Scenario.region "What is red teaming?" Scenario.passages20
           "arn:rerank" 5 Scenario.reranked5 Scenario.entries5 Scenario.top5).
  - reflexivity.
  - reflexivity.
  - repeat constructor; simpl; lia.
  - simpl; lia.
Defined.

Lemma Forall2_nth_error_left {A B : Type} (R : A -> B -> Prop) :
  forall (l1 : list A) (l2 : list B) (n : nat) (a : A),
    Forall2 R l1 l2 ->
    nth_error l1 n = Some a ->
    exists b, nth_error l2 n = Some b /\ R a b.
Proof.
  intros l1 l2 n a Hall. revert n.
  induction Hall as [ | x y l1 l2 Hxy _ IH ]; intros [ | n ]; simpl;
    try discriminate.
  - intros [= ->]. now exists y.
  - apply IH.
Qed.

Lemma rerank_results_raises (w : world) (regionName query : string)
    (docs : list pyval) (rerank_model_arn : string) (reranked_result_count : Z)
    (reranked : pyval) (entries : list pyval) (entry : pyval) (idx : Z) :
  (forall kwargs,
      aws w (Client "bedrock-agent-runtime" (Some regionName)) "rerank" kwargs
      = Ok reranked) ->
  field "results" reranked = Some (VList entries) ->
  In entry entries ->
  indexed entry idx ->
  ~ in_bounds (List.length docs) idx ->
  exists e,
    result_of (Reranking.rerank_results w regionName query (VList docs)
                 rerank_model_arn reranked_result_count) = Raise e.
Proof.
  intros Hcall Hresults Hin Hidx Hout. unfold Reranking.rerank_results.
  rewrite result_of_bind, result_of_lift. cbn [iter].
  rewrite result_of_bind, result_of_call, Hcall.
  rewrite result_of_bind, result_of_lift, (get_field _ _ _ _ Hresults).
  rewrite result_of_bind, result_of_lift. cbn [iter].
  rewrite result_of_bind, result_of_lift.
  destruct (for_each_raises (Reranking.add_reranked w (VList docs)) entry)
    with (items := entries) (s := @nil pyval) as [e ->].
  - intros acc. eexists. now apply add_reranked_out_of_bounds with (idx := idx).
  - assumption.
  - now exists e.
Qed.

(** C10. An entry of the rerank response that has no [index] is read as
    index 0: [rerank_results] returns, and the passage it makes for that
    entry has [original_position] 1 and the text of the first input
    passage. An entry whose index lies outside the bounds of the input
    passage list makes [rerank_results] raise, and nothing in it catches
    the exception. *)
Theorem rerank_results_index_default_and_bounds :
  (forall (w : world) (regionName query : string) (docs : list pyval)
          (first : pyval) (rerank_model_arn : string) (reranked_result_count : Z)
          (reranked : pyval) (entries : list pyval) (idxs : list Z)
          (n : nat) (entry : pyval),
      (forall kwargs,
          aws w (Client "bedrock-agent-runtime" (Some regionName)) "rerank" kwargs
          = Ok reranked) ->
      field "results" reranked = Some (VList entries) ->
      Forall2 (fun entry idx => selects entry idx /\ in_bounds (List.length docs) idx)
              entries idxs ->
      nth_error entries n = Some entry ->
      field "index" entry = None ->
      nth_error docs 0 = Some first ->
      exists passages : list pyval,
        result_of (Reranking.rerank_results w regionName query (VList docs)
                     rerank_model_arn reranked_result_count) =
          Ok (VDict [("original_results", VList docs);
                     ("reranked_results", VList passages)]) /\
        nth_error passages n =
          Some (VDict [("original_position", VInt 1);
                       ("new_position", VInt (Z.of_nat (S n)));
                       ("relevance_score", score_of entry);
                       ("text", first)])) /\
  (forall (w : world) (regionName query : string) (docs : list pyval)
          (rerank_model_arn : string) (reranked_result_count : Z)
          (reranked : pyval) (entries : list pyval) (entry : pyval) (idx : Z),
      (forall kwargs,
          aws w (Client "bedrock-agent-runtime" (Some regionName)) "rerank" kwargs
          = Ok reranked) ->
      field "results" reranked = Some (VList entries) ->
      In entry entries ->
      indexed entry idx ->
      ~ in_bounds (List.length docs) idx ->
      exists e,
        result_of (Reranking.rerank_results w regionName query (VList docs)
                     rerank_model_arn reranked_result_count) = Raise e).
Proof.
  split.
  - intros w regionName query docs first arn count reranked entries idxs n entry
           Hcall Hresults Hall Hentry Hnone Hfirst.
    exists (reranked_passages docs 1 entries idxs). split.
    + now apply rerank_results_selects with (reranked := reranked).
    + destruct (Forall2_nth_error_left _ entries idxs n entry Hall Hentry)
        as (idx & Hidx & [Hsel | (fields & -> & _ & ->)] & _).
      * unfold indexed in Hsel. congruence.
      * rewrite (nth_error_reranked_passages docs entries idxs 1 n _ 0%Z Hentry Hidx).
        unfold reranked_passage, passage_at, seq_index.
        cbn [Z.leb Z.compare Z.to_nat]. now rewrite Hfirst.
  - intros w regionName query docs arn count reranked entries entry idx.
    apply rerank_results_raises.
Qed.

Lemma rerank_results_index_default_and_bounds_witness :
  (exists passages : list pyval,
      result_of (Reranking.rerank_results
                   (Scenario.answering Scenario.reranked_unindexed)
                   Scenario.region "What is red teaming?"
                   (VList Scenario.passages20) "arn:rerank" 5) =
        Ok (VDict [("original_results", VList Scenario.passages20);
                   ("reranked_results", VList passages)]) /\
      nth_error passages 1 =
        Some (VDict [("original_position", VInt 1);
                     ("new_position", VInt 2);
                     ("relevance_score", VFloat 0.5);
                     ("text", VStr "passage 0")])) /\
  (exists e,
      result_of (Reranking.rerank_results
                   (Scenario.answering Scenario.reranked_past_end)
                   Scenario.region "What is red teaming?"
                   (VList Scenario.passages20) "arn:rerank" 5) = Raise e).
Proof.
  split.
  - apply (proj1 rerank_results_index_default_and_bounds
             (Scenario.answering Scenario.reranked_unindexed) Scenario.region
             "What is red teaming?" Scenario.passages20 (VStr "passage 0")
             "arn:rerank" 5%Z Scenario.reranked_unindexed
             [Scenario.entry 7 0.875; Scenario.unindexed] [7; 0]%Z
             1 Scenario.unindexed).
    + reflexivity.
    + reflexivity.
    + apply Forall2_cons; [ | apply Forall2_cons; [ | apply Forall2_nil ] ].
      * split; [left; reflexivity | unfold in_bounds; simpl; lia].
      * split; [right | unfold in_bounds; simpl; lia].
        exists [("relevanceScore", VFloat 0.5)]. repeat split.
    + reflexivity.
    + reflexivity.
    + reflexivity.
  - apply (proj2 rerank_results_index_default_and_bounds
             (Scenario.answering Scenario.reranked_past_end) Scenario.region
             "What is red teaming?" Scenario.passages20
             "arn:rerank" 5%Z Scenario.reranked_past_end
             [Scenario.entry 7 0.875; Scenario.entry 20 0.5]
             (Scenario.entry 20 0.5) 20%Z).
    + reflexivity.
    + reflexivity.
    + right. left. reflexivity.
    + reflexivity.
    + unfold in_bounds. simpl. lia.
Defined.

(** Python's bounds include the negative indices that count from the end:
    an entry with index -1 selects the last passage, at original
    position 0. *)
Example rerank_results_negative_index :
  result_of (Reranking.rerank_results
               (Scenario.answering
                  (VDict [("results", VList [Scenario.entry (-1) 0.5])]))
               Scenario.region "What is red teaming?"
               (VList Scenario.passages20) "arn:rerank" 5) =
    Ok (VDict [("original_results", VList Scenario.passages20);
               ("reranked_results",
                VList [VDict [("original_position", VInt 0);
                              ("new_position", VInt 1);
                              ("relevance_score", VFloat 0.5);
                              ("text", VStr "passage 19")]])]).
Proof. reflexivity. Qed.

(** ** Raw-endpoint generation *)

Lemma generated_text_same (w : world) (result : pyval) :
  Guardrails.generated_text w result = SageMakerRAG.generated_text w result.
Proof. reflexivity. Qed.

Lemma generated_text_yields (w : world) (result x : pyval) :
  yields result x -> SageMakerRAG.generated_text w result = Ok x.
Proof.
  intros [fields rest y Hfield | fields y Hfield | fields y Hnone Hfield];
    unfold SageMakerRAG.generated_text; simpl.
  - now rewrite Hfield.
  - now rewrite Hfield.
  - now rewrite Hnone, Hfield.
Qed.

Lemma generated_text_other (w : world) (result : pyval) :
  (forall x, ~ yields result x) ->
  exists e, SageMakerRAG.generated_text w result = Raise e.
Proof.
  intros Hother. unfold SageMakerRAG.generated_text.
  destruct result as [ | b | z | f | s | items | fields ];
    try (eexists; reflexivity).
  - (* a string: both tests are substring tests *)
    simpl. destruct (substring "generated_text" s); simpl; [eexists; reflexivity | ].
    destruct (substring "generation" s); simpl; eexists; reflexivity.
  - (* a list *)
    destruct items as [ | first rest ]; [eexists; reflexivity | ].
    destruct (getitem (repr w) first (VStr "generated_text")) as [x | e] eqn:Hget.
    + destruct (getitem_by_name _ _ _ _ Hget) as (fields & -> & Hfield).
      exfalso. apply (Hother x). now constructor.
    + exists e. cbn [isinstance_list]. cbn [getitem seq_index]. simpl.
      simpl in Hget. exact Hget.
  - (* a dictionary *)
    simpl.
    destruct (lookup "generated_text" fields) as [x | ] eqn:Hgt.
    + exfalso. apply (Hother x). now constructor.
    + simpl. destruct (lookup "generation" fields) as [x | ] eqn:Hg.
      * exfalso. apply (Hother x). now constructor.
      * simpl. eexists; reflexivity.
Qed.

Lemma generate_response_result (w : world) (prompt endpoint_name : string)
    (result : pyval) :
  endpoint_answers w result ->
  result_of (SageMakerRAG.generate_response w prompt endpoint_name) =
  match SageMakerRAG.generated_text w result with
  | Ok x => Ok x
  | Raise e => Raise (Exn RuntimeError ("Generation failed: " ++ str e))
  end.
Proof.
  intros (body & bytes & text & Hdumps & Hcall & Hdecode & Hloads).
  unfold SageMakerRAG.generate_response. rewrite try_except_reraise.
  rewrite result_of_bind, result_of_lift, Hdumps.
  rewrite result_of_bind. unfold call_endpoint at 1. cbn [result_of snd].
  rewrite Hcall.
  rewrite result_of_bind, result_of_lift, Hdecode.
  rewrite result_of_bind, result_of_lift, Hloads.
  rewrite result_of_lift. reflexivity.
Qed.

Lemma guardrails_generate_response_result (w : world) (ENDPOINT_NAME : pyval)
    (prompt : string) (result : pyval) :
  endpoint_answers w result ->
  result_of (Guardrails.generate_response w ENDPOINT_NAME prompt) =
  match Guardrails.generated_text w result with
  | Ok x => Ok x
  | Raise e => Raise (Exn RuntimeError ("Generation failed: " ++ str e))
  end.
Proof.
  intros (body & bytes & text & Hdumps & Hcall & Hdecode & Hloads).
  unfold Guardrails.generate_response. rewrite try_except_reraise.
  rewrite result_of_bind, result_of_lift, Hdumps.
  rewrite result_of_bind. unfold call_endpoint at 1. cbn [result_of snd].
  rewrite Hcall.
  rewrite result_of_bind, result_of_lift, Hdecode.
  rewrite result_of_bind, result_of_lift, Hloads.
  rewrite result_of_lift. reflexivity.
Qed.

(** C4. On a parsed response body, [generate_response] of either notebook
    tests the shapes in order: a list yields the [generated_text] of its
    first element, a mapping with [generated_text] yields that value, a
    mapping with [generation] and no [generated_text] yields that value;
    on a body of any other shape it raises the run-time error
    "Generation failed: ..." and returns nothing. *)
Theorem generate_response_shapes :
  forall (w : world) (prompt endpoint_name : string) (ENDPOINT_NAME : pyval)
         (result : pyval),
    endpoint_answers w result ->
    (forall x, yields result x ->
       result_of (SageMakerRAG.generate_response w prompt endpoint_name) = Ok x /\
       result_of (Guardrails.generate_response w ENDPOINT_NAME prompt) = Ok x) /\
    ((forall x, ~ yields result x) ->
       exists cause : string,
         result_of (SageMakerRAG.generate_response w prompt endpoint_name) =
           Raise (Exn RuntimeError ("Generation failed: " ++ cause)) /\
         result_of (Guardrails.generate_response w ENDPOINT_NAME prompt) =
           Raise (Exn RuntimeError ("Generation failed: " ++ cause))).
Proof.
  intros w prompt endpoint_name ENDPOINT_NAME result Hanswers.
  rewrite (generate_response_result w prompt endpoint_name result Hanswers).
  rewrite (guardrails_generate_response_result w ENDPOINT_NAME prompt result Hanswers).
  change (Guardrails.generated_text w result)
    with (SageMakerRAG.generated_text w result).
  split.
  - intros x Hyields. now rewrite (generated_text_yields w result x Hyields).
  - intros Hother. destruct (generated_text_other w result Hother) as [e ->].
    now exists (str e).
Qed.

Lemma endpoint_saying_answers (parsed : pyval) :
  endpoint_answers (Scenario.endpoint_saying parsed) parsed.
Proof.
  exists "{}", "body", "body". repeat split.
Defined.

Lemma generate_response_shapes_witness :
  (result_of (SageMakerRAG.generate_response
                (Scenario.endpoint_saying (VList [VDict [("generated_text", VStr "X")]]))
                "prompt" "llama-endpoint") = Ok (VStr "X") /\
   result_of (Guardrails.generate_response
                (Scenario.endpoint_saying (VList [VDict [("generated_text", VStr "X")]]))
                (VStr "llama-endpoint") "prompt") = Ok (VStr "X")) /\
  (result_of (SageMakerRAG.generate_response
                (Scenario.endpoint_saying (VDict [("generated_text", VStr "X")]))
                "prompt" "llama-endpoint") = Ok (VStr "X") /\
   result_of (Guardrails.generate_response
                (Scenario.endpoint_saying (VDict [("generated_text", VStr "X")]))
                (VStr "llama-endpoint") "prompt") = Ok (VStr "X")) /\
  (result_of (SageMakerRAG.generate_response
                (Scenario.endpoint_saying (VDict [("generation", VStr "X")]))
                "prompt" "llama-endpoint") = Ok (VStr "X") /\
   result_of (Guardrails.generate_response
                (Scenario.endpoint_saying (VDict [("generation", VStr "X")]))
                (VStr "llama-endpoint") "prompt") = Ok (VStr "X")) /\
  (exists cause : string,
     result_of (SageMakerRAG.generate_response
                  (Scenario.endpoint_saying (VDict [("text", VStr "X")]))
                  "prompt" "llama-endpoint") =
       Raise (Exn RuntimeError ("Generation failed: " ++ cause)) /\
     result_of (Guardrails.generate_response
                  (Scenario.endpoint_saying (VDict [("text", VStr "X")]))
                  (VStr "llama-endpoint") "prompt") =
       Raise (Exn RuntimeError ("Generation failed: " ++ cause))).
Proof.
  split; [ | split; [ | split ] ].
  - apply (proj1 (generate_response_shapes _ "prompt" "llama-endpoint"
                    (VStr "llama-endpoint") _ (endpoint_saying_answers _))).
    now constructor.
  - apply (proj1 (generate_response_shapes _ "prompt" "llama-endpoint"
                    (VStr "llama-endpoint") _ (endpoint_saying_answers _))).
    now constructor.
  - apply (proj1 (generate_response_shapes _ "prompt" "llama-endpoint"
                    (VStr "llama-endpoint") _ (endpoint_saying_answers _))).
    now constructor.
  - apply (proj2 (generate_response_shapes _ "prompt" "llama-endpoint"
                    (VStr "llama-endpoint") _ (endpoint_saying_answers _))).
    intros x Hyields. inversion Hyields; discriminate.
Defined.

(** The other shapes all raise: a number, a string that merely mentions
    the key, an empty list. *)
Example generate_response_other_shapes :
  result_of (SageMakerRAG.generate_response (Scenario.endpoint_saying (VInt 5))
               "prompt" "llama-endpoint") =
    Raise (Exn RuntimeError
             "Generation failed: argument of type 'int' is not iterable") /\
  result_of (SageMakerRAG.generate_response
               (Scenario.endpoint_saying (VStr "no generated_text here"))
               "prompt" "llama-endpoint") =
    Raise (Exn RuntimeError
             "Generation failed: string indices must be integers, not 'str'") /\
  result_of (SageMakerRAG.generate_response (Scenario.endpoint_saying (VList []))
               "prompt" "llama-endpoint") =
    Raise (Exn RuntimeError "Generation failed: list index out of range") /\
  result_of (SageMakerRAG.generate_response
               (Scenario.endpoint_saying (VDict [("text", VStr "X")]))
               "prompt" "llama-endpoint") =
    Raise (Exn RuntimeError "Generation failed: Unexpected response format").
Proof. repeat split. Qed.

(** ** Retrieval failures *)

Lemma retrieve_from_bedrock_failure (w : world) (regionName query kb_id : string)
    (num_results : Z) (e : exn) :
  (forall c op kwargs, aws w c op kwargs = Raise e) ->
  result_of (SageMakerRAG.retrieve_from_bedrock w regionName query kb_id num_results)
  = Raise (Exn RuntimeError ("Bedrock retrieval failed: " ++ str e)).
Proof.
  intros Hcall. unfold SageMakerRAG.retrieve_from_bedrock.
  now rewrite try_except_reraise, result_of_bind, result_of_call, Hcall.
Qed.

Lemma filtered_retrieve_from_bedrock_failure (w : world) (regionName : string)
    (KNOWLEDGE_BASE_ID : pyval) (query : string) (e : exn) :
  (forall c op kwargs, aws w c op kwargs = Raise e) ->
  result_of (Guardrails.retrieve_from_bedrock w regionName KNOWLEDGE_BASE_ID query)
  = Raise (Exn RuntimeError ("Bedrock retrieval failed: " ++ str e)).
Proof.
  intros Hcall. unfold Guardrails.retrieve_from_bedrock.
  now rewrite try_except_reraise, result_of_bind, result_of_call, Hcall.
Qed.

Lemma search_kb_failure (w : world) (regionName query kb_id : string)
    (numberOfResults : Z) (e : exn) :
  (forall c op kwargs, aws w c op kwargs = Raise e) ->
  result_of (Reranking.search_kb w regionName query kb_id numberOfResults)
  = Raise e.
Proof.
  intros Hcall. unfold Reranking.search_kb.
  now rewrite result_of_bind, result_of_call, Hcall.
Qed.

(** An error met while reading the answer is wrapped the same way: a
    result with no [content] fails the whole retrieval. *)
Example retrieve_from_bedrock_no_partial_results :
  result_of (SageMakerRAG.retrieve_from_bedrock
               (Scenario.answering
                  (VDict [("retrievalResults",
                           VList [VDict [("content", VDict [("text", VStr "a")])];
                                  VDict [("score", VInt 1)]])]))
               Scenario.region "query" "KB1" 5)
  = Raise (Exn RuntimeError "Bedrock retrieval failed: 'content'").
Proof. reflexivity. Qed.

(** C5, as the claim states it, fails on [search_kb]: with the service
    timing out, the caller of [search_kb] meets the client's own exception,
    not a classified retrieval failure. *)
Lemma search_kb_does_not_wrap :
  result_of (Reranking.search_kb Scenario.offline Scenario.region
               "What is red teaming?" "KB1" 5)
    = Raise Scenario.timeout /\
  exn_type Scenario.timeout = ClientError /\
  ~ wraps_backend_errors
      (fun w => Reranking.search_kb w Scenario.region "What is red teaming?" "KB1" 5).
Proof.
  split; [reflexivity | split; [reflexivity | ] ].
  intros Hwraps.
  specialize (Hwraps Scenario.offline Scenario.timeout (fun _ _ _ => eq_refl)).
  discriminate Hwraps.
Qed.

(** C5, amended. When the knowledge-base search raises, both
    [retrieve_from_bedrock] functions catch the error and raise the
    run-time error "Bedrock retrieval failed: " followed by the text of the
    original error, whereas [search_kb], which has no handler, lets the
    original error reach its caller unchanged; none of the three returns
    any result. *)
Theorem retrieval_failure_is_raised :
  forall (w : world) (regionName query kb_id : string) (num_results : Z)
         (KNOWLEDGE_BASE_ID : pyval) (e : exn),
    (forall c op kwargs, aws w c op kwargs = Raise e) ->
    result_of (SageMakerRAG.retrieve_from_bedrock w regionName query kb_id num_results)
      = Raise (Exn RuntimeError ("Bedrock retrieval failed: " ++ str e)) /\
    result_of (Guardrails.retrieve_from_bedrock w regionName KNOWLEDGE_BASE_ID query)
      = Raise (Exn RuntimeError ("Bedrock retrieval failed: " ++ str e)) /\
    result_of (Reranking.search_kb w regionName query kb_id num_results)
      = Raise e.
Proof.
  intros w regionName query kb_id num_results KNOWLEDGE_BASE_ID e Hcall.
  repeat split.
  - now apply retrieve_from_bedrock_failure.
  - now apply filtered_retrieve_from_bedrock_failure.
  - now apply search_kb_failure.
Qed.

Lemma retrieval_failure_is_raised_witness :
  result_of (SageMakerRAG.retrieve_from_bedrock Scenario.offline Scenario.region
               "What is red teaming?" "KB1" 5)
    = Raise (Exn RuntimeError
               "Bedrock retrieval failed: Read timeout on endpoint URL") /\
  result_of (Guardrails.retrieve_from_bedrock Scenario.offline Scenario.region
               (VStr "KB1") "What is red teaming?")
    = Raise (Exn RuntimeError
               "Bedrock retrieval failed: Read timeout on endpoint URL") /\
  result_of (Reranking.search_kb Scenario.offline Scenario.region
               "What is red teaming?" "KB1" 5)
    = Raise Scenario.timeout.
Proof.
  apply (retrieval_failure_is_raised Scenario.offline Scenario.region
           "What is red teaming?" "KB1" 5 (VStr "KB1") Scenario.timeout).
  reflexivity.
Defined.

(** ** Generation failures *)

Lemma generate_response_failure (w : world) (prompt endpoint_name : string)
    (e : exn) :
  (forall payload, exists body, json_dumps w payload = Ok body) ->
  (forall c kwargs, endpoint_body w c kwargs = Raise e) ->
  result_of (SageMakerRAG.generate_response w prompt endpoint_name)
  = Raise (Exn RuntimeError ("Generation failed: " ++ str e)).
Proof.
  intros Hdumps Hcall. unfold SageMakerRAG.generate_response.
  rewrite try_except_reraise, result_of_bind, result_of_lift.
  destruct (Hdumps (VDict [("inputs", VStr prompt);
                           ("parameters", SageMakerRAG.generation_configuration)]))
    as [body ->].
  rewrite result_of_bind. unfold call_endpoint at 1. cbn [result_of snd].
  now rewrite Hcall.
Qed.

Lemma guardrails_generate_response_failure (w : world) (ENDPOINT_NAME : pyval)
    (prompt : string) (e : exn) :
  (forall payload, exists body, json_dumps w payload = Ok body) ->
  (forall c kwargs, endpoint_body w c kwargs = Raise e) ->
  result_of (Guardrails.generate_response w ENDPOINT_NAME prompt)
  = Raise (Exn RuntimeError ("Generation failed: " ++ str e)).
Proof.
  intros Hdumps Hcall. unfold Guardrails.generate_response.
  rewrite try_except_reraise, result_of_bind, result_of_lift.
  destruct (Hdumps (VDict [("inputs", VStr prompt);
                           ("parameters", Guardrails.generation_configuration)]))
    as [body ->].
  rewrite result_of_bind. unfold call_endpoint at 1. cbn [result_of snd].
  now rewrite Hcall.
Qed.

Lemma invoke_converse_failure (w : world) (regionName : string)
    (system_prompt user_prompt model_id : string) (temperature : float)
    (max_tokens : Z) (e : exn) :
  (forall c op kwargs, aws w c op kwargs = Raise e) ->
  exists kwargs,
    Reranking.invoke_converse w regionName system_prompt user_prompt model_id
      temperature max_tokens =
    ([Called (Client "bedrock-runtime" (Some regionName)) "converse" kwargs;
      Printed ("Error in invoke_converse: " ++ str e)],
     Ok (VNone, VNone)).
Proof.
  intros Hcall. eexists. unfold Reranking.invoke_converse.
  cbv zeta. unfold call at 1. rewrite Hcall. reflexivity.
Qed.

(** C6, as the claim states it, fails on [invoke_converse]: with the
    service timing out it raises nothing; it prints the error and hands
    its caller the pair [(None, None)]. *)
Lemma invoke_converse_swallows_failure :
  Reranking.invoke_converse Scenario.offline Scenario.region
    "Answer from the context." "What is red teaming?" "us.amazon.nova-pro-v1:0"
    Reranking.default_temperature Reranking.default_max_tokens =
  ([Called (Client "bedrock-runtime" (Some Scenario.region)) "converse"
      (VDict [("modelId", VStr "us.amazon.nova-pro-v1:0");
              ("messages",
               VList [VDict [("role", VStr "user");
                             ("content",
                              VList [VDict [("text", VStr "What is red teaming?")]])]]);
              ("system", VList [VDict [("text", VStr "Answer from the context.")]]);
              ("inferenceConfig",
               VDict [("maxTokens", VInt 4096);
                      ("temperature", VFloat Reranking.default_temperature)])]);
    Printed "Error in invoke_converse: Read timeout on endpoint URL"],
   Ok (VNone, VNone)) /\
  ~ surfaces_failure
      (Reranking.invoke_converse Scenario.offline Scenario.region
         "Answer from the context." "What is red teaming?"
         "us.amazon.nova-pro-v1:0"
         Reranking.default_temperature Reranking.default_max_tokens).
Proof.
  split; [reflexivity | ].
  intros [e He]. discriminate He.
Qed.

(** C6, amended. A transport failure of the endpoint call is caught in
    [generate_response] and raised to the caller as the run-time error
    "Generation failed: " followed by the text of the cause. A transport
    failure of the conversational call is caught in [invoke_converse],
    which prints "Error in invoke_converse: " followed by the text of the
    cause and returns [(None, None)] without raising. *)
Theorem generation_failure_handling :
  forall (w : world) (regionName system_prompt user_prompt model_id : string)
         (temperature : float) (max_tokens : Z)
         (prompt endpoint_name : string) (ENDPOINT_NAME : pyval) (e : exn),
    (forall payload, exists body, json_dumps w payload = Ok body) ->
    (forall c kwargs, endpoint_body w c kwargs = Raise e) ->
    (forall c op kwargs, aws w c op kwargs = Raise e) ->
    result_of (SageMakerRAG.generate_response w prompt endpoint_name)
      = Raise (Exn RuntimeError ("Generation failed: " ++ str e)) /\
    result_of (Guardrails.generate_response w ENDPOINT_NAME prompt)
      = Raise (Exn RuntimeError ("Generation failed: " ++ str e)) /\
    exists kwargs,
      Reranking.invoke_converse w regionName system_prompt user_prompt model_id
        temperature max_tokens =
      ([Called (Client "bedrock-runtime" (Some regionName)) "converse" kwargs;
        Printed ("Error in invoke_converse: " ++ str e)],
       Ok (VNone, VNone)).
Proof.
  intros w regionName system_prompt user_prompt model_id temperature max_tokens
         prompt endpoint_name ENDPOINT_NAME e Hdumps Hendpoint Hcall.
  split; [ | split ].
  - now apply generate_response_failure.
  - now apply guardrails_generate_response_failure.
  - now apply invoke_converse_failure.
Qed.

Lemma generation_failure_handling_witness :
  result_of (SageMakerRAG.generate_response Scenario.offline "prompt" "llama-endpoint")
    = Raise (Exn RuntimeError "Generation failed: Read timeout on endpoint URL") /\
  result_of (Guardrails.generate_response Scenario.offline (VStr "llama-endpoint")
               "prompt")
    = Raise (Exn RuntimeError "Generation failed: Read timeout on endpoint URL") /\
  exists kwargs,
    Reranking.invoke_converse Scenario.offline Scenario.region
      "Answer from the context." "What is red teaming?" "us.amazon.nova-pro-v1:0"
      Reranking.default_temperature Reranking.default_max_tokens =
    ([Called (Client "bedrock-runtime" (Some Scenario.region)) "converse" kwargs;
      Printed "Error in invoke_converse: Read timeout on endpoint URL"],
     Ok (VNone, VNone)).
Proof.
  apply (generation_failure_handling Scenario.offline Scenario.region
           "Answer from the context." "What is red teaming?"
           "us.amazon.nova-pro-v1:0"
           Reranking.default_temperature Reranking.default_max_tokens
           "prompt" "llama-endpoint" (VStr "llama-endpoint") Scenario.timeout).
  - intros payload. exists "{}". reflexivity.
  - reflexivity.
  - reflexivity.
Defined.

(** ** The conversational request *)

Lemma events_try_call {A : Type} (w : world) (c : client) (op : string)
    (kwargs : pyval) (k : pyval -> M A) (handler : exn -> M A) :
  exists rest,
    events (try_except (bind (call w c op kwargs) k) handler) =
    Called c op kwargs :: rest.
Proof.
  unfold call, bind, try_except.
  destruct (aws w c op kwargs) as [response | e].
  - destruct (k response) as [t [a | e]].
    + now exists t.
    + destruct (handler e) as [t' r]. now exists (t ++ t')%list.
  - destruct (handler e) as [t' r]. now exists t'.
Qed.

(** C8. The request [invoke_converse] submits wraps [user_prompt] as a
    single user turn, passes [system_prompt] as a separate system field and
    carries the temperature it was given; but its inference configuration
    always asks for 4096 tokens, whatever [max_tokens] the caller passed. *)
Theorem invoke_converse_request :
  forall (w : world) (regionName system_prompt user_prompt model_id : string)
         (temperature : float) (max_tokens : Z),
  exists rest,
    events (Reranking.invoke_converse w regionName system_prompt user_prompt
              model_id temperature max_tokens) =
    Called (Client "bedrock-runtime" (Some regionName)) "converse"
      (VDict [("modelId", VStr model_id);
              ("messages",
               VList [VDict [("role", VStr "user");
                             ("content", VList [VDict [("text", VStr user_prompt)]])]]);
              ("system", VList [VDict [("text", VStr system_prompt)]]);
              ("inferenceConfig",
               VDict [("maxTokens", VInt 4096);
                      ("temperature", VFloat temperature)])])
    :: rest.
Proof.
  intros. unfold Reranking.invoke_converse. cbv zeta. apply events_try_call.
Qed.

(** With [max_tokens = 100] the request still asks for 4096 tokens. *)
Example invoke_converse_max_tokens_100 :
  events (Reranking.invoke_converse Scenario.offline Scenario.region
            "Answer from the context." "What is red teaming?"
            "us.amazon.nova-pro-v1:0" 0.5 100) =
  [Called (Client "bedrock-runtime" (Some Scenario.region)) "converse"
     (VDict [("modelId", VStr "us.amazon.nova-pro-v1:0");
             ("messages",
              VList [VDict [("role", VStr "user");
                            ("content",
                             VList [VDict [("text", VStr "What is red teaming?")]])]]);
             ("system", VList [VDict [("text", VStr "Answer from the context.")]]);
             ("inferenceConfig",
              VDict [("maxTokens", VInt 4096); ("temperature", VFloat 0.5)])]);
   Printed "Error in invoke_converse: Read timeout on endpoint URL"].
Proof. reflexivity. Qed.

(** ** Context assembly *)

Lemma append_assoc (a b c : string) : (a ++ b) ++ c = a ++ b ++ c.
Proof.
  induction a as [ | ch a IH ]; simpl; [reflexivity | now rewrite IH].
Qed.

Lemma append_nil_r (a : string) : a ++ "" = a.
Proof.
  induction a as [ | ch a IH ]; simpl; [reflexivity | now rewrite IH].
Qed.

Lemma str_items_strings (texts : list string) :
  forall n, str_items n (map VStr texts) = Ok texts.
Proof.
  induction texts as [ | text texts IH ]; intros n; simpl; [reflexivity | ].
  now rewrite IH.
Qed.

Lemma join_strings (sep : string) (texts : list string) :
  join sep (VList (map VStr texts)) = Ok (String.concat sep texts).
Proof.
  unfold join. cbn [iter]. now rewrite str_items_strings.
Qed.

Lemma paragraphs_cons (text : string) (texts : list string) :
  paragraphs (text :: texts) = (text ++ nl ++ nl) ++ paragraphs texts.
Proof.
  unfold paragraphs. cbn [map String.concat].
  destruct (map (fun t => t ++ nl ++ nl) texts) as [ | p ps ] eqn:Hmap.
  - cbn [String.concat]. now rewrite append_nil_r.
  - reflexivity.
Qed.


Lemma for_each_add_text (w : world) :
  forall (results : list pyval) (texts : list string) (kb_context : string),
    Forall2 (fun result text => field "text" result = Some (VStr text))
            results texts ->
    for_each results kb_context (Reranking.add_text w) =
      Ok (kb_context ++ paragraphs texts).
Proof.
  intros results texts kb_context Hall. revert kb_context.
  induction Hall as [ | result text results texts Htext _ IH ]; intros kb_context;
    cbn [for_each].
  - unfold paragraphs. cbn [map String.concat]. now rewrite append_nil_r.
  - unfold Reranking.add_text.
    destruct result; try discriminate. cbn [field] in Htext.
    rewrite (getitem_field _ _ _ _ Htext). cbn [rbind plus_str].
    now rewrite IH, paragraphs_cons, !append_assoc.
Qed.

Lemma kb_context_paragraphs (w : world) (reranked_json : pyval)
    (results : list pyval) (texts : list string) :
  field "reranked_results" reranked_json = Some (VList results) ->
  Forall2 (fun result text => field "text" result = Some (VStr text))
          results texts ->
  Reranking.kb_context w reranked_json = Ok (paragraphs texts).
Proof.
  intros Hfield Hall. unfold Reranking.kb_context.
  destruct reranked_json; try discriminate. cbn [field] in Hfield.
  rewrite (getitem_field _ _ _ _ Hfield). cbn [rbind iter].
  now rewrite (for_each_add_text w results texts "" Hall).
Qed.

Lemma seq_index_map {A B : Type} (f : A -> B) (l : list A) (i : Z) :
  seq_index (map f l) i = option_map f (seq_index l i).
Proof.
  unfold seq_index. rewrite length_map.
  destruct (0 <=? i)%Z; [apply nth_error_map | ].
  destruct (- Z.of_nat (List.length l) <=? i)%Z; [apply nth_error_map | reflexivity].
Qed.

Lemma reranked_passages_texts (texts : list string) :
  forall (entries : list pyval) (idxs : list Z) (start : nat),
    Forall2 (fun entry idx => indexed entry idx /\ in_bounds (List.length texts) idx)
            entries idxs ->
    Forall2 (fun result text => field "text" result = Some (VStr text))
            (reranked_passages (map VStr texts) start entries idxs)
            (selected texts idxs).
Proof.
  intros entries idxs start Hall. revert start.
  induction Hall as [ | entry idx entries idxs [_ Hin] _ IH ]; intros start;
    cbn [reranked_passages selected map]; constructor.
  - unfold reranked_passage, passage_at. cbn [field lookup String.eqb Ascii.eqb Bool.eqb].
    rewrite seq_index_map.
    destruct (seq_index_in_bounds texts idx Hin) as [text ->]. reflexivity.
  - apply IH.
Qed.

Lemma format_prompt_strings (query : string) (texts : list string) :
  Guardrails.format_prompt query (VList (map VStr texts)) =
  Ok (strip
        (nl ++ Guardrails.indent ++ "<|begin_of_text|>"
         ++ nl ++ Guardrails.indent ++ "<|start_header_id|>system<|end_header_id|>"
         ++ nl ++ Guardrails.indent
         ++ Guardrails.system_prompt (String.concat " " texts)
         ++ nl ++ Guardrails.indent ++ "<|start_header_id|>user<|end_header_id|>"
         ++ nl ++ Guardrails.indent ++ "Question: " ++ query
         ++ nl ++ Guardrails.indent ++ "<|start_header_id|>assistant<|end_header_id|>"
         ++ nl ++ Guardrails.indent)).
Proof.
  unfold Guardrails.format_prompt. now rewrite join_strings.
Qed.




(** The scenario of the specification, computed: 20 passages, 5 kept. *)
Example reranked_context_top5 :
  rbind (result_of (Reranking.rerank_results (Scenario.answering Scenario.reranked5)
                      Scenario.region "What is red teaming?"
                      (VList Scenario.passages20) "arn:rerank" 5))
        (Reranking.kb_context (Scenario.answering Scenario.reranked5)) =
  Ok ("passage 7" ++ nl ++ nl ++ "passage 0" ++ nl ++ nl ++ "passage 19" ++ nl ++ nl
      ++ "passage 3" ++ nl ++ nl ++ "passage 12" ++ nl ++ nl).
Proof. reflexivity. Qed.

(** ** Retrieval: the text of a passage *)

Lemma span_of_text (w : world) (item : pyval) (s : string) :
  span_text item s -> Reranking.span_of w item = Ok (VStr s).
Proof.
  intros [fields t Hspan | fields Hnone | t]; unfold Reranking.span_of; simpl.
  - now rewrite Hspan.
  - now rewrite Hnone.
  - reflexivity.
Qed.

Lemma comprehension_spans (w : world) (items : list pyval) (texts : list string) :
  Forall2 span_text items texts ->
  comprehension (Reranking.span_of w) items = Ok (map VStr texts).
Proof.
  induction 1 as [ | item text items texts Hspan _ IH ]; cbn [comprehension map].
  - reflexivity.
  - now rewrite (span_of_text w item text Hspan), IH.
Qed.

Lemma chars_are_spans (s : string) :
  Forall2 span_text (map VStr (chars s)) (chars s).
Proof.
  induction (chars s) as [ | c cs IH ]; simpl; constructor; [constructor | exact IH].
Qed.

Lemma concat_chars (s : string) : String.concat "" (chars s) = s.
Proof.
  unfold chars. induction s as [ | c s IH ]; [reflexivity | ].
  cbn [list_ascii_of_string map String.concat].
  destruct (map (fun c => String c EmptyString) (list_ascii_of_string s)) eqn:Hmap.
  - destruct s; [reflexivity | discriminate].
  - rewrite IH. reflexivity.
Qed.

(** The text [search_kb] extracts is the text of the passage. *)
Lemma result_text_passage (w : world) (result : pyval) (text : string) :
  passage_text result text -> Reranking.result_text w result = Ok text.
Proof.
  intros [fields content spans texts Hcontent Htext Hspans
         | fields content s Hcontent Htext
         | fields content Hcontent Hnone
         | fields Hnone];
    unfold Reranking.result_text; cbn [contains rbind].
  - rewrite Hcontent, (getitem_field _ _ _ _ Hcontent). cbn [rbind contains].
    rewrite Htext, (getitem_field _ _ _ _ Htext). cbn [rbind iter].
    rewrite (comprehension_spans w spans texts Hspans). cbn [rbind].
    apply join_strings.
  - rewrite Hcontent, (getitem_field _ _ _ _ Hcontent). cbn [rbind contains].
    rewrite Htext, (getitem_field _ _ _ _ Htext). cbn [rbind iter].
    rewrite (comprehension_spans w _ _ (chars_are_spans s)). cbn [rbind].
    now rewrite join_strings, concat_chars.
  - rewrite Hcontent, (getitem_field _ _ _ _ Hcontent). cbn [rbind contains].
    now rewrite Hnone.
  - now rewrite Hnone.
Qed.

Lemma passage_text_dict (result : pyval) (text : string) :
  passage_text result text -> exists fields, result = VDict fields.
Proof. intros []; eauto. Qed.

Lemma for_each_add_result (w : world) :
  forall (results : list pyval) (texts : list string) (start : nat)
         (documents original_results : list pyval),
    Forall2 passage_text results texts ->
    exists originals,
      for_each (combine (seq start (List.length results)) results)
               (documents, original_results) (Reranking.add_result w) =
      Ok ((documents ++ map VStr texts)%list, originals).
Proof.
  intros results texts start documents original_results Hall.
  revert start documents original_results.
  induction Hall as [ | result text results texts Htext _ IH ];
    intros start documents original_results; cbn [List.length seq combine for_each].
  - exists original_results. now rewrite app_nil_r.
  - unfold Reranking.add_result at 1.
    rewrite (result_text_passage w result text Htext). cbn [rbind].
    destruct (passage_text_dict result text Htext) as [fields ->].
    cbn [get]. destruct (lookup "scoreValue" fields) as [score | ]; cbn [rbind];
      match goal with
      | |- context [for_each _ (?d, ?o) _] =>
          destruct (IH (S start) d o) as [originals ->]
      end;
      exists originals; cbn [map]; now rewrite <- app_assoc.
Qed.

(** C9. On a well-formed retrieval response [search_kb] returns one text
    per result, in order: for a result whose text is a list of sub-spans
    (span objects and raw strings) the concatenation of the spans in order,
    and for a result with no textual content the empty string; it does not
    raise. *)
Theorem search_kb_passage_texts :
  forall (w : world) (regionName query kb_id : string) (numberOfResults : Z)
         (kb_response : pyval) (results : list pyval) (texts : list string),
    (forall kwargs,
        aws w (Client "bedrock-agent-runtime" (Some regionName)) "retrieve" kwargs
        = Ok kb_response) ->
    field "retrievalResults" kb_response = Some (VList results) ->
    Forall2 passage_text results texts ->
    result_of (Reranking.search_kb w regionName query kb_id numberOfResults)
      = Ok (VList (map VStr texts)).
Proof.
  intros w regionName query kb_id numberOfResults kb_response results texts
         Hcall Hresults Hall.
  unfold Reranking.search_kb. cbv zeta.
  rewrite result_of_bind, result_of_call, Hcall.
  rewrite result_of_bind, result_of_lift, (get_field _ _ _ _ Hresults).
  rewrite result_of_bind, result_of_lift. cbn [iter].
  rewrite result_of_bind, result_of_lift. unfold enumerate.
  destruct (for_each_add_result w results texts 0 [] [] Hall) as [originals ->].
  reflexivity.
Qed.

Lemma search_kb_passage_texts_witness :
  result_of (Reranking.search_kb (Scenario.answering Scenario.retrieved3)
               Scenario.region "What is red teaming?" "KB1" 3)
    = Ok (VList (map VStr [String.concat "" ["Red "; "teaming"]; "";
                           "probes a model"])).
Proof.
  apply (search_kb_passage_texts (Scenario.answering Scenario.retrieved3)
           Scenario.region "What is red teaming?" "KB1" 3
           Scenario.retrieved3 Scenario.results3
           [String.concat "" ["Red "; "teaming"]; ""; "probes a model"]).
  - reflexivity.
  - reflexivity.
  - apply Forall2_cons; [ | apply Forall2_cons; [ | apply Forall2_cons; [ | apply Forall2_nil ] ] ].
    + apply passage_spans
        with (content := [("text", VList [VDict [("span", VStr "Red ")];
                                          VStr "teaming"])])
             (spans := [VDict [("span", VStr "Red ")]; VStr "teaming"]);
        [reflexivity | reflexivity | ].
      apply Forall2_cons; [now apply span_object | ].
      apply Forall2_cons; [apply span_raw | apply Forall2_nil].
    + now apply passage_no_content.
    + now apply passage_string with (content := [("text", VStr "probes a model")]).
Defined.

(* ================================================================= *)
(** * Further properties of the notebooks' code *)

(** ** Events and results of a run *)

Lemma events_bind {A B : Type} (m : M A) (k : A -> M B) :
  events (bind m k) =
  (events m ++ match result_of m with
               | Ok a => events (k a)
               | Raise _ => []
               end)%list.
Proof.
  destruct m as [t [a | e]]; simpl; [now destruct (k a) | now rewrite app_nil_r].
Qed.

Lemma events_try_except {A : Type} (body : M A) (handler : exn -> M A) :
  events (try_except body handler) =
  (events body ++ match result_of body with
                  | Ok _ => []
                  | Raise e => events (handler e)
                  end)%list.
Proof.
  destruct body as [t [a | e]]; simpl;
    [now rewrite app_nil_r | now destruct (handler e)].
Qed.

Lemma result_of_try_except {A : Type} (body : M A) (handler : exn -> M A) :
  result_of (try_except body handler) =
  match result_of body with
  | Ok a => Ok a
  | Raise e => result_of (handler e)
  end.
Proof.
  destruct body as [t [a | e]]; simpl; [reflexivity | now destruct (handler e)].
Qed.

Lemma run_eq {A : Type} (m : M A) : m = (events m, result_of m).
Proof. now destruct m. Qed.

Lemma events_lift {A : Type} (r : outcome A) : events (lift r) = [].
Proof. reflexivity. Qed.

Lemma events_call (w : world) (c : client) (op : string) (kwargs : pyval) :
  events (call w c op kwargs) = [Called c op kwargs].
Proof. reflexivity. Qed.

(** ** The key-path resolver composes *)

Lemma index_path_app (repr : pyval -> string) (p q : list pyval) :
  forall d : pyval,
    index_path repr d (p ++ q) =
    rbind (index_path repr d p) (fun v => index_path repr v q).
Proof.
  induction p as [ | key p IH ]; intros d; cbn [app index_path rbind].
  - reflexivity.
  - destruct (getitem repr d key) as [v | e]; cbn [rbind]; [apply IH | reflexivity].
Qed.

Lemma get_value_by_key_path_none (repr : pyval -> string) (q : list pyval) :
  Reranking.get_value_by_key_path repr VNone q = Ok VNone.
Proof. now destruct q. Qed.

(** X1. Resolving a path in two steps gives what resolving it at once
    gives: the value [get_value_by_key_path] returns for [p ++ q] is the
    value it returns for [q] on what it returned for [p]; a failure in the
    first part, returned as [None], stays [None]. *)
Theorem get_value_by_key_path_app :
  forall (repr : pyval -> string) (d : pyval) (p q : list pyval),
    Reranking.get_value_by_key_path repr d (p ++ q) =
    rbind (Reranking.get_value_by_key_path repr d p)
          (fun v => Reranking.get_value_by_key_path repr v q).
Proof.
  intros repr d p q.
  rewrite (get_value_by_key_path_index_path repr (p ++ q) d), index_path_app.
  rewrite (get_value_by_key_path_index_path repr p d). cbn [rbind].
  destruct (index_path repr d p) as [v | e]; cbn [rbind].
  - now rewrite get_value_by_key_path_index_path.
  - now rewrite get_value_by_key_path_none.
Qed.

Lemma bind_lift_ok {A B : Type} (a : A) (k : A -> M B) :
  bind (lift (Ok a)) k = k a.
Proof. unfold bind, lift. now destruct (k a). Qed.

Lemma bind_ret {A B : Type} (a : A) (k : A -> M B) :
  bind (ret a) k = k a.
Proof. unfold bind, ret. now destruct (k a). Qed.

Lemma bind_lift_raise {A B : Type} (e : exn) (k : A -> M B) :
  bind (lift (@Raise A e)) k = ([], Raise e).
Proof. reflexivity. Qed.

Lemma bind_call_ok {B : Type} (w : world) (c : client) (op : string)
    (kwargs response : pyval) (k : pyval -> M B) :
  aws w c op kwargs = Ok response ->
  bind (call w c op kwargs) k =
    (Called c op kwargs :: events (k response), result_of (k response)).
Proof. unfold bind, call. intros ->. now destruct (k response). Qed.

Lemma bind_call_raise {B : Type} (w : world) (c : client) (op : string)
    (kwargs : pyval) (e : exn) (k : pyval -> M B) :
  aws w c op kwargs = Raise e ->
  bind (call w c op kwargs) k = ([Called c op kwargs], Raise e).
Proof. unfold bind, call. now intros ->. Qed.

Lemma bind_print {B : Type} (line : string) (k : unit -> M B) :
  bind (print line) k = (Printed line :: events (k tt), result_of (k tt)).
Proof. unfold bind, print. now destruct (k tt). Qed.

(** ** Reading a nested field *)

Lemma field_getitem (repr : pyval -> string) (v : pyval) (k : string) (x : pyval) :
  field k v = Some x -> getitem repr v (VStr k) = Ok x.
Proof.
  destruct v; try discriminate. apply getitem_field.
Qed.

Lemma no_field_getitem (repr : pyval -> string) (v : pyval) (k : string) :
  field k v = None -> exists e, getitem repr v (VStr k) = Raise e.
Proof.
  destruct v as [ | b | z | f | s | items | fields ]; intros Hnone;
    try (eexists; reflexivity).
  cbn [field] in Hnone. simpl. rewrite Hnone. eexists; reflexivity.
Qed.

Lemma at_path_index_path (repr : pyval -> string) (path : list string) :
  forall v x : pyval,
    at_path path v = Some x -> index_path repr v (map VStr path) = Ok x.
Proof.
  induction path as [ | k path IH ]; intros v x; cbn [at_path map index_path].
  - now intros [= ->].
  - destruct (field k v) as [y | ] eqn:Hfield; [ | discriminate ].
    rewrite (field_getitem repr v k y Hfield). cbn [rbind]. apply IH.
Qed.

Lemma no_path_index_path (repr : pyval -> string) (path : list string) :
  forall v : pyval,
    at_path path v = None -> exists e, index_path repr v (map VStr path) = Raise e.
Proof.
  induction path as [ | k path IH ]; intros v; cbn [at_path map index_path].
  - discriminate.
  - destruct (field k v) as [y | ] eqn:Hfield.
    + rewrite (field_getitem repr v k y Hfield). cbn [rbind]. apply IH.
    + intros _. destruct (no_field_getitem repr v k Hfield) as [e ->]. now exists e.
Qed.

(** ** The conversational path *)

Lemma concat_empty_cons (text : string) (texts : list string) :
  String.concat "" (text :: texts) = text ++ String.concat "" texts.
Proof.
  destruct texts; cbn [String.concat]; [now rewrite append_nil_r | reflexivity].
Qed.

Lemma add_content_fragment (answer : string) (content : pyval) (text : string) :
  fragment_text content text ->
  Reranking.add_content answer content = Ok (answer ++ text).
Proof.
  intros [fields s Htext | fields Htext | fields Htext];
    unfold Reranking.add_content; cbn [get]; rewrite Htext; cbn [rbind truthy].
  - destruct s as [ | c s ]; cbn [String.eqb negb str_plus];
      [now rewrite append_nil_r | reflexivity].
  - now rewrite append_nil_r.
  - now rewrite append_nil_r.
Qed.

Lemma for_each_add_content :
  forall (contents : list pyval) (texts : list string) (answer : string),
    Forall2 fragment_text contents texts ->
    for_each contents answer Reranking.add_content =
      Ok (answer ++ String.concat "" texts).
Proof.
  intros contents texts answer Hall. revert answer.
  induction Hall as [ | content text contents texts Htext _ IH ]; intros answer;
    cbn [for_each].
  - cbn [String.concat]. now rewrite append_nil_r.
  - rewrite (add_content_fragment answer content text Htext). cbn [rbind].
    now rewrite IH, concat_empty_cons, append_assoc.
Qed.

(** X2. On an answer of HTTP status 200 whose content list holds text
    fragments, [invoke_converse] makes its one call, prints nothing, and
    returns the fragments' texts concatenated in order, the elements with
    a null or absent text skipped, together with the answer itself. *)
Theorem invoke_converse_concatenates :
  forall (w : world) (regionName system_prompt user_prompt model_id : string)
         (temperature : float) (max_tokens : Z)
         (response : pyval) (contents : list pyval) (texts : list string),
    aws w (Client "bedrock-runtime" (Some regionName)) "converse"
        (converse_request system_prompt user_prompt model_id temperature)
      = Ok response ->
    at_path ["ResponseMetadata"; "HTTPStatusCode"] response = Some (VInt 200) ->
    at_path ["output"; "message"; "content"] response = Some (VList contents) ->
    Forall2 fragment_text contents texts ->
    Reranking.invoke_converse w regionName system_prompt user_prompt model_id
      temperature max_tokens =
    ([Called (Client "bedrock-runtime" (Some regionName)) "converse"
        (converse_request system_prompt user_prompt model_id temperature)],
     Ok (VStr (String.concat "" texts), response)).
Proof.
  intros w regionName system_prompt user_prompt model_id temperature max_tokens
         response contents texts Hcall Hstatus Hcontent Hall.
  unfold Reranking.invoke_converse. cbv zeta.
  fold (converse_request system_prompt user_prompt model_id temperature).
  rewrite (bind_call_ok _ _ _ _ response _ Hcall).
  cbn [at_path] in Hstatus.
  destruct (field "ResponseMetadata" response) as [metadata | ] eqn:Hmeta;
    [ | discriminate ].
  destruct (field "HTTPStatusCode" metadata) as [status | ] eqn:Hcode;
    [ | discriminate ].
  injection Hstatus as ->.
  rewrite (field_getitem _ _ _ _ Hmeta), bind_lift_ok.
  rewrite (field_getitem _ _ _ _ Hcode), bind_lift_ok.
  cbn [eq_200 Z.eqb Pos.eqb].
  rewrite (get_value_by_key_path_index_path (repr w)
             [VStr "output"; VStr "message"; VStr "content"] response).
  pose proof (at_path_index_path (repr w) ["output"; "message"; "content"]
                response (VList contents) Hcontent) as Hpath.
  cbn [map] in Hpath. rewrite Hpath.
  rewrite bind_lift_ok. cbn [iter]. rewrite bind_lift_ok.
  rewrite (for_each_add_content contents texts "" Hall), bind_lift_ok.
  reflexivity.
Qed.

Lemma invoke_converse_concatenates_witness :
  Reranking.invoke_converse (Scenario.answering Scenario.conversed3)
    Scenario.region "Answer from the context." "What is red teaming?"
    "us.amazon.nova-pro-v1:0" 0.5 4000 =
  ([Called (Client "bedrock-runtime" (Some Scenario.region)) "converse"
      (converse_request "Answer from the context." "What is red teaming?"
         "us.amazon.nova-pro-v1:0" 0.5)],
   Ok (VStr (String.concat "" ["Red teaming "; ""; "probes a model."]),
       Scenario.conversed3)).
Proof.
  apply (invoke_converse_concatenates (Scenario.answering Scenario.conversed3)
           Scenario.region "Answer from the context." "What is red teaming?"
           "us.amazon.nova-pro-v1:0" 0.5 4000 Scenario.conversed3
           [VDict [("text", VStr "Red teaming ")];
            VDict [("toolUse", VDict [])];
            VDict [("text", VStr "probes a model.")]]
           ["Red teaming "; ""; "probes a model."]).
  - reflexivity.
  - reflexivity.
  - reflexivity.
  - apply Forall2_cons; [now apply fragment_string | ].
    apply Forall2_cons; [now apply fragment_absent | ].
    apply Forall2_cons; [now apply fragment_string | apply Forall2_nil].
Defined.

(** X3. On an answer whose HTTP status is not 200 and which carries an
    error message, [invoke_converse] does not raise and prints nothing:
    it returns the text "Error: <status> - <message>" in place of the
    answer, together with the response. *)
Theorem invoke_converse_error_status :
  forall (w : world) (regionName system_prompt user_prompt model_id : string)
         (temperature : float) (max_tokens : Z)
         (response status message : pyval),
    aws w (Client "bedrock-runtime" (Some regionName)) "converse"
        (converse_request system_prompt user_prompt model_id temperature)
      = Ok response ->
    at_path ["ResponseMetadata"; "HTTPStatusCode"] response = Some status ->
    eq_200 status = false ->
    at_path ["Error"; "Message"] response = Some message ->
    Reranking.invoke_converse w regionName system_prompt user_prompt model_id
      temperature max_tokens =
    ([Called (Client "bedrock-runtime" (Some regionName)) "converse"
        (converse_request system_prompt user_prompt model_id temperature)],
     Ok (VStr ("Error: " ++ py_str (repr w) status ++ " - "
               ++ py_str (repr w) message),
         response)).
Proof.
  intros w regionName system_prompt user_prompt model_id temperature max_tokens
         response status message Hcall Hstatus Hnot200 Hmessage.
  unfold Reranking.invoke_converse. cbv zeta.
  fold (converse_request system_prompt user_prompt model_id temperature).
  rewrite (bind_call_ok _ _ _ _ response _ Hcall).
  cbn [at_path] in Hstatus, Hmessage.
  destruct (field "ResponseMetadata" response) as [metadata | ] eqn:Hmeta;
    [ | discriminate ].
  destruct (field "HTTPStatusCode" metadata) as [status' | ] eqn:Hcode;
    [ | discriminate ].
  injection Hstatus as ->.
  destruct (field "Error" response) as [error | ] eqn:Herror; [ | discriminate ].
  destruct (field "Message" error) as [message' | ] eqn:Hmsg; [ | discriminate ].
  injection Hmessage as ->.
  rewrite (field_getitem _ _ _ _ Hmeta), bind_lift_ok.
  rewrite (field_getitem _ _ _ _ Hcode), bind_lift_ok.
  rewrite Hnot200.
  rewrite (field_getitem _ _ _ _ Herror), bind_lift_ok.
  rewrite (field_getitem _ _ _ _ Hmsg), bind_lift_ok.
  reflexivity.
Qed.

Lemma invoke_converse_error_status_witness :
  Reranking.invoke_converse (Scenario.answering Scenario.throttled)
    Scenario.region "Answer from the context." "What is red teaming?"
    "us.amazon.nova-pro-v1:0" 0.5 4000 =
  ([Called (Client "bedrock-runtime" (Some Scenario.region)) "converse"
      (converse_request "Answer from the context." "What is red teaming?"
         "us.amazon.nova-pro-v1:0" 0.5)],
   Ok (VStr ("Error: " ++ py_str Scenario.plain_repr (VInt 429) ++ " - "
             ++ "Too many requests"),
       Scenario.throttled)).
Proof.
  apply (invoke_converse_error_status (Scenario.answering Scenario.throttled)
           Scenario.region "Answer from the context." "What is red teaming?"
           "us.amazon.nova-pro-v1:0" 0.5 4000 Scenario.throttled
           (VInt 429) (VStr "Too many requests"));
    reflexivity.
Defined.

(** X4. On an answer of HTTP status 200 that has no
    [output.message.content], the key-path resolver hands back [None], the
    loop over it fails, and [invoke_converse] prints the type error and
    returns [(None, None)]: the answer itself is not returned. *)
Theorem invoke_converse_no_content :
  forall (w : world) (regionName system_prompt user_prompt model_id : string)
         (temperature : float) (max_tokens : Z) (response : pyval),
    aws w (Client "bedrock-runtime" (Some regionName)) "converse"
        (converse_request system_prompt user_prompt model_id temperature)
      = Ok response ->
    at_path ["ResponseMetadata"; "HTTPStatusCode"] response = Some (VInt 200) ->
    at_path ["output"; "message"; "content"] response = None ->
    Reranking.invoke_converse w regionName system_prompt user_prompt model_id
      temperature max_tokens =
    ([Called (Client "bedrock-runtime" (Some regionName)) "converse"
        (converse_request system_prompt user_prompt model_id temperature);
      Printed "Error in invoke_converse: 'NoneType' object is not iterable"],
     Ok (VNone, VNone)).
Proof.
  intros w regionName system_prompt user_prompt model_id temperature max_tokens
         response Hcall Hstatus Hcontent.
  unfold Reranking.invoke_converse. cbv zeta.
  fold (converse_request system_prompt user_prompt model_id temperature).
  rewrite (bind_call_ok _ _ _ _ response _ Hcall).
  cbn [at_path] in Hstatus.
  destruct (field "ResponseMetadata" response) as [metadata | ] eqn:Hmeta;
    [ | discriminate ].
  destruct (field "HTTPStatusCode" metadata) as [status | ] eqn:Hcode;
    [ | discriminate ].
  injection Hstatus as ->.
  rewrite (field_getitem _ _ _ _ Hmeta), bind_lift_ok.
  rewrite (field_getitem _ _ _ _ Hcode), bind_lift_ok.
  cbn [eq_200 Z.eqb Pos.eqb].
  rewrite (get_value_by_key_path_index_path (repr w)
             [VStr "output"; VStr "message"; VStr "content"] response).
  destruct (no_path_index_path (repr w) ["output"; "message"; "content"]
              response Hcontent) as [e Hpath].
  cbn [map] in Hpath. rewrite Hpath.
  rewrite bind_lift_ok. cbn [iter]. reflexivity.
Qed.

Lemma invoke_converse_no_content_witness :
  Reranking.invoke_converse (Scenario.answering Scenario.hollow)
    Scenario.region "Answer from the context." "What is red teaming?"
    "us.amazon.nova-pro-v1:0" 0.5 4000 =
  ([Called (Client "bedrock-runtime" (Some Scenario.region)) "converse"
      (converse_request "Answer from the context." "What is red teaming?"
         "us.amazon.nova-pro-v1:0" 0.5);
    Printed "Error in invoke_converse: 'NoneType' object is not iterable"],
   Ok (VNone, VNone)).
Proof.
  apply (invoke_converse_no_content (Scenario.answering Scenario.hollow)
           Scenario.region "Answer from the context." "What is red teaming?"
           "us.amazon.nova-pro-v1:0" 0.5 4000 Scenario.hollow);
    reflexivity.
Defined.

Lemma lift_ok_inv {A : Type} (r : outcome A) (k : A -> M (pyval * pyval))
    (o : pyval * pyval) :
  result_of (bind (lift r) k) = Ok o ->
  exists a, r = Ok a /\ result_of (k a) = Ok o.
Proof.
  destruct r as [a | e]; [rewrite bind_lift_ok; eauto | discriminate].
Qed.

(** X5. Whatever the service does, [invoke_converse] never raises: it
    returns either [(None, None)] or a pair of a string and the answer the
    service gave. *)
Theorem invoke_converse_never_raises :
  forall (w : world) (regionName system_prompt user_prompt model_id : string)
         (temperature : float) (max_tokens : Z),
  exists answer response : pyval,
    result_of (Reranking.invoke_converse w regionName system_prompt user_prompt
                 model_id temperature max_tokens) = Ok (answer, response) /\
    ((answer = VNone /\ response = VNone) \/
     (exists text : string,
         answer = VStr text /\
         aws w (Client "bedrock-runtime" (Some regionName)) "converse"
             (converse_request system_prompt user_prompt model_id temperature)
           = Ok response)).
Proof.
  intros w regionName system_prompt user_prompt model_id temperature max_tokens.
  unfold Reranking.invoke_converse. cbv zeta.
  fold (converse_request system_prompt user_prompt model_id temperature).
  rewrite result_of_try_except.
  match goal with |- context [result_of (bind (call _ _ _ _) ?k)] => set (rest := k) end.
  destruct (result_of (bind (call w (Client "bedrock-runtime" (Some regionName))
                                 "converse"
                                 (converse_request system_prompt user_prompt
                                    model_id temperature)) rest))
    as [[answer response] | e] eqn:Hbody.
  - exists answer, response. split; [reflexivity | right].
    destruct (aws w (Client "bedrock-runtime" (Some regionName)) "converse"
                (converse_request system_prompt user_prompt model_id temperature))
      as [response' | e] eqn:Hcall.
    + rewrite (bind_call_ok _ _ _ _ response' _ Hcall) in Hbody.
      cbn [result_of snd] in Hbody. subst rest. cbv beta in Hbody.
      apply lift_ok_inv in Hbody. destruct Hbody as (metadata & _ & Hbody).
      apply lift_ok_inv in Hbody. destruct Hbody as (status & _ & Hbody).
      destruct (eq_200 status).
      * apply lift_ok_inv in Hbody. destruct Hbody as (content_list & _ & Hbody).
        apply lift_ok_inv in Hbody. destruct Hbody as (contents & _ & Hbody).
        apply lift_ok_inv in Hbody. destruct Hbody as (text & _ & Hbody).
        injection Hbody as <- <-. now exists text.
      * apply lift_ok_inv in Hbody. destruct Hbody as (error & _ & Hbody).
        apply lift_ok_inv in Hbody. destruct Hbody as (message & _ & Hbody).
        injection Hbody as <- <-. eexists. split; reflexivity.
    + rewrite (bind_call_raise _ _ _ _ e _ Hcall) in Hbody. discriminate.
  - exists VNone, VNone. split; [reflexivity | now left].
Qed.

(** ** The guardrail, when the service answers *)

(** X6. When the policy service answers with a non-empty [outputs] list
    whose first element has a [text], [apply_output_guardrail] makes its
    one call, with the text as OUTPUT content, prints nothing and returns
    that first text, whatever the rest of the answer says. *)
Theorem apply_output_guardrail_filtered :
  forall (w : world) (variables : pyval) (regionName : string)
         (output_text guardrail_id guardrail_version : pyval)
         (fields : list (string * pyval)) (first : pyval) (rest : list pyval)
         (filtered : pyval),
    field "guardrail_id" variables = Some guardrail_id ->
    field "guardrail_version" variables = Some guardrail_version ->
    aws w (Guardrails.bedrock_client regionName) "apply_guardrail"
        (guardrail_request guardrail_id guardrail_version output_text)
      = Ok (VDict fields) ->
    lookup "outputs" fields = Some (VList (first :: rest)) ->
    field "text" first = Some filtered ->
    Guardrails.apply_output_guardrail w variables regionName output_text =
    ([Called (Guardrails.bedrock_client regionName) "apply_guardrail"
        (guardrail_request guardrail_id guardrail_version output_text)],
     Ok filtered).
Proof.
  intros w variables regionName output_text gid gver fields first rest filtered
         Hid Hversion Hcall Houtputs Htext.
  unfold Guardrails.apply_output_guardrail, Guardrails.policy_evaluation.
  rewrite (field_getitem _ _ _ _ Hid), bind_lift_ok.
  rewrite (field_getitem _ _ _ _ Hversion), bind_lift_ok.
  fold (guardrail_request gid gver output_text).
  rewrite (bind_call_ok _ _ _ _ (VDict fields) _ Hcall).
  cbn [contains]. rewrite Houtputs, bind_lift_ok.
  rewrite (getitem_field _ _ _ _ Houtputs).
  rewrite (@bind_lift_ok pyval bool), bind_ret. cbn [truthy].
  rewrite bind_lift_ok.
  cbn [getitem seq_index Z.leb Z.compare Z.to_nat nth_error List.length].
  rewrite bind_lift_ok, (field_getitem _ _ _ _ Htext).
  reflexivity.
Qed.

Lemma apply_output_guardrail_filtered_witness :
  Guardrails.apply_output_guardrail (Scenario.answering Scenario.blocked)
    Scenario.variables Scenario.region (VStr "You should buy the stock.") =
  ([Called (Guardrails.bedrock_client Scenario.region) "apply_guardrail"
      (guardrail_request (VStr "gr-1") (VStr "1")
         (VStr "You should buy the stock."))],
   Ok (VStr "Response modified per compliance guidelines.")).
Proof.
  apply (apply_output_guardrail_filtered (Scenario.answering Scenario.blocked)
           Scenario.variables Scenario.region (VStr "You should buy the stock.")
           (VStr "gr-1") (VStr "1")
           [("action", VStr "GUARDRAIL_INTERVENED");
            ("outputs",
             VList [VDict [("text",
                            VStr "Response modified per compliance guidelines.")]])]
           (VDict [("text", VStr "Response modified per compliance guidelines.")])
           []);
    reflexivity.
Defined.

(** X7. When the policy service answers with no [outputs], or with
    [outputs] that is empty or null, [apply_output_guardrail] returns the
    text it was given and prints no warning. *)
Theorem apply_output_guardrail_no_outputs :
  forall (w : world) (variables : pyval) (regionName : string)
         (output_text guardrail_id guardrail_version : pyval)
         (fields : list (string * pyval)),
    field "guardrail_id" variables = Some guardrail_id ->
    field "guardrail_version" variables = Some guardrail_version ->
    aws w (Guardrails.bedrock_client regionName) "apply_guardrail"
        (guardrail_request guardrail_id guardrail_version output_text)
      = Ok (VDict fields) ->
    (lookup "outputs" fields = None \/
     exists outputs, lookup "outputs" fields = Some outputs /\ truthy outputs = false) ->
    Guardrails.apply_output_guardrail w variables regionName output_text =
    ([Called (Guardrails.bedrock_client regionName) "apply_guardrail"
        (guardrail_request guardrail_id guardrail_version output_text)],
     Ok output_text).
Proof.
  intros w variables regionName output_text gid gver fields
         Hid Hversion Hcall Houtputs.
  unfold Guardrails.apply_output_guardrail, Guardrails.policy_evaluation.
  rewrite (field_getitem _ _ _ _ Hid), bind_lift_ok.
  rewrite (field_getitem _ _ _ _ Hversion), bind_lift_ok.
  fold (guardrail_request gid gver output_text).
  rewrite (bind_call_ok _ _ _ _ (VDict fields) _ Hcall).
  cbn [contains].
  destruct Houtputs as [Hnone | (outputs & Hsome & Hfalsy)].
  - rewrite Hnone, bind_lift_ok. reflexivity.
  - rewrite Hsome, bind_lift_ok.
    rewrite (getitem_field _ _ _ _ Hsome).
    rewrite (@bind_lift_ok pyval bool), bind_ret, Hfalsy.
    reflexivity.
Qed.

Lemma apply_output_guardrail_no_outputs_witness :
  Guardrails.apply_output_guardrail (Scenario.answering Scenario.passed)
    Scenario.variables Scenario.region (VStr "Sales grew 12%.") =
  ([Called (Guardrails.bedrock_client Scenario.region) "apply_guardrail"
      (guardrail_request (VStr "gr-1") (VStr "1") (VStr "Sales grew 12%."))],
   Ok (VStr "Sales grew 12%.")).
Proof.
  apply (apply_output_guardrail_no_outputs (Scenario.answering Scenario.passed)
           Scenario.variables Scenario.region (VStr "Sales grew 12%.")
           (VStr "gr-1") (VStr "1")
           [("action", VStr "NONE"); ("outputs", VList [])]).
  - reflexivity.
  - reflexivity.
  - reflexivity.
  - right. exists (VList []). split; reflexivity.
Defined.

(** ** One request per call *)

Lemma events_bind_lift {A B : Type} (r : outcome A) (k : A -> M B) :
  events (bind (lift r) k) =
  match r with
  | Ok a => events (k a)
  | Raise _ => []
  end.
Proof.
  destruct r as [a | e]; [now rewrite bind_lift_ok | reflexivity].
Qed.

(** X8. [search_kb] makes exactly one retrieve request per call, for the
    query, the knowledge base and the number of results it was given, and
    nothing else: no retry, no second page, nothing printed, whatever the
    service answers. *)
Theorem search_kb_one_request :
  forall (w : world) (regionName query kb_id : string) (numberOfResults : Z),
    events (Reranking.search_kb w regionName query kb_id numberOfResults) =
    [Called (Client "bedrock-agent-runtime" (Some regionName)) "retrieve"
       (retrieve_request kb_id query numberOfResults)].
Proof.
  intros w regionName query kb_id numberOfResults.
  unfold Reranking.search_kb. cbv zeta.
  fold (retrieve_request kb_id query numberOfResults).
  rewrite events_bind, events_call, result_of_call.
  destruct (aws w _ "retrieve" _) as [kb_response | e]; [ | reflexivity ].
  rewrite events_bind_lift.
  destruct (get kb_response "retrievalResults" (VList [])) as [results | e];
    [ | reflexivity ].
  rewrite events_bind_lift.
  destruct (iter results) as [items | e]; [ | reflexivity ].
  rewrite events_bind_lift.
  now destruct (for_each (enumerate items) ([], []) (Reranking.add_result w)).
Qed.

(** X9. When the retrieval answer has no [retrievalResults] at all,
    [search_kb] returns the empty list of documents rather than failing. *)
Theorem search_kb_no_results :
  forall (w : world) (regionName query kb_id : string) (numberOfResults : Z)
         (fields : list (string * pyval)),
    aws w (Client "bedrock-agent-runtime" (Some regionName)) "retrieve"
        (retrieve_request kb_id query numberOfResults) = Ok (VDict fields) ->
    lookup "retrievalResults" fields = None ->
    result_of (Reranking.search_kb w regionName query kb_id numberOfResults)
      = Ok (VList []).
Proof.
  intros w regionName query kb_id numberOfResults fields Hcall Hnone.
  unfold Reranking.search_kb. cbv zeta.
  fold (retrieve_request kb_id query numberOfResults).
  rewrite (bind_call_ok _ _ _ _ (VDict fields) _ Hcall).
  cbn [get]. rewrite Hnone, bind_lift_ok. reflexivity.
Qed.

Lemma search_kb_no_results_witness :
  result_of (Reranking.search_kb
               (Scenario.answering (VDict [("ResponseMetadata", VDict [])]))
               Scenario.region "What is red teaming?" "KB1" 5)
    = Ok (VList []).
Proof.
  apply (search_kb_no_results
           (Scenario.answering (VDict [("ResponseMetadata", VDict [])]))
           Scenario.region "What is red teaming?" "KB1" 5
           [("ResponseMetadata", VDict [])]);
    reflexivity.
Defined.

(** X10. Given a list of passages, empty or not, [rerank_results] makes
    exactly one rerank request: the query, the model, the requested count,
    and one inline text source per passage, in the passages' order. *)
Theorem rerank_results_one_request :
  forall (w : world) (regionName query : string) (docs : list pyval)
         (rerank_model_arn : string) (reranked_result_count : Z),
    events (Reranking.rerank_results w regionName query (VList docs)
              rerank_model_arn reranked_result_count) =
    [Called (Client "bedrock-agent-runtime" (Some regionName)) "rerank"
       (rerank_request query docs rerank_model_arn reranked_result_count)].
Proof.
  intros w regionName query docs arn count.
  unfold Reranking.rerank_results. cbv zeta. cbn [iter].
  rewrite bind_lift_ok.
  change (map Reranking.source_of docs)
    with (map (fun doc =>
                 VDict [("inlineDocumentSource",
                         VDict [("textDocument", VDict [("text", doc)]);
                                ("type", VStr "TEXT")]);
                        ("type", VStr "INLINE")]) docs).
  fold (rerank_request query docs arn count).
  rewrite events_bind, events_call, result_of_call.
  destruct (aws w _ "rerank" _) as [reranked | e]; [ | reflexivity ].
  rewrite events_bind_lift.
  destruct (get reranked "results" (VList [])) as [results | e]; [ | reflexivity ].
  rewrite events_bind_lift.
  destruct (iter results) as [entries | e]; [ | reflexivity ].
  rewrite events_bind_lift.
  now destruct (for_each entries [] (Reranking.add_reranked w (VList docs))).
Qed.

Lemma reranked_passages_score (docs : list pyval) :
  forall (entries : list pyval) (idxs : list Z) (start : nat),
    List.length entries = List.length idxs ->
    map (field "relevance_score") (reranked_passages docs start entries idxs) =
    map (fun entry => Some (score_of entry)) entries.
Proof.
  induction entries as [ | entry entries IH ]; intros [ | idx idxs ] start Hlen;
    simpl in *; try discriminate; auto.
  f_equal. apply IH. now injection Hlen.
Qed.

(** X11. Each passage [rerank_results] returns carries the text of the
    input passage its entry selects (by its index, or the first passage
    when it has none) and the entry's relevance score (0 when it has
    none), and the input list comes back unchanged as
    [original_results]. *)
Theorem rerank_results_texts_and_scores :
  forall (w : world) (regionName query : string) (docs : list pyval)
         (rerank_model_arn : string) (reranked_result_count : Z)
         (reranked : pyval) (entries : list pyval) (idxs : list Z),
    (forall kwargs,
        aws w (Client "bedrock-agent-runtime" (Some regionName)) "rerank" kwargs
        = Ok reranked) ->
    field "results" reranked = Some (VList entries) ->
    Forall2 (fun entry idx => selects entry idx /\ in_bounds (List.length docs) idx)
            entries idxs ->
    exists passages : list pyval,
      result_of (Reranking.rerank_results w regionName query (VList docs)
                   rerank_model_arn reranked_result_count) =
        Ok (VDict [("original_results", VList docs);
                   ("reranked_results", VList passages)]) /\
      map (field "text") passages =
        map (fun idx => Some (passage_at docs idx)) idxs /\
      map (field "relevance_score") passages =
        map (fun entry => Some (score_of entry)) entries.
Proof.
  intros w regionName query docs arn count reranked entries idxs
         Hcall Hresults Hall.
  pose proof (Forall2_length Hall) as Hlen.
  exists (reranked_passages docs 1 entries idxs). repeat split.
  - now apply rerank_results_selects with (reranked := reranked).
  - now apply reranked_passages_text.
  - now apply reranked_passages_score.
Qed.

Lemma rerank_results_texts_and_scores_witness :
  exists passages : list pyval,
    result_of (Reranking.rerank_results
                 (Scenario.answering Scenario.reranked_unindexed)
                 Scenario.region "What is red teaming?"
                 (VList Scenario.passages20) "arn:rerank" 5) =
      Ok (VDict [("original_results", VList Scenario.passages20);
                 ("reranked_results", VList passages)]) /\
    map (field "text") passages =
      map (fun idx => Some (passage_at Scenario.passages20 idx)) [7; 0]%Z /\
    map (field "relevance_score") passages =
      map (fun entry => Some (score_of entry))
          [Scenario.entry 7 0.875; Scenario.unindexed].
Proof.
  apply (rerank_results_texts_and_scores
           (Scenario.answering Scenario.reranked_unindexed) Scenario.region
           "What is red teaming?" Scenario.passages20 "arn:rerank" 5
           Scenario.reranked_unindexed).
  - reflexivity.
  - reflexivity.
  - apply Forall2_cons; [ | apply Forall2_cons; [ | apply Forall2_nil ] ].
    + split; [left; reflexivity | unfold in_bounds; simpl; lia].
    + split; [right | unfold in_bounds; simpl; lia].
      exists [("relevanceScore", VFloat 0.5)]. repeat split.
Defined.

(** X12. When the rerank answer has no [results], [rerank_results]
    returns an empty list of reranked passages beside the untouched input
    list, and raises nothing. *)
Theorem rerank_results_no_results :
  forall (w : world) (regionName query : string) (docs : list pyval)
         (rerank_model_arn : string) (reranked_result_count : Z)
         (fields : list (string * pyval)),
    aws w (Client "bedrock-agent-runtime" (Some regionName)) "rerank"
        (rerank_request query docs rerank_model_arn reranked_result_count)
      = Ok (VDict fields) ->
    lookup "results" fields = None ->
    result_of (Reranking.rerank_results w regionName query (VList docs)
                 rerank_model_arn reranked_result_count) =
    Ok (VDict [("original_results", VList docs);
               ("reranked_results", VList [])]).
Proof.
  intros w regionName query docs arn count fields Hcall Hnone.
  unfold Reranking.rerank_results. cbv zeta. cbn [iter].
  rewrite bind_lift_ok.
  change (map Reranking.source_of docs)
    with (map (fun doc =>
                 VDict [("inlineDocumentSource",
                         VDict [("textDocument", VDict [("text", doc)]);
                                ("type", VStr "TEXT")]);
                        ("type", VStr "INLINE")]) docs).
  fold (rerank_request query docs arn count).
  rewrite (bind_call_ok _ _ _ _ (VDict fields) _ Hcall).
  cbn [get]. rewrite Hnone, bind_lift_ok. reflexivity.
Qed.

Lemma rerank_results_no_results_witness :
  result_of (Reranking.rerank_results
               (Scenario.answering (VDict [("ResponseMetadata", VDict [])]))
               Scenario.region "What is red teaming?"
               (VList Scenario.passages20) "arn:rerank" 5) =
  Ok (VDict [("original_results", VList Scenario.passages20);
             ("reranked_results", VList [])]).
Proof.
  apply (rerank_results_no_results
           (Scenario.answering (VDict [("ResponseMetadata", VDict [])]))
           Scenario.region "What is red teaming?" Scenario.passages20
           "arn:rerank" 5 [("ResponseMetadata", VDict [])]);
    reflexivity.
Defined.

(** ** Retrieval with a handler *)

Lemma content_text_at_path (w : world) (result text : pyval) :
  at_path ["content"; "text"] result = Some text ->
  SageMakerRAG.content_text w result = Ok text.
Proof.
  intros Hpath. unfold SageMakerRAG.content_text.
  pose proof (at_path_index_path (repr w) ["content"; "text"] result text Hpath)
    as Hindex.
  cbn [map index_path] in Hindex.
  destruct (getitem (repr w) result (VStr "content")) as [content | e];
    cbn [rbind] in *; [ | discriminate ].
  destruct (getitem (repr w) content (VStr "text")) as [text' | e];
    cbn [rbind] in *; [assumption | discriminate].
Qed.

Lemma content_text_no_path (w : world) (result : pyval) :
  at_path ["content"; "text"] result = None ->
  exists e, SageMakerRAG.content_text w result = Raise e.
Proof.
  intros Hpath. unfold SageMakerRAG.content_text.
  destruct (no_path_index_path (repr w) ["content"; "text"] result Hpath)
    as [e Hindex].
  cbn [map index_path] in Hindex.
  destruct (getitem (repr w) result (VStr "content")) as [content | e'];
    cbn [rbind] in *; [ | now exists e' ].
  destruct (getitem (repr w) content (VStr "text")) as [text' | e'];
    cbn [rbind] in *; [discriminate | now exists e'].
Qed.

Lemma comprehension_content_text (w : world) (results texts : list pyval) :
  Forall2 (fun result text => at_path ["content"; "text"] result = Some text)
          results texts ->
  comprehension (SageMakerRAG.content_text w) results = Ok texts.
Proof.
  induction 1 as [ | result text results texts Htext _ IH ]; cbn [comprehension].
  - reflexivity.
  - now rewrite (content_text_at_path w result text Htext), IH.
Qed.

Lemma comprehension_raises {A B : Type} (f : A -> outcome B) (x : A) :
  (exists e, f x = Raise e) ->
  forall items : list A,
    In x items -> exists e, comprehension f items = Raise e.
Proof.
  intros [e He] items. induction items as [ | y rest IH ]; intros Hin.
  - destruct Hin.
  - cbn [comprehension]. destruct Hin as [-> | Hin].
    + rewrite He. now exists e.
    + destruct (f y) as [b | e']; cbn [rbind]; [ | now exists e' ].
      destruct (IH Hin) as [e' ->]. now exists e'.
Qed.

(** X13. When the search answers with results that each have a
    [content.text], both [retrieve_from_bedrock] functions make one
    request (the second with its fixed count of 3 and its metadata filter
    passed through as written) and return those [content.text] values as
    they are, one per result, in the order of the answer. *)
Theorem retrieve_from_bedrock_texts :
  forall (w : world) (regionName query kb_id : string) (num_results : Z)
         (KNOWLEDGE_BASE_ID response : pyval) (results texts : list pyval),
    (forall c kwargs, aws w c "retrieve" kwargs = Ok response) ->
    field "retrievalResults" response = Some (VList results) ->
    Forall2 (fun result text => at_path ["content"; "text"] result = Some text)
            results texts ->
    SageMakerRAG.retrieve_from_bedrock w regionName query kb_id num_results =
      ([Called (Client "bedrock-agent-runtime" (Some regionName)) "retrieve"
          (retrieve_request kb_id query num_results)],
       Ok (VList texts)) /\
    Guardrails.retrieve_from_bedrock w regionName KNOWLEDGE_BASE_ID query =
      ([Called (Client "bedrock-agent-runtime" (Some regionName)) "retrieve"
          (filtered_retrieve_request KNOWLEDGE_BASE_ID query)],
       Ok (VList texts)).
Proof.
  intros w regionName query kb_id num_results KNOWLEDGE_BASE_ID response
         results texts Hcall Hresults Hall.
  split.
  - unfold SageMakerRAG.retrieve_from_bedrock.
    rewrite (bind_call_ok _ _ _ _ response _ (Hcall _ _)).
    rewrite (field_getitem _ _ _ _ Hresults), bind_lift_ok. cbn [iter].
    rewrite bind_lift_ok, (comprehension_content_text w results texts Hall).
    rewrite bind_lift_ok. reflexivity.
  - unfold Guardrails.retrieve_from_bedrock.
    rewrite (bind_call_ok _ _ _ _ response _ (Hcall _ _)).
    rewrite (field_getitem _ _ _ _ Hresults), bind_lift_ok. cbn [iter].
    change (Guardrails.content_text w) with (SageMakerRAG.content_text w).
    rewrite bind_lift_ok, (comprehension_content_text w results texts Hall).
    rewrite bind_lift_ok. reflexivity.
Qed.

Lemma retrieve_from_bedrock_texts_witness :
  SageMakerRAG.retrieve_from_bedrock
    (Scenario.answering
       (VDict [("retrievalResults",
                VList [VDict [("content", VDict [("text", VStr "Net sales rose.")])];
                       VDict [("content", VDict [("text", VStr "Costs fell.")])]])]))
    Scenario.region "what was the % increase in sales?" "KB1" 3 =
    ([Called (Client "bedrock-agent-runtime" (Some Scenario.region)) "retrieve"
        (retrieve_request "KB1" "what was the % increase in sales?" 3)],
     Ok (VList [VStr "Net sales rose."; VStr "Costs fell."])) /\
  Guardrails.retrieve_from_bedrock
    (Scenario.answering
       (VDict [("retrievalResults",
                VList [VDict [("content", VDict [("text", VStr "Net sales rose.")])];
                       VDict [("content", VDict [("text", VStr "Costs fell.")])]])]))
    Scenario.region (VStr "KB1") "what was the % increase in sales?" =
    ([Called (Client "bedrock-agent-runtime" (Some Scenario.region)) "retrieve"
        (filtered_retrieve_request (VStr "KB1") "what was the % increase in sales?")],
     Ok (VList [VStr "Net sales rose."; VStr "Costs fell."])).
Proof.
  apply (retrieve_from_bedrock_texts _ Scenario.region
           "what was the % increase in sales?" "KB1" 3 (VStr "KB1")
           (VDict [("retrievalResults",
                    VList [VDict [("content", VDict [("text", VStr "Net sales rose.")])];
                           VDict [("content", VDict [("text", VStr "Costs fell.")])]])])
           [VDict [("content", VDict [("text", VStr "Net sales rose.")])];
            VDict [("content", VDict [("text", VStr "Costs fell.")])]]
           [VStr "Net sales rose."; VStr "Costs fell."]).
  - reflexivity.
  - reflexivity.
  - repeat constructor.
Defined.

(** X14. All or nothing: when any one result of the answer lacks
    [content.text], both [retrieve_from_bedrock] functions raise the
    run-time error "Bedrock retrieval failed: ..." and return no list at
    all, not even the texts of the results before it. *)
Theorem retrieve_from_bedrock_all_or_nothing :
  forall (w : world) (regionName query kb_id : string) (num_results : Z)
         (KNOWLEDGE_BASE_ID response : pyval) (results : list pyval)
         (result : pyval),
    (forall c kwargs, aws w c "retrieve" kwargs = Ok response) ->
    field "retrievalResults" response = Some (VList results) ->
    In result results ->
    at_path ["content"; "text"] result = None ->
    exists cause : string,
      result_of (SageMakerRAG.retrieve_from_bedrock w regionName query kb_id
                   num_results)
        = Raise (Exn RuntimeError ("Bedrock retrieval failed: " ++ cause)) /\
      result_of (Guardrails.retrieve_from_bedrock w regionName KNOWLEDGE_BASE_ID
                   query)
        = Raise (Exn RuntimeError ("Bedrock retrieval failed: " ++ cause)).
Proof.
  intros w regionName query kb_id num_results KNOWLEDGE_BASE_ID response
         results result Hcall Hresults Hin Hpath.
  destruct (comprehension_raises (SageMakerRAG.content_text w) result
              (content_text_no_path w result Hpath) results Hin) as [e He].
  exists (str e). split.
  - unfold SageMakerRAG.retrieve_from_bedrock. rewrite try_except_reraise.
    rewrite (bind_call_ok _ _ _ _ response _ (Hcall _ _)). cbn [result_of snd].
    rewrite (field_getitem _ _ _ _ Hresults), bind_lift_ok. cbn [iter].
    now rewrite bind_lift_ok, He.
  - unfold Guardrails.retrieve_from_bedrock. rewrite try_except_reraise.
    rewrite (bind_call_ok _ _ _ _ response _ (Hcall _ _)). cbn [result_of snd].
    rewrite (field_getitem _ _ _ _ Hresults), bind_lift_ok. cbn [iter].
    change (Guardrails.content_text w) with (SageMakerRAG.content_text w).
    now rewrite bind_lift_ok, He.
Qed.

Lemma retrieve_from_bedrock_all_or_nothing_witness :
  exists cause : string,
    result_of (SageMakerRAG.retrieve_from_bedrock
                 (Scenario.answering
                    (VDict [("retrievalResults",
                             VList [VDict [("content",
                                            VDict [("text", VStr "Net sales rose.")])];
                                    VDict [("score", VFloat 0.5)]])]))
                 Scenario.region "what was the % increase in sales?" "KB1" 3)
      = Raise (Exn RuntimeError ("Bedrock retrieval failed: " ++ cause)) /\
    result_of (Guardrails.retrieve_from_bedrock
                 (Scenario.answering
                    (VDict [("retrievalResults",
                             VList [VDict [("content",
                                            VDict [("text", VStr "Net sales rose.")])];
                                    VDict [("score", VFloat 0.5)]])]))
                 Scenario.region (VStr "KB1") "what was the % increase in sales?")
      = Raise (Exn RuntimeError ("Bedrock retrieval failed: " ++ cause)).
Proof.
  apply (retrieve_from_bedrock_all_or_nothing _ Scenario.region
           "what was the % increase in sales?" "KB1" 3 (VStr "KB1")
           (VDict [("retrievalResults",
                    VList [VDict [("content",
                                   VDict [("text", VStr "Net sales rose.")])];
                           VDict [("score", VFloat 0.5)]])])
           [VDict [("content", VDict [("text", VStr "Net sales rose.")])];
            VDict [("score", VFloat 0.5)]]
           (VDict [("score", VFloat 0.5)])).
  - reflexivity.
  - reflexivity.
  - right. left. reflexivity.
  - reflexivity.
Defined.

(** ** The raw-endpoint path *)

Lemma bind_call_endpoint_ok {B : Type} (w : world) (c : client)
    (kwargs : pyval) (bytes : string) (k : string -> M B) :
  endpoint_body w c kwargs = Ok bytes ->
  bind (call_endpoint w c kwargs) k =
    (Called c "invoke_endpoint" kwargs :: events (k bytes), result_of (k bytes)).
Proof. unfold bind, call_endpoint. intros ->. now destruct (k bytes). Qed.

Lemma bind_call_endpoint_raise {B : Type} (w : world) (c : client)
    (kwargs : pyval) (e : exn) (k : string -> M B) :
  endpoint_body w c kwargs = Raise e ->
  bind (call_endpoint w c kwargs) k = ([Called c "invoke_endpoint" kwargs], Raise e).
Proof. unfold bind, call_endpoint. now intros ->. Qed.

(** X15. A response body that cannot be decoded or parsed is a generation
    failure like any other: when decoding the bytes or parsing the JSON
    raises, [generate_response] of either notebook raises the run-time
    error "Generation failed: " followed by the decoder's or parser's own
    text. *)
Theorem generate_response_unparseable :
  forall (w : world) (prompt endpoint_name : string) (ENDPOINT_NAME : pyval)
         (bytes : string) (e : exn),
    (forall payload, exists body, json_dumps w payload = Ok body) ->
    (forall c kwargs, endpoint_body w c kwargs = Ok bytes) ->
    (decode_utf8 w bytes = Raise e \/
     exists text, decode_utf8 w bytes = Ok text /\ json_loads w text = Raise e) ->
    result_of (SageMakerRAG.generate_response w prompt endpoint_name)
      = Raise (Exn RuntimeError ("Generation failed: " ++ str e)) /\
    result_of (Guardrails.generate_response w ENDPOINT_NAME prompt)
      = Raise (Exn RuntimeError ("Generation failed: " ++ str e)).
Proof.
  intros w prompt endpoint_name ENDPOINT_NAME bytes e Hdumps Hcall Hbad.
  split.
  - unfold SageMakerRAG.generate_response. cbv zeta. rewrite try_except_reraise.
    destruct (Hdumps (VDict [("inputs", VStr prompt);
                             ("parameters", SageMakerRAG.generation_configuration)]))
      as [body ->].
    rewrite bind_lift_ok, (bind_call_endpoint_ok _ _ _ bytes _ (Hcall _ _)).
    cbn [result_of snd].
    destruct Hbad as [Hdecode | (text & Hdecode & Hloads)]; rewrite Hdecode.
    + reflexivity.
    + now rewrite bind_lift_ok, Hloads.
  - unfold Guardrails.generate_response. cbv zeta. rewrite try_except_reraise.
    destruct (Hdumps (VDict [("inputs", VStr prompt);
                             ("parameters", Guardrails.generation_configuration)]))
      as [body ->].
    rewrite bind_lift_ok, (bind_call_endpoint_ok _ _ _ bytes _ (Hcall _ _)).
    cbn [result_of snd].
    destruct Hbad as [Hdecode | (text & Hdecode & Hloads)]; rewrite Hdecode.
    + reflexivity.
    + now rewrite bind_lift_ok, Hloads.
Qed.

Lemma generate_response_unparseable_witness :
  result_of (SageMakerRAG.generate_response
               (Scenario.world_of (Ok VNone) (Ok "<html>Bad Gateway</html>")
                  (Raise (Exn ValueError "Expecting value: line 1 column 1 (char 0)")))
               "prompt" "llama-endpoint")
    = Raise (Exn RuntimeError
               "Generation failed: Expecting value: line 1 column 1 (char 0)") /\
  result_of (Guardrails.generate_response
               (Scenario.world_of (Ok VNone) (Ok "<html>Bad Gateway</html>")
                  (Raise (Exn ValueError "Expecting value: line 1 column 1 (char 0)")))
               (VStr "llama-endpoint") "prompt")
    = Raise (Exn RuntimeError
               "Generation failed: Expecting value: line 1 column 1 (char 0)").
Proof.
  apply (generate_response_unparseable
           (Scenario.world_of (Ok VNone) (Ok "<html>Bad Gateway</html>")
              (Raise (Exn ValueError "Expecting value: line 1 column 1 (char 0)")))
           "prompt" "llama-endpoint" (VStr "llama-endpoint")
           "<html>Bad Gateway</html>"
           (Exn ValueError "Expecting value: line 1 column 1 (char 0)")).
  - intros payload. now exists "{}".
  - reflexivity.
  - right. exists "<html>Bad Gateway</html>". split; reflexivity.
Defined.

Lemma events_after_endpoint (w : world) (c : client) (kwargs : pyval)
    (k : pyval -> outcome pyval) (prefix : string) :
  events
    (try_except
       (bytes <- call_endpoint w c kwargs ;;
        text <- lift (decode_utf8 w bytes) ;;
        result <- lift (json_loads w text) ;;
        lift (k result))
       (fun e => raise RuntimeError (prefix ++ str e))) =
  [Called c "invoke_endpoint" kwargs].
Proof.
  rewrite events_try_except.
  destruct (endpoint_body w c kwargs) as [bytes | e] eqn:Hcall.
  - rewrite (bind_call_endpoint_ok _ _ _ bytes _ Hcall). cbn [events fst result_of snd].
    rewrite events_bind_lift.
    destruct (decode_utf8 w bytes) as [text | e].
    + rewrite bind_lift_ok, events_bind_lift.
      destruct (json_loads w text) as [result | e].
      * rewrite bind_lift_ok. cbn [app]. rewrite result_of_lift, events_lift.
        now destruct (k result).
      * reflexivity.
    + reflexivity.
  - now rewrite (bind_call_endpoint_raise _ _ _ e _ Hcall).
Qed.

(** X16. Once the payload is serialised, [generate_response] of either
    notebook makes exactly one endpoint invocation and prints nothing,
    whatever comes back: the body is the serialised mapping of [inputs],
    the prompt, and [parameters], the notebook's generation
    configuration, sent as application/json to the named endpoint. *)
Theorem generate_response_one_request :
  forall (w : world) (prompt endpoint_name : string) (ENDPOINT_NAME : pyval)
         (body body' : string),
    json_dumps w (VDict [("inputs", VStr prompt);
                         ("parameters",
                          VDict [("temperature", VInt 0); ("top_k", VInt 10);
                                 ("max_new_tokens", VInt 512);
                                 ("stop", VStr "<|eot_id|>")])]) = Ok body ->
    json_dumps w (VDict [("inputs", VStr prompt);
                         ("parameters",
                          VDict [("temperature", VInt 0); ("top_k", VInt 10);
                                 ("max_new_tokens", VInt 5000);
                                 ("stop", VStr "<|eot_id|>")])]) = Ok body' ->
    events (SageMakerRAG.generate_response w prompt endpoint_name) =
      [Called (Client "sagemaker-runtime" None) "invoke_endpoint"
         (endpoint_request (VStr endpoint_name) body)] /\
    events (Guardrails.generate_response w ENDPOINT_NAME prompt) =
      [Called (Client "sagemaker-runtime" None) "invoke_endpoint"
         (endpoint_request ENDPOINT_NAME body')].
Proof.
  intros w prompt endpoint_name ENDPOINT_NAME body body' Hdumps Hdumps'.
  split.
  - unfold SageMakerRAG.generate_response, SageMakerRAG.generation_configuration.
    cbv zeta. rewrite Hdumps, bind_lift_ok. apply events_after_endpoint.
  - unfold Guardrails.generate_response, Guardrails.generation_configuration.
    cbv zeta. rewrite Hdumps', bind_lift_ok. apply events_after_endpoint.
Qed.

Lemma generate_response_one_request_witness :
  events (SageMakerRAG.generate_response Scenario.offline "prompt" "llama-endpoint") =
    [Called (Client "sagemaker-runtime" None) "invoke_endpoint"
       (endpoint_request (VStr "llama-endpoint") "{}")] /\
  events (Guardrails.generate_response Scenario.offline (VStr "llama-endpoint")
            "prompt") =
    [Called (Client "sagemaker-runtime" None) "invoke_endpoint"
       (endpoint_request (VStr "llama-endpoint") "{}")].
Proof.
  apply (generate_response_one_request Scenario.offline "prompt" "llama-endpoint"
           (VStr "llama-endpoint") "{}" "{}");
    reflexivity.
Defined.

(** ** Prompt formatting *)

Lemma append_nonempty (a b : string) : b <> "" -> a ++ b <> "".
Proof.
  destruct a; simpl; [auto | discriminate].
Qed.

(** Stripping on the right does not reach past a tail that survives it. *)
Lemma rstrip_app (a b : string) :
  rstrip b <> "" -> rstrip (a ++ b) = a ++ rstrip b.
Proof.
  intros Hb. induction a as [ | c a IH ]; cbn [append rstrip]; [reflexivity | ].
  rewrite IH.
  destruct (a ++ rstrip b) eqn:Hab; [ | reflexivity ].
  exfalso. now apply (append_nonempty a (rstrip b) Hb).
Qed.

Lemma rstrip_app_nonempty (a b : string) :
  rstrip b <> "" -> rstrip (a ++ b) <> "".
Proof.
  intros Hb. rewrite (rstrip_app a b Hb). now apply append_nonempty.
Qed.

Ltac tail_survives :=
  first [ solve [vm_compute; discriminate]
        | apply rstrip_app_nonempty; tail_survives ].

(** X17. [format_prompt] of the guardrail notebook, on passages that are
    strings: the prompt begins with the begin-of-text tag and ends with
    the assistant header; [strip] removes only the template's own first
    and last blank lines, so the passages, joined by single spaces, and
    the question stand in it exactly as given, leading and trailing
    white space included. *)
Theorem format_prompt_verbatim :
  forall (query : string) (texts : list string),
    Guardrails.format_prompt query (VList (map VStr texts)) =
    Ok ("<|begin_of_text|>"
        ++ nl ++ Guardrails.indent ++ "<|start_header_id|>system<|end_header_id|>"
        ++ nl ++ Guardrails.indent
        ++ "Use the following context to answer the question. If you don't know the answer, say 'I don't know'."
        ++ nl ++ Guardrails.indent ++ "Context:"
        ++ nl ++ Guardrails.indent ++ String.concat " " texts ++ dquote
        ++ nl ++ "    "
        ++ nl ++ Guardrails.indent ++ "<|start_header_id|>user<|end_header_id|>"
        ++ nl ++ Guardrails.indent ++ "Question: " ++ query
        ++ nl ++ Guardrails.indent
        ++ "<|start_header_id|>assistant<|end_header_id|>").
Proof.
  intros query texts. rewrite format_prompt_strings. f_equal.
  unfold Guardrails.system_prompt. generalize (String.concat " " texts) as joined.
  intros joined. unfold strip.
  change (lstrip
            (nl ++ Guardrails.indent ++ "<|begin_of_text|>" ++ ?rest))
    with ("<|begin_of_text|>" ++ rest).
  rewrite !append_assoc.
  repeat (rewrite rstrip_app by tail_survives).
  reflexivity.
Qed.

(** X18. [format_prompt] of the endpoint notebook puts [str(context)] in
    its context slot: given the list [retrieve_from_bedrock] returns, the
    prompt shows the list as Python prints it, brackets and quotes
    included, not the passages joined. The prompt begins with the
    begin-of-text tag and ends with "Answer:", and the question stands in
    it exactly as given. *)
Theorem format_prompt_shows_the_list :
  forall (w : world) (query : string) (context : pyval),
    SageMakerRAG.format_prompt w query context =
    "<|begin_of_text|>"
    ++ nl ++ SageMakerRAG.indent ++ "<|start_header_id|>system<|end_header_id|>"
    ++ nl ++ SageMakerRAG.indent
    ++ "You are an assistant for question-answering tasks. Answer the following question using the provided context. If you don't know the answer, just say "
    ++ dquote ++ "I don't know." ++ dquote ++ "."
    ++ nl ++ SageMakerRAG.indent ++ "<|start_header_id|>user<|end_header_id|>"
    ++ nl ++ SageMakerRAG.indent ++ "Context: "
    ++ match context with
       | VStr s => s
       | _ => repr w context
       end
    ++ " "
    ++ nl ++ SageMakerRAG.indent ++ "Question: " ++ query
    ++ nl ++ SageMakerRAG.indent
    ++ "<|start_header_id|>assistant<|end_header_id|> "
    ++ nl ++ SageMakerRAG.indent ++ "Answer:".
Proof.
  intros w query context. unfold SageMakerRAG.format_prompt.
  change (py_str (repr w) context)
    with (match context with VStr s => s | _ => repr w context end).
  generalize (match context with VStr s => s | _ => repr w context end) as shown.
  intros shown. unfold strip.
  change (lstrip
            (nl ++ SageMakerRAG.indent ++ "<|begin_of_text|>" ++ ?rest))
    with ("<|begin_of_text|>" ++ rest).
  repeat (rewrite rstrip_app by tail_survives).
  reflexivity.
Qed.

Lemma str_items_not_a_string (before : list string) (v : pyval)
    (after : list pyval) :
  (forall s, v <> VStr s) ->
  forall n : nat,
    str_items n (map VStr before ++ v :: after) =
    Raise (Exn TypeError
             ("sequence item "
              ++ NilEmpty.string_of_uint (Nat.to_uint (n + List.length before))
              ++ ": expected str instance, " ++ type_name v ++ " found")).
Proof.
  intros Hv. induction before as [ | s before IH ]; intros n;
    cbn [map app str_items List.length].
  - rewrite Nat.add_0_r. destruct v; try reflexivity. now destruct (Hv s).
  - rewrite IH. cbn [rbind]. now rewrite Nat.add_succ_r.
Qed.

(** X19. [format_prompt] of the guardrail notebook accepts strings only:
    when a passage is anything else (a list of spans, a null), it raises
    the type error that names the position and the type of the first such
    passage, and formats nothing. *)
Theorem format_prompt_rejects_non_strings :
  forall (query : string) (before : list string) (v : pyval)
         (after : list pyval),
    (forall s, v <> VStr s) ->
    Guardrails.format_prompt query (VList (map VStr before ++ v :: after)) =
    Raise (Exn TypeError
             ("sequence item "
              ++ NilEmpty.string_of_uint (Nat.to_uint (List.length before))
              ++ ": expected str instance, " ++ type_name v ++ " found")).
Proof.
  intros query before v after Hv.
  unfold Guardrails.format_prompt, join. cbn [iter].
  now rewrite (str_items_not_a_string before v after Hv 0).
Qed.

Lemma format_prompt_rejects_non_strings_witness :
  Guardrails.format_prompt "Who is the current CFO of Amazon?"
    (VList (map VStr ["Net sales rose."]
            ++ VList [VDict [("span", VStr "Costs fell.")]] :: [])) =
  Raise (Exn TypeError "sequence item 1: expected str instance, list found").
Proof.
  apply (format_prompt_rejects_non_strings "Who is the current CFO of Amazon?"
           ["Net sales rose."] (VList [VDict [("span", VStr "Costs fell.")]]) []).
  intros s. discriminate.
Defined.

(** ** The cells that chain the functions *)

Lemma bind_run {A B : Type} (m : M A) (k : A -> M B) :
  bind m k =
  ((events m ++ match result_of m with
                | Ok a => events (k a)
                | Raise _ => []
                end)%list,
   match result_of m with
   | Ok a => result_of (k a)
   | Raise e => Raise e
   end).
Proof.
  rewrite (run_eq (bind m k)). now rewrite events_bind, result_of_bind.
Qed.

Lemma filtered_retrieve_events (w : world) (regionName : string)
    (KNOWLEDGE_BASE_ID : pyval) (query : string) :
  events (Guardrails.retrieve_from_bedrock w regionName KNOWLEDGE_BASE_ID query) =
  [Called (Client "bedrock-agent-runtime" (Some regionName)) "retrieve"
     (filtered_retrieve_request KNOWLEDGE_BASE_ID query)].
Proof.
  unfold Guardrails.retrieve_from_bedrock.
  rewrite events_try_except, events_bind, result_of_bind, events_call, result_of_call.
  change (VDict [("knowledgeBaseId", KNOWLEDGE_BASE_ID);
                 ("retrievalQuery", VDict [("text", VStr query)]);
                 ("retrievalConfiguration",
                  VDict [("vectorSearchConfiguration",
                          VDict [("numberOfResults", VInt Guardrails.NUM_RESULTS);
                                 ("filter", Guardrails.one_group_filter)])])])
    with (filtered_retrieve_request KNOWLEDGE_BASE_ID query).
  destruct (aws w _ "retrieve" _) as [response | e]; [ | reflexivity ].
  rewrite events_bind_lift, result_of_bind, result_of_lift.
  destruct (getitem (repr w) response (VStr "retrievalResults")) as [results | e];
    [ | reflexivity ].
  rewrite events_bind_lift, result_of_bind, result_of_lift.
  destruct (iter results) as [items | e]; [ | reflexivity ].
  rewrite events_bind_lift, result_of_bind, result_of_lift.
  now destruct (comprehension (Guardrails.content_text w) items).
Qed.

Lemma filtered_retrieve_result (w : world) (regionName : string)
    (KNOWLEDGE_BASE_ID : pyval) (query : string) (response : pyval)
    (results texts : list pyval) :
  (forall c kwargs, aws w c "retrieve" kwargs = Ok response) ->
  field "retrievalResults" response = Some (VList results) ->
  Forall2 (fun result text => at_path ["content"; "text"] result = Some text)
          results texts ->
  result_of (Guardrails.retrieve_from_bedrock w regionName KNOWLEDGE_BASE_ID query)
    = Ok (VList texts).
Proof.
  intros Hcall Hresults Hall. unfold Guardrails.retrieve_from_bedrock.
  rewrite try_except_reraise.
  rewrite (bind_call_ok _ _ _ _ response _ (Hcall _ _)). cbn [result_of snd].
  rewrite (field_getitem _ _ _ _ Hresults), bind_lift_ok. cbn [iter].
  change (Guardrails.content_text w) with (SageMakerRAG.content_text w).
  now rewrite bind_lift_ok, (comprehension_content_text w results texts Hall).
Qed.

Lemma guardrails_generate_events (w : world) (ENDPOINT_NAME : pyval)
    (prompt body : string) :
  (forall payload, json_dumps w payload = Ok body) ->
  events (Guardrails.generate_response w ENDPOINT_NAME prompt) =
  [Called (Client "sagemaker-runtime" None) "invoke_endpoint"
     (endpoint_request ENDPOINT_NAME body)].
Proof.
  intros Hdumps. unfold Guardrails.generate_response. cbv zeta.
  rewrite Hdumps, bind_lift_ok. apply events_after_endpoint.
Qed.

Lemma policy_evaluation_filtered (w : world) (variables : pyval)
    (regionName : string) (output_text guardrail_id guardrail_version : pyval)
    (fields : list (string * pyval)) (first : pyval) (rest : list pyval)
    (filtered : pyval) :
  field "guardrail_id" variables = Some guardrail_id ->
  field "guardrail_version" variables = Some guardrail_version ->
  aws w (Guardrails.bedrock_client regionName) "apply_guardrail"
      (guardrail_request guardrail_id guardrail_version output_text)
    = Ok (VDict fields) ->
  lookup "outputs" fields = Some (VList (first :: rest)) ->
  field "text" first = Some filtered ->
  Guardrails.policy_evaluation w variables regionName output_text =
  ([Called (Guardrails.bedrock_client regionName) "apply_guardrail"
      (guardrail_request guardrail_id guardrail_version output_text)],
   Ok filtered).
Proof.
  intros Hid Hversion Hcall Houtputs Htext. unfold Guardrails.policy_evaluation.
  rewrite (field_getitem _ _ _ _ Hid), bind_lift_ok.
  rewrite (field_getitem _ _ _ _ Hversion), bind_lift_ok.
  fold (guardrail_request guardrail_id guardrail_version output_text).
  rewrite (bind_call_ok _ _ _ _ (VDict fields) _ Hcall).
  cbn [contains]. rewrite Houtputs, bind_lift_ok.
  rewrite (getitem_field _ _ _ _ Houtputs).
  rewrite (@bind_lift_ok pyval bool), bind_ret. cbn [truthy].
  rewrite bind_lift_ok.
  cbn [getitem seq_index Z.leb Z.compare Z.to_nat nth_error List.length].
  rewrite bind_lift_ok, (field_getitem _ _ _ _ Htext).
  reflexivity.
Qed.

Lemma policy_evaluation_unreachable (w : world) (variables : pyval)
    (regionName : string) (output_text guardrail_id guardrail_version : pyval)
    (e : exn) :
  field "guardrail_id" variables = Some guardrail_id ->
  field "guardrail_version" variables = Some guardrail_version ->
  aws w (Guardrails.bedrock_client regionName) "apply_guardrail"
      (guardrail_request guardrail_id guardrail_version output_text)
    = Raise e ->
  Guardrails.policy_evaluation w variables regionName output_text =
  ([Called (Guardrails.bedrock_client regionName) "apply_guardrail"
      (guardrail_request guardrail_id guardrail_version output_text)],
   Raise e).
Proof.
  intros Hid Hversion Hcall. unfold Guardrails.policy_evaluation.
  rewrite (field_getitem _ _ _ _ Hid), bind_lift_ok.
  rewrite (field_getitem _ _ _ _ Hversion), bind_lift_ok.
  fold (guardrail_request guardrail_id guardrail_version output_text).
  now rewrite (bind_call_raise _ _ _ _ e _ Hcall).
Qed.

Lemma strings_at_path (results : list pyval) (texts : list string) :
  Forall2 (fun result text =>
             at_path ["content"; "text"] result = Some (VStr text))
          results texts ->
  Forall2 (fun result text => at_path ["content"; "text"] result = Some text)
          results (map VStr texts).
Proof.
  induction 1; cbn [map]; constructor; assumption.
Qed.

(** X20. The guardrail notebook's chain, when every service answers: the
    cell makes three calls in this order (the filtered retrieval, the
    endpoint invocation, the guardrail on the endpoint's text), and the
    answer it prints and returns is the guardrail's first output, not the
    endpoint's text. *)
Theorem answer_is_the_guardrail_output :
  forall (w : world) (variables : pyval) (regionName : string)
         (KNOWLEDGE_BASE_ID ENDPOINT_NAME : pyval) (query : string)
         (response : pyval) (results : list pyval) (texts : list string)
         (body bytes text : string) (parsed raw : pyval)
         (guardrail_id guardrail_version : pyval)
         (fields : list (string * pyval)) (first : pyval) (rest : list pyval)
         (filtered : pyval),
    (forall c kwargs, aws w c "retrieve" kwargs = Ok response) ->
    field "retrievalResults" response = Some (VList results) ->
    Forall2 (fun result passage =>
               at_path ["content"; "text"] result = Some (VStr passage))
            results texts ->
    (forall payload, json_dumps w payload = Ok body) ->
    (forall c kwargs, endpoint_body w c kwargs = Ok bytes) ->
    decode_utf8 w bytes = Ok text ->
    json_loads w text = Ok parsed ->
    yields parsed raw ->
    field "guardrail_id" variables = Some guardrail_id ->
    field "guardrail_version" variables = Some guardrail_version ->
    (forall c kwargs, aws w c "apply_guardrail" kwargs = Ok (VDict fields)) ->
    lookup "outputs" fields = Some (VList (first :: rest)) ->
    field "text" first = Some filtered ->
    Guardrails.answer w variables regionName KNOWLEDGE_BASE_ID ENDPOINT_NAME query =
    ([Called (Client "bedrock-agent-runtime" (Some regionName)) "retrieve"
        (filtered_retrieve_request KNOWLEDGE_BASE_ID query);
      Called (Client "sagemaker-runtime" None) "invoke_endpoint"
        (endpoint_request ENDPOINT_NAME body);
      Called (Client "bedrock-runtime" (Some regionName)) "apply_guardrail"
        (guardrail_request guardrail_id guardrail_version raw);
      Printed ("Question: {" ++ repr w (VStr query) ++ "}");
      Printed ("Answer: " ++ py_str (repr w) filtered)],
     Ok filtered).
Proof.
  intros w variables regionName KB EP query response results texts
         body bytes text parsed raw gid gver fields first rest filtered
         Hretrieve Hresults Htexts Hdumps Hendpoint Hdecode Hloads Hyields
         Hid Hversion Hguard Houtputs Hfirst.
  unfold Guardrails.answer.
  rewrite bind_run, filtered_retrieve_events.
  rewrite (filtered_retrieve_result w regionName KB query response results
             (map VStr texts) Hretrieve Hresults (strings_at_path _ _ Htexts)).
  rewrite format_prompt_strings, bind_lift_ok.
  rewrite bind_run, (guardrails_generate_events w EP _ body Hdumps).
  rewrite (guardrails_generate_response_result w EP _ parsed)
    by (exists body, bytes, text; auto).
  change (Guardrails.generated_text w parsed)
    with (SageMakerRAG.generated_text w parsed).
  rewrite (generated_text_yields w parsed raw Hyields).
  unfold Guardrails.apply_output_guardrail.
  rewrite (policy_evaluation_filtered w variables regionName raw gid gver fields
             first rest filtered Hid Hversion (Hguard _ _) Houtputs Hfirst).
  cbn [try_except]. rewrite bind_run. cbn [events fst result_of snd].
  rewrite !bind_print. reflexivity.
Qed.

Lemma answer_is_the_guardrail_output_witness :
  Guardrails.answer Scenario.guarded_rag
    Scenario.variables Scenario.region (VStr "KB1") (VStr "llama-endpoint")
    "should I buy amazon stock?" =
  ([Called (Client "bedrock-agent-runtime" (Some Scenario.region)) "retrieve"
      (filtered_retrieve_request (VStr "KB1") "should I buy amazon stock?");
    Called (Client "sagemaker-runtime" None) "invoke_endpoint"
      (endpoint_request (VStr "llama-endpoint") "{}");
    Called (Client "bedrock-runtime" (Some Scenario.region)) "apply_guardrail"
      (guardrail_request (VStr "gr-1") (VStr "1")
         (VStr "You should buy the stock."));
    Printed "Question: {'should I buy amazon stock?'}";
    Printed "Answer: Response modified per compliance guidelines."],
   Ok (VStr "Response modified per compliance guidelines.")).
Proof.
  apply (answer_is_the_guardrail_output Scenario.guarded_rag
           Scenario.variables Scenario.region
           (VStr "KB1") (VStr "llama-endpoint") "should I buy amazon stock?"
           Scenario.retrieved1
           [VDict [("content", VDict [("text", VStr "Net sales rose.")])]]
           ["Net sales rose."] "{}" "body" "body"
           Scenario.advice
           (VStr "You should buy the stock.") (VStr "gr-1") (VStr "1")
           [("action", VStr "GUARDRAIL_INTERVENED");
            ("outputs",
             VList [VDict [("text",
                            VStr "Response modified per compliance guidelines.")]])]
           (VDict [("text", VStr "Response modified per compliance guidelines.")])
           []
           (VStr "Response modified per compliance guidelines."));
    try reflexivity.
  - repeat constructor.
  - now constructor.
Defined.

(** X21. The chain stops at a failed retrieval: when the search raises,
    the cell raises the retrieval failure after that one call; the
    endpoint is never invoked, the guardrail never consulted, and nothing
    is printed. *)
Theorem answer_stops_at_retrieval_failure :
  forall (w : world) (variables : pyval) (regionName : string)
         (KNOWLEDGE_BASE_ID ENDPOINT_NAME : pyval) (query : string) (e : exn),
    (forall c kwargs, aws w c "retrieve" kwargs = Raise e) ->
    Guardrails.answer w variables regionName KNOWLEDGE_BASE_ID ENDPOINT_NAME query =
    ([Called (Client "bedrock-agent-runtime" (Some regionName)) "retrieve"
        (filtered_retrieve_request KNOWLEDGE_BASE_ID query)],
     Raise (Exn RuntimeError ("Bedrock retrieval failed: " ++ str e))).
Proof.
  intros w variables regionName KB EP query e Hretrieve.
  unfold Guardrails.answer. rewrite bind_run, filtered_retrieve_events.
  unfold Guardrails.retrieve_from_bedrock. rewrite try_except_reraise.
  rewrite (bind_call_raise _ _ _ _ e _ (Hretrieve _ _)).
  reflexivity.
Qed.

Lemma answer_stops_at_retrieval_failure_witness :
  Guardrails.answer Scenario.offline Scenario.variables Scenario.region
    (VStr "KB1") (VStr "llama-endpoint") "should I buy amazon stock?" =
  ([Called (Client "bedrock-agent-runtime" (Some Scenario.region)) "retrieve"
      (filtered_retrieve_request (VStr "KB1") "should I buy amazon stock?")],
   Raise (Exn RuntimeError
            "Bedrock retrieval failed: Read timeout on endpoint URL")).
Proof.
  apply (answer_stops_at_retrieval_failure Scenario.offline Scenario.variables
           Scenario.region (VStr "KB1") (VStr "llama-endpoint")
           "should I buy amazon stock?" Scenario.timeout).
  reflexivity.
Defined.

(** X22. The chain survives a guardrail out of reach: when retrieval and
    generation succeed and the guardrail call raises, the cell prints the
    guardrail warning and then prints and returns the endpoint's own text,
    unfiltered. *)
Theorem answer_survives_guardrail_failure :
  forall (w : world) (variables : pyval) (regionName : string)
         (KNOWLEDGE_BASE_ID ENDPOINT_NAME : pyval) (query : string)
         (response : pyval) (results : list pyval) (texts : list string)
         (body bytes text : string) (parsed raw : pyval)
         (guardrail_id guardrail_version : pyval) (e : exn),
    (forall c kwargs, aws w c "retrieve" kwargs = Ok response) ->
    field "retrievalResults" response = Some (VList results) ->
    Forall2 (fun result passage =>
               at_path ["content"; "text"] result = Some (VStr passage))
            results texts ->
    (forall payload, json_dumps w payload = Ok body) ->
    (forall c kwargs, endpoint_body w c kwargs = Ok bytes) ->
    decode_utf8 w bytes = Ok text ->
    json_loads w text = Ok parsed ->
    yields parsed raw ->
    field "guardrail_id" variables = Some guardrail_id ->
    field "guardrail_version" variables = Some guardrail_version ->
    (forall c kwargs, aws w c "apply_guardrail" kwargs = Raise e) ->
    Guardrails.answer w variables regionName KNOWLEDGE_BASE_ID ENDPOINT_NAME query =
    ([Called (Client "bedrock-agent-runtime" (Some regionName)) "retrieve"
        (filtered_retrieve_request KNOWLEDGE_BASE_ID query);
      Called (Client "sagemaker-runtime" None) "invoke_endpoint"
        (endpoint_request ENDPOINT_NAME body);
      Called (Client "bedrock-runtime" (Some regionName)) "apply_guardrail"
        (guardrail_request guardrail_id guardrail_version raw);
      Printed ("Warning: Output guardrail application failed: " ++ str e);
      Printed ("Question: {" ++ repr w (VStr query) ++ "}");
      Printed ("Answer: " ++ py_str (repr w) raw)],
     Ok raw).
Proof.
  intros w variables regionName KB EP query response results texts
         body bytes text parsed raw gid gver e
         Hretrieve Hresults Htexts Hdumps Hendpoint Hdecode Hloads Hyields
         Hid Hversion Hguard.
  unfold Guardrails.answer.
  rewrite bind_run, filtered_retrieve_events.
  rewrite (filtered_retrieve_result w regionName KB query response results
             (map VStr texts) Hretrieve Hresults (strings_at_path _ _ Htexts)).
  rewrite format_prompt_strings, bind_lift_ok.
  rewrite bind_run, (guardrails_generate_events w EP _ body Hdumps).
  rewrite (guardrails_generate_response_result w EP _ parsed)
    by (exists body, bytes, text; auto).
  change (Guardrails.generated_text w parsed)
    with (SageMakerRAG.generated_text w parsed).
  rewrite (generated_text_yields w parsed raw Hyields).
  unfold Guardrails.apply_output_guardrail.
  rewrite (policy_evaluation_unreachable w variables regionName raw gid gver e
             Hid Hversion (Hguard _ _)).
  cbn [try_except]. rewrite bind_print. cbn [ret events fst result_of snd app].
  rewrite bind_run. cbn [events fst result_of snd].
  rewrite !bind_print. reflexivity.
Qed.

Lemma answer_survives_guardrail_failure_witness :
  Guardrails.answer Scenario.unguarded_rag
    Scenario.variables Scenario.region (VStr "KB1") (VStr "llama-endpoint")
    "should I buy amazon stock?" =
  ([Called (Client "bedrock-agent-runtime" (Some Scenario.region)) "retrieve"
      (filtered_retrieve_request (VStr "KB1") "should I buy amazon stock?");
    Called (Client "sagemaker-runtime" None) "invoke_endpoint"
      (endpoint_request (VStr "llama-endpoint") "{}");
    Called (Client "bedrock-runtime" (Some Scenario.region)) "apply_guardrail"
      (guardrail_request (VStr "gr-1") (VStr "1")
         (VStr "You should buy the stock."));
    Printed "Warning: Output guardrail application failed: Read timeout on endpoint URL";
    Printed "Question: {'should I buy amazon stock?'}";
    Printed "Answer: You should buy the stock."],
   Ok (VStr "You should buy the stock.")).
Proof.
  apply (answer_survives_guardrail_failure Scenario.unguarded_rag
           Scenario.variables Scenario.region
           (VStr "KB1") (VStr "llama-endpoint") "should I buy amazon stock?"
           Scenario.retrieved1
           [VDict [("content", VDict [("text", VStr "Net sales rose.")])]]
           ["Net sales rose."] "{}" "body" "body"
           Scenario.advice
           (VStr "You should buy the stock.") (VStr "gr-1") (VStr "1")
           Scenario.timeout);
    try reflexivity.
  - repeat constructor.
  - now constructor.
Defined.

(** ** The reranking notebook's two questions *)

Lemma search_kb_events (w : world) (regionName query kb_id : string)
    (numberOfResults : Z) :
  events (Reranking.search_kb w regionName query kb_id numberOfResults) =
  [Called (Client "bedrock-agent-runtime" (Some regionName)) "retrieve"
     (retrieve_request kb_id query numberOfResults)].
Proof.
  unfold Reranking.search_kb. cbv zeta.
  fold (retrieve_request kb_id query numberOfResults).
  rewrite events_bind, events_call, result_of_call.
  destruct (aws w _ "retrieve" _) as [kb_response | e]; [ | reflexivity ].
  rewrite events_bind_lift.
  destruct (get kb_response "retrievalResults" (VList [])) as [results | e];
    [ | reflexivity ].
  rewrite events_bind_lift.
  destruct (iter results) as [items | e]; [ | reflexivity ].
  rewrite events_bind_lift.
  now destruct (for_each (enumerate items) ([], []) (Reranking.add_result w)).
Qed.

Lemma search_kb_documents (w : world) (regionName query kb_id : string)
    (numberOfResults : Z) (kb_response : pyval) (results : list pyval)
    (texts : list string) :
  (forall kwargs,
      aws w (Client "bedrock-agent-runtime" (Some regionName)) "retrieve" kwargs
      = Ok kb_response) ->
  field "retrievalResults" kb_response = Some (VList results) ->
  Forall2 passage_text results texts ->
  result_of (Reranking.search_kb w regionName query kb_id numberOfResults)
    = Ok (VList (map VStr texts)).
Proof.
  intros Hcall Hresults Hall. unfold Reranking.search_kb. cbv zeta.
  rewrite (bind_call_ok _ _ _ _ kb_response _ (Hcall _)). cbn [result_of snd].
  rewrite (get_field _ _ _ _ Hresults), bind_lift_ok. cbn [iter].
  rewrite bind_lift_ok. unfold enumerate.
  destruct (for_each_add_result w results texts 0 [] [] Hall) as [originals ->].
  now rewrite bind_lift_ok.
Qed.

Lemma rerank_results_events (w : world) (regionName query : string)
    (docs : list pyval) (rerank_model_arn : string) (reranked_result_count : Z) :
  events (Reranking.rerank_results w regionName query (VList docs)
            rerank_model_arn reranked_result_count) =
  [Called (Client "bedrock-agent-runtime" (Some regionName)) "rerank"
     (rerank_request query docs rerank_model_arn reranked_result_count)].
Proof.
  unfold Reranking.rerank_results. cbv zeta. cbn [iter].
  rewrite bind_lift_ok.
  change (map Reranking.source_of docs)
    with (map (fun doc =>
                 VDict [("inlineDocumentSource",
                         VDict [("textDocument", VDict [("text", doc)]);
                                ("type", VStr "TEXT")]);
                        ("type", VStr "INLINE")]) docs).
  fold (rerank_request query docs rerank_model_arn reranked_result_count).
  rewrite events_bind, events_call, result_of_call.
  destruct (aws w _ "rerank" _) as [reranked | e]; [ | reflexivity ].
  rewrite events_bind_lift.
  destruct (get reranked "results" (VList [])) as [results | e]; [ | reflexivity ].
  rewrite events_bind_lift.
  destruct (iter results) as [entries | e]; [ | reflexivity ].
  rewrite events_bind_lift.
  now destruct (for_each entries [] (Reranking.add_reranked w (VList docs))).
Qed.

Lemma invoke_converse_events (w : world)
    (regionName system_prompt user_prompt model_id : string)
    (temperature : float) (max_tokens : Z) :
  exists rest,
    events (Reranking.invoke_converse w regionName system_prompt user_prompt
              model_id temperature max_tokens) =
    Called (Client "bedrock-runtime" (Some regionName)) "converse"
      (converse_request system_prompt user_prompt model_id temperature)
    :: rest.
Proof.
  unfold Reranking.invoke_converse. cbv zeta. apply events_try_call.
Qed.

Lemma events_bind_first {A B : Type} (m : M A) (k : A -> M B) (first : event) :
  (exists rest, events m = first :: rest) ->
  exists rest, events (bind m k) = first :: rest.
Proof.
  intros [rest Hm]. rewrite events_bind, Hm. cbn [app]. eauto.
Qed.

(** X23. The reranked question, end to end: the cell asks the knowledge
    base for 20 results, sends the texts [search_kb] extracted to the
    reranker asking for 5, and then submits the question with a system
    prompt whose context is the reranked passages in the reranker's
    order, each followed by a double newline. *)
Theorem ask_reranked_sends_the_reranked_context :
  forall (w : world) (regionName knowledge_base_id query : string)
         (kb_response : pyval) (results : list pyval) (texts : list string)
         (reranked : pyval) (entries : list pyval) (idxs : list Z),
    (forall kwargs,
        aws w (Client "bedrock-agent-runtime" (Some regionName)) "retrieve" kwargs
        = Ok kb_response) ->
    field "retrievalResults" kb_response = Some (VList results) ->
    Forall2 passage_text results texts ->
    (forall kwargs,
        aws w (Client "bedrock-agent-runtime" (Some regionName)) "rerank" kwargs
        = Ok reranked) ->
    field "results" reranked = Some (VList entries) ->
    Forall2 (fun entry idx => indexed entry idx /\ in_bounds (List.length texts) idx)
            entries idxs ->
    exists rest,
      events (Reranking.ask_reranked w regionName knowledge_base_id query) =
      Called (Client "bedrock-agent-runtime" (Some regionName)) "retrieve"
        (retrieve_request knowledge_base_id query 20)
      :: Called (Client "bedrock-agent-runtime" (Some regionName)) "rerank"
           (rerank_request query (map VStr texts) Reranking.rerank_model_arn 5)
      :: Called (Client "bedrock-runtime" (Some regionName)) "converse"
           (converse_request
              (Reranking.system_prompt (paragraphs (selected texts idxs)))
              query Reranking.model_id Reranking.default_temperature)
      :: rest.
Proof.
  intros w regionName kb query kb_response results texts reranked entries idxs
         Hretrieve Hresults Htexts Hrerank Hentries Hidxs.
  unfold Reranking.ask_reranked.
  rewrite events_bind, search_kb_events.
  rewrite (search_kb_documents w regionName query kb 20 kb_response results texts
             Hretrieve Hresults Htexts).
  rewrite events_bind, rerank_results_events.
  rewrite (rerank_results_selects w regionName query (map VStr texts)
             Reranking.rerank_model_arn 5 reranked entries idxs Hrerank Hentries).
  2:{ rewrite length_map. apply Forall2_impl with (2 := Hidxs).
      intros entry idx [Hidx Hin]. split; [now left | assumption]. }
  rewrite (kb_context_paragraphs w
             (VDict [("original_results", VList (map VStr texts));
                     ("reranked_results",
                      VList (reranked_passages (map VStr texts) 1 entries idxs))])
             (reranked_passages (map VStr texts) 1 entries idxs)
             (selected texts idxs) eq_refl
             (reranked_passages_texts texts entries idxs 1 Hidxs)).
  rewrite bind_lift_ok. cbn [app].
  destruct (events_bind_first
              (Reranking.invoke_converse w regionName
                 (Reranking.system_prompt (paragraphs (selected texts idxs)))
                 query Reranking.model_id Reranking.default_temperature
                 Reranking.default_max_tokens)
              (fun answered =>
                 print (py_str (repr w) (fst answered)) ;;; ret answered)
              _ (invoke_converse_events _ _ _ _ _ _ _)) as [rest ->].
  now exists rest.
Qed.

Lemma ask_reranked_sends_the_reranked_context_witness :
  exists rest,
    events (Reranking.ask_reranked
              (Scenario.services (Ok Scenario.retrieved3)
                 (Ok (VDict [("results", VList [Scenario.entry 2 0.875;
                                                Scenario.entry 0 0.5])]))
                 (Ok Scenario.conversed3) (Ok VNone) (Ok "") (Ok VNone))
              Scenario.region "KB1" "What is red teaming?") =
    Called (Client "bedrock-agent-runtime" (Some Scenario.region)) "retrieve"
      (retrieve_request "KB1" "What is red teaming?" 20)
    :: Called (Client "bedrock-agent-runtime" (Some Scenario.region)) "rerank"
         (rerank_request "What is red teaming?"
            (map VStr [String.concat "" ["Red "; "teaming"]; ""; "probes a model"])
            Reranking.rerank_model_arn 5)
    :: Called (Client "bedrock-runtime" (Some Scenario.region)) "converse"
         (converse_request
            (Reranking.system_prompt
               (paragraphs
                  (selected [String.concat "" ["Red "; "teaming"]; "";
                             "probes a model"] [2; 0]%Z)))
            "What is red teaming?" Reranking.model_id
            Reranking.default_temperature)
    :: rest.
Proof.
  apply (ask_reranked_sends_the_reranked_context
           (Scenario.services (Ok Scenario.retrieved3)
              (Ok (VDict [("results", VList [Scenario.entry 2 0.875;
                                             Scenario.entry 0 0.5])]))
              (Ok Scenario.conversed3) (Ok VNone) (Ok "") (Ok VNone))
           Scenario.region "KB1" "What is red teaming?"
           Scenario.retrieved3 Scenario.results3
           [String.concat "" ["Red "; "teaming"]; ""; "probes a model"]
           (VDict [("results", VList [Scenario.entry 2 0.875;
                                      Scenario.entry 0 0.5])])
           [Scenario.entry 2 0.875; Scenario.entry 0 0.5] [2; 0]%Z).
  - reflexivity.
  - reflexivity.
  - apply Forall2_cons; [ | apply Forall2_cons; [ | apply Forall2_cons; [ | apply Forall2_nil ] ] ].
    + apply passage_spans
        with (content := [("text", VList [VDict [("span", VStr "Red ")];
                                          VStr "teaming"])])
             (spans := [VDict [("span", VStr "Red ")]; VStr "teaming"]);
        [reflexivity | reflexivity | ].
      apply Forall2_cons; [now apply span_object | ].
      apply Forall2_cons; [apply span_raw | apply Forall2_nil].
    + now apply passage_no_content.
    + now apply passage_string with (content := [("text", VStr "probes a model")]).
  - reflexivity.
  - reflexivity.
  - repeat constructor; simpl; lia.
Defined.

(** X24. A rerank failure is not handled anywhere: when retrieval
    succeeds and the rerank call raises, the reranked question raises that
    same exception after the two calls; the model is never asked and
    nothing is printed. *)
Theorem ask_reranked_rerank_failure :
  forall (w : world) (regionName knowledge_base_id query : string)
         (kb_response : pyval) (results : list pyval) (texts : list string)
         (e : exn),
    (forall kwargs,
        aws w (Client "bedrock-agent-runtime" (Some regionName)) "retrieve" kwargs
        = Ok kb_response) ->
    field "retrievalResults" kb_response = Some (VList results) ->
    Forall2 passage_text results texts ->
    (forall kwargs,
        aws w (Client "bedrock-agent-runtime" (Some regionName)) "rerank" kwargs
        = Raise e) ->
    Reranking.ask_reranked w regionName knowledge_base_id query =
    ([Called (Client "bedrock-agent-runtime" (Some regionName)) "retrieve"
        (retrieve_request knowledge_base_id query 20);
      Called (Client "bedrock-agent-runtime" (Some regionName)) "rerank"
        (rerank_request query (map VStr texts) Reranking.rerank_model_arn 5)],
     Raise e).
Proof.
  intros w regionName kb query kb_response results texts e
         Hretrieve Hresults Htexts Hrerank.
  unfold Reranking.ask_reranked.
  rewrite bind_run, search_kb_events.
  rewrite (search_kb_documents w regionName query kb 20 kb_response results texts
             Hretrieve Hresults Htexts).
  rewrite bind_run, rerank_results_events.
  unfold Reranking.rerank_results. cbv zeta. cbn [iter].
  rewrite bind_lift_ok, (bind_call_raise _ _ _ _ e _ (Hrerank _)).
  reflexivity.
Qed.

Lemma ask_reranked_rerank_failure_witness :
  Reranking.ask_reranked
    (Scenario.services (Ok Scenario.retrieved3) (Raise Scenario.timeout)
       (Ok Scenario.conversed3) (Ok VNone) (Ok "") (Ok VNone))
    Scenario.region "KB1" "What is red teaming?" =
  ([Called (Client "bedrock-agent-runtime" (Some Scenario.region)) "retrieve"
      (retrieve_request "KB1" "What is red teaming?" 20);
    Called (Client "bedrock-agent-runtime" (Some Scenario.region)) "rerank"
      (rerank_request "What is red teaming?"
         (map VStr [String.concat "" ["Red "; "teaming"]; ""; "probes a model"])
         Reranking.rerank_model_arn 5)],
   Raise Scenario.timeout).
Proof.
  apply (ask_reranked_rerank_failure
           (Scenario.services (Ok Scenario.retrieved3) (Raise Scenario.timeout)
              (Ok Scenario.conversed3) (Ok VNone) (Ok "") (Ok VNone))
           Scenario.region "KB1" "What is red teaming?"
           Scenario.retrieved3 Scenario.results3
           [String.concat "" ["Red "; "teaming"]; ""; "probes a model"]
           Scenario.timeout).
  - reflexivity.
  - reflexivity.
  - apply Forall2_cons; [ | apply Forall2_cons; [ | apply Forall2_cons; [ | apply Forall2_nil ] ] ].
    + apply passage_spans
        with (content := [("text", VList [VDict [("span", VStr "Red ")];
                                          VStr "teaming"])])
             (spans := [VDict [("span", VStr "Red ")]; VStr "teaming"]);
        [reflexivity | reflexivity | ].
      apply Forall2_cons; [now apply span_object | ].
      apply Forall2_cons; [apply span_raw | apply Forall2_nil].
    + now apply passage_no_content.
    + now apply passage_string with (content := [("text", VStr "probes a model")]).
  - reflexivity.
Defined.

(** X25. The first, unranked question: the cell asks the knowledge base
    for 5 results and submits the question with a system prompt whose
    context is the extracted texts joined by a double newline, with no
    separator after the last; whatever the model service then does, the
    cell does not raise. *)
Theorem ask_sends_the_joined_context :
  forall (w : world) (regionName knowledge_base_id query : string)
         (kb_response : pyval) (results : list pyval) (texts : list string),
    (forall kwargs,
        aws w (Client "bedrock-agent-runtime" (Some regionName)) "retrieve" kwargs
        = Ok kb_response) ->
    field "retrievalResults" kb_response = Some (VList results) ->
    Forall2 passage_text results texts ->
    (exists rest,
        events (Reranking.ask w regionName knowledge_base_id query) =
        Called (Client "bedrock-agent-runtime" (Some regionName)) "retrieve"
          (retrieve_request knowledge_base_id query 5)
        :: Called (Client "bedrock-runtime" (Some regionName)) "converse"
             (converse_request
                (Reranking.system_prompt (double_newline_join texts))
                query Reranking.model_id Reranking.default_temperature)
        :: rest) /\
    (exists answered,
        result_of (Reranking.ask w regionName knowledge_base_id query)
        = Ok answered).
Proof.
  intros w regionName kb query kb_response results texts
         Hretrieve Hresults Htexts.
  unfold Reranking.ask. split.
  - rewrite events_bind, search_kb_events.
    rewrite (search_kb_documents w regionName query kb 5 kb_response results
               texts Hretrieve Hresults Htexts).
    unfold Reranking.kb_context_joined. rewrite join_strings, bind_lift_ok.
    cbn [app]. fold (double_newline_join texts).
    destruct (events_bind_first
                (Reranking.invoke_converse w regionName
                   (Reranking.system_prompt (double_newline_join texts))
                   query Reranking.model_id Reranking.default_temperature
                   Reranking.default_max_tokens)
                (fun answered =>
                   print (py_str (repr w) (fst answered)) ;;; ret answered)
                _ (invoke_converse_events _ _ _ _ _ _ _)) as [rest ->].
    now exists rest.
  - rewrite result_of_bind.
    rewrite (search_kb_documents w regionName query kb 5 kb_response results
               texts Hretrieve Hresults Htexts).
    unfold Reranking.kb_context_joined. rewrite join_strings, bind_lift_ok.
    rewrite result_of_bind.
    unfold Reranking.invoke_converse at 1. cbv zeta.
    rewrite result_of_try_except.
    match goal with
    | |- context [match ?body with Ok a => Ok a | Raise e => _ end] =>
        destruct body as [answered | e]
    end.
    + rewrite bind_print. cbn [result_of snd ret]. now exists answered.
    + rewrite bind_print. cbn [result_of snd ret].
      rewrite bind_print. cbn [result_of snd]. now exists (VNone, VNone).
Qed.

Lemma ask_sends_the_joined_context_witness :
  (exists rest,
      events (Reranking.ask
                (Scenario.services (Ok Scenario.retrieved3) (Ok VNone)
                   (Raise Scenario.timeout) (Ok VNone) (Ok "") (Ok VNone))
                Scenario.region "KB1" "What is red teaming?") =
      Called (Client "bedrock-agent-runtime" (Some Scenario.region)) "retrieve"
        (retrieve_request "KB1" "What is red teaming?" 5)
      :: Called (Client "bedrock-runtime" (Some Scenario.region)) "converse"
           (converse_request
              (Reranking.system_prompt
                 (double_newline_join
                    [String.concat "" ["Red "; "teaming"]; ""; "probes a model"]))
              "What is red teaming?" Reranking.model_id
              Reranking.default_temperature)
      :: rest) /\
  (exists answered,
      result_of (Reranking.ask
                   (Scenario.services (Ok Scenario.retrieved3) (Ok VNone)
                      (Raise Scenario.timeout) (Ok VNone) (Ok "") (Ok VNone))
                   Scenario.region "KB1" "What is red teaming?")
      = Ok answered).
Proof.
  apply (ask_sends_the_joined_context
           (Scenario.services (Ok Scenario.retrieved3) (Ok VNone)
              (Raise Scenario.timeout) (Ok VNone) (Ok "") (Ok VNone))
           Scenario.region "KB1" "What is red teaming?"
           Scenario.retrieved3 Scenario.results3
           [String.concat "" ["Red "; "teaming"]; ""; "probes a model"]).
  - reflexivity.
  - reflexivity.
  - apply Forall2_cons; [ | apply Forall2_cons; [ | apply Forall2_cons; [ | apply Forall2_nil ] ] ].
    + apply passage_spans
        with (content := [("text", VList [VDict [("span", VStr "Red ")];
                                          VStr "teaming"])])
             (spans := [VDict [("span", VStr "Red ")]; VStr "teaming"]);
        [reflexivity | reflexivity | ].
      apply Forall2_cons; [now apply span_object | ].
      apply Forall2_cons; [apply span_raw | apply Forall2_nil].
    + now apply passage_no_content.
    + now apply passage_string with (content := [("text", VStr "probes a model")]).
Defined.

(** ** The endpoint notebook: content handler and chain *)

Lemma retrieve_run (w : world) (regionName query kb_id : string)
    (num_results : Z) (response : pyval) (results texts : list pyval) :
  (forall c kwargs, aws w c "retrieve" kwargs = Ok response) ->
  field "retrievalResults" response = Some (VList results) ->
  Forall2 (fun result text => at_path ["content"; "text"] result = Some text)
          results texts ->
  SageMakerRAG.retrieve_from_bedrock w regionName query kb_id num_results =
  ([Called (Client "bedrock-agent-runtime" (Some regionName)) "retrieve"
      (retrieve_request kb_id query num_results)],
   Ok (VList texts)).
Proof.
  intros Hcall Hresults Hall. unfold SageMakerRAG.retrieve_from_bedrock.
  rewrite (bind_call_ok _ _ _ _ response _ (Hcall _ _)).
  rewrite (field_getitem _ _ _ _ Hresults), bind_lift_ok. cbn [iter].
  rewrite bind_lift_ok, (comprehension_content_text w results texts Hall).
  rewrite bind_lift_ok. reflexivity.
Qed.

(** X26. The two ways the endpoint notebook reads a response differ on
    the list shape: on a body that parses to a list whose first element
    has [generated_text], [generate_response] returns that text, but
    [ContentHandler.transform_output] indexes the list by the key and
    raises a type error. *)
Theorem transform_output_rejects_list_shape :
  forall (w : world) (prompt endpoint_name : string) (body bytes text : string)
         (fields : list (string * pyval)) (rest : list pyval) (x : pyval),
    (forall payload, json_dumps w payload = Ok body) ->
    (forall c kwargs, endpoint_body w c kwargs = Ok bytes) ->
    decode_utf8 w bytes = Ok text ->
    json_loads w text = Ok (VList (VDict fields :: rest)) ->
    lookup "generated_text" fields = Some x ->
    result_of (SageMakerRAG.generate_response w prompt endpoint_name) = Ok x /\
    SageMakerRAG.transform_output w bytes =
      Raise (Exn TypeError "list indices must be integers or slices, not str").
Proof.
  intros w prompt endpoint_name body bytes text fields rest x
         Hdumps Hcall Hdecode Hloads Hfield.
  split.
  - rewrite (generate_response_result w prompt endpoint_name
               (VList (VDict fields :: rest)))
      by (exists body, bytes, text; auto).
    rewrite (generated_text_yields w _ x); [reflexivity | now constructor].
  - unfold SageMakerRAG.transform_output.
    rewrite Hdecode. cbn [rbind]. rewrite Hloads. reflexivity.
Qed.

Lemma transform_output_rejects_list_shape_witness :
  result_of (SageMakerRAG.generate_response
               (Scenario.endpoint_saying (VList [VDict [("generated_text", VStr "X")]]))
               "prompt" "llama-endpoint") = Ok (VStr "X") /\
  SageMakerRAG.transform_output
    (Scenario.endpoint_saying (VList [VDict [("generated_text", VStr "X")]]))
    "body" =
    Raise (Exn TypeError "list indices must be integers or slices, not str").
Proof.
  apply (transform_output_rejects_list_shape
           (Scenario.endpoint_saying (VList [VDict [("generated_text", VStr "X")]]))
           "prompt" "llama-endpoint" "{}" "body" "body"
           [("generated_text", VStr "X")] [] (VStr "X"));
    reflexivity.
Defined.

(** X27. Where the content handler does read a text, [generate_response]
    reads the same one: whenever [transform_output] returns [x] on the
    bytes the endpoint gave, [generate_response] returns [x]. *)
Theorem transform_output_agrees :
  forall (w : world) (prompt endpoint_name : string) (body bytes : string)
         (x : pyval),
    (forall payload, json_dumps w payload = Ok body) ->
    (forall c kwargs, endpoint_body w c kwargs = Ok bytes) ->
    SageMakerRAG.transform_output w bytes = Ok x ->
    result_of (SageMakerRAG.generate_response w prompt endpoint_name) = Ok x.
Proof.
  intros w prompt endpoint_name body bytes x Hdumps Hcall Hout.
  unfold SageMakerRAG.transform_output in Hout.
  destruct (decode_utf8 w bytes) as [text | e] eqn:Hdecode; [ | discriminate ].
  cbn [rbind] in Hout.
  destruct (json_loads w text) as [parsed | e] eqn:Hloads; [ | discriminate ].
  cbn [rbind] in Hout.
  destruct (getitem_by_name _ _ _ _ Hout) as (fields & -> & Hfield).
  rewrite (generate_response_result w prompt endpoint_name (VDict fields))
    by (exists body, bytes, text; auto).
  rewrite (generated_text_yields w _ x); [reflexivity | now constructor].
Qed.

Lemma transform_output_agrees_witness :
  result_of (SageMakerRAG.generate_response
               (Scenario.endpoint_saying (VDict [("generated_text", VStr "X")]))
               "prompt" "llama-endpoint") = Ok (VStr "X").
Proof.
  apply (transform_output_agrees
           (Scenario.endpoint_saying (VDict [("generated_text", VStr "X")]))
           "prompt" "llama-endpoint" "{}" "body" (VStr "X"));
    reflexivity.
Defined.

(** X28. The endpoint notebook's chain, when both services answer: one
    retrieval, then one endpoint invocation whose body is the serialised
    payload carrying [format_prompt] of the question and of the whole list
    of retrieved texts, then the question and the extracted answer
    printed; the cell returns that answer. *)
Theorem endpoint_answer_chain :
  forall (w : world) (regionName query KNOWLEDGE_BASE_ID : string)
         (NUM_RESULTS : Z) (ENDPOINT_NAME : string)
         (response : pyval) (results texts : list pyval)
         (body bytes text : string) (parsed x : pyval),
    (forall c kwargs, aws w c "retrieve" kwargs = Ok response) ->
    field "retrievalResults" response = Some (VList results) ->
    Forall2 (fun result passage => at_path ["content"; "text"] result = Some passage)
            results texts ->
    json_dumps w
      (VDict [("inputs",
               VStr (SageMakerRAG.format_prompt w query (VList texts)));
              ("parameters", SageMakerRAG.generation_configuration)]) = Ok body ->
    (forall c kwargs, endpoint_body w c kwargs = Ok bytes) ->
    decode_utf8 w bytes = Ok text ->
    json_loads w text = Ok parsed ->
    yields parsed x ->
    SageMakerRAG.answer w regionName query KNOWLEDGE_BASE_ID NUM_RESULTS
      ENDPOINT_NAME =
    ([Called (Client "bedrock-agent-runtime" (Some regionName)) "retrieve"
        (retrieve_request KNOWLEDGE_BASE_ID query NUM_RESULTS);
      Called (Client "sagemaker-runtime" None) "invoke_endpoint"
        (endpoint_request (VStr ENDPOINT_NAME) body);
      Printed ("Question: " ++ query);
      Printed ("Answer: " ++ py_str (repr w) x)],
     Ok x).
Proof.
  intros w regionName query KB n EP response results texts body bytes text
         parsed x Hretrieve Hresults Htexts Hdumps Hcall Hdecode Hloads Hyields.
  unfold SageMakerRAG.answer.
  rewrite (retrieve_run w regionName query KB n response results texts
             Hretrieve Hresults Htexts).
  rewrite bind_run. cbn [events fst result_of snd]. cbv zeta.
  unfold SageMakerRAG.generate_response. cbv zeta.
  rewrite Hdumps, bind_lift_ok.
  rewrite (bind_call_endpoint_ok _ _ _ bytes _ (Hcall _ _)).
  rewrite Hdecode, bind_lift_ok, Hloads, bind_lift_ok.
  rewrite (generated_text_yields w parsed x Hyields).
  cbn [lift events fst result_of snd try_except app].
  rewrite bind_run. cbn [events fst result_of snd].
  rewrite !bind_print. reflexivity.
Qed.

Lemma endpoint_answer_chain_witness :
  SageMakerRAG.answer Scenario.guarded_rag Scenario.region
    "what was the % increase in sales?" "KB1" 3 "llama-endpoint" =
  ([Called (Client "bedrock-agent-runtime" (Some Scenario.region)) "retrieve"
      (retrieve_request "KB1" "what was the % increase in sales?" 3);
    Called (Client "sagemaker-runtime" None) "invoke_endpoint"
      (endpoint_request (VStr "llama-endpoint") "{}");
    Printed "Question: what was the % increase in sales?";
    Printed "Answer: You should buy the stock."],
   Ok (VStr "You should buy the stock.")).
Proof.
  apply (endpoint_answer_chain Scenario.guarded_rag Scenario.region
           "what was the % increase in sales?" "KB1" 3 "llama-endpoint"
           Scenario.retrieved1
           [VDict [("content", VDict [("text", VStr "Net sales rose.")])]]
           [VStr "Net sales rose."] "{}" "body" "body"
           Scenario.advice (VStr "You should buy the stock."));
    try reflexivity.
  - repeat constructor.
  - now constructor.
Defined.

(** ** Two more edges *)

Lemma comprehension_span_of (w : world) (items : list pyval) :
  exists values, comprehension (Reranking.span_of w) items = Ok values.
Proof.
  induction items as [ | item items [values IH] ]; cbn [comprehension].
  - now exists [].
  - assert (exists v, Reranking.span_of w item = Ok v) as [v ->].
    { unfold Reranking.span_of. destruct item; cbn [isinstance_dict get];
        try (eexists; reflexivity).
      destruct (lookup "span" fields); eexists; reflexivity. }
    cbn [rbind]. rewrite IH. cbn [rbind]. now exists (v :: values).
Qed.

Lemma comprehension_app {A B : Type} (f : A -> outcome B) (xs ys : list A)
    (us vs : list B) :
  comprehension f xs = Ok us ->
  comprehension f ys = Ok vs ->
  comprehension f (xs ++ ys) = Ok (us ++ vs)%list.
Proof.
  revert us. induction xs as [ | x xs IH ]; intros us; cbn [comprehension app].
  - now intros [= <-].
  - destruct (f x) as [u | e]; cbn [rbind]; [ | discriminate ].
    destruct (comprehension f xs) as [us' | e]; cbn [rbind]; [ | discriminate ].
    intros [= <-] Hys. now rewrite (IH us' eq_refl Hys).
Qed.

Lemma result_text_bad_span (w : world) (fields content bad : list (string * pyval))
    (before : list pyval) (texts : list string) (v : pyval) (after : list pyval) :
  lookup "content" fields = Some (VDict content) ->
  lookup "text" content = Some (VList (before ++ VDict bad :: after)) ->
  Forall2 span_text before texts ->
  lookup "span" bad = Some v ->
  (forall s, v <> VStr s) ->
  Reranking.result_text w (VDict fields) =
  Raise (Exn TypeError
           ("sequence item "
            ++ NilEmpty.string_of_uint (Nat.to_uint (List.length texts))
            ++ ": expected str instance, " ++ type_name v ++ " found")).
Proof.
  intros Hcontent Htext Hbefore Hspan Hv.
  unfold Reranking.result_text. cbn [contains rbind].
  rewrite Hcontent, (getitem_field _ _ _ _ Hcontent). cbn [rbind contains].
  rewrite Htext, (getitem_field _ _ _ _ Htext). cbn [rbind iter].
  destruct (comprehension_span_of w after) as [values Hafter].
  rewrite (comprehension_app (Reranking.span_of w) before (VDict bad :: after)
             (map VStr texts) (v :: values)
             (comprehension_spans w before texts Hbefore)).
  2:{ cbn [comprehension]. unfold Reranking.span_of at 1.
      cbn [isinstance_dict get]. rewrite Hspan. cbn [rbind].
      now rewrite Hafter. }
  cbn [rbind]. unfold join. cbn [iter].
  now rewrite (str_items_not_a_string texts v values Hv 0).
Qed.

Lemma in_enumerate {A : Type} (x : A) (items : list A) :
  forall start : nat,
    In x items ->
    exists i, In (i, x) (combine (seq start (List.length items)) items).
Proof.
  induction items as [ | y items IH ]; intros start Hin; [destruct Hin | ].
  cbn [List.length seq combine]. destruct Hin as [-> | Hin].
  - exists start. now left.
  - destruct (IH (S start) Hin) as [i Hi]. exists i. now right.
Qed.

(** X29. A span object whose [span] is present but not a string, a null
    for instance, is not skipped: [search_kb] raises a type error on the
    whole call and returns no documents. *)
Theorem search_kb_rejects_null_span :
  forall (w : world) (regionName query kb_id : string) (numberOfResults : Z)
         (kb_response : pyval) (results : list pyval)
         (fields content bad : list (string * pyval))
         (before : list pyval) (texts : list string) (v : pyval)
         (after : list pyval),
    (forall kwargs,
        aws w (Client "bedrock-agent-runtime" (Some regionName)) "retrieve" kwargs
        = Ok kb_response) ->
    field "retrievalResults" kb_response = Some (VList results) ->
    In (VDict fields) results ->
    lookup "content" fields = Some (VDict content) ->
    lookup "text" content = Some (VList (before ++ VDict bad :: after)) ->
    Forall2 span_text before texts ->
    lookup "span" bad = Some v ->
    (forall s, v <> VStr s) ->
    exists e,
      result_of (Reranking.search_kb w regionName query kb_id numberOfResults)
      = Raise e.
Proof.
  intros w regionName query kb_id n kb_response results fields content bad
         before texts v after Hcall Hresults Hin Hcontent Htext Hbefore Hspan Hv.
  unfold Reranking.search_kb. cbv zeta.
  rewrite (bind_call_ok _ _ _ _ kb_response _ (Hcall _)). cbn [result_of snd].
  rewrite (get_field _ _ _ _ Hresults), bind_lift_ok. cbn [iter].
  rewrite bind_lift_ok. unfold enumerate.
  destruct (in_enumerate (VDict fields) results 0 Hin) as [i Hi].
  destruct (for_each_raises (Reranking.add_result w) (i, VDict fields))
    with (items := combine (seq 0 (List.length results)) results)
         (s := (@nil pyval, @nil pyval)) as [e He].
  - intros [documents original_results]. unfold Reranking.add_result.
    rewrite (result_text_bad_span w fields content bad before texts v after
               Hcontent Htext Hbefore Hspan Hv).
    eexists. reflexivity.
  - exact Hi.
  - rewrite He. now exists e.
Qed.

Lemma search_kb_rejects_null_span_witness :
  exists e,
    result_of (Reranking.search_kb
                 (Scenario.answering
                    (VDict [("retrievalResults",
                             VList [VDict [("content",
                                            VDict [("text",
                                                    VList [VStr "Red ";
                                                           VDict [("span", VNone)]])])]])]))
                 Scenario.region "What is red teaming?" "KB1" 5)
    = Raise e.
Proof.
  apply (search_kb_rejects_null_span _ Scenario.region "What is red teaming?"
           "KB1" 5
           (VDict [("retrievalResults",
                    VList [VDict [("content",
                                   VDict [("text",
                                           VList [VStr "Red ";
                                                  VDict [("span", VNone)]])])]])])
           [VDict [("content",
                    VDict [("text", VList [VStr "Red "; VDict [("span", VNone)]])])]]
           [("content",
             VDict [("text", VList [VStr "Red "; VDict [("span", VNone)]])])]
           [("text", VList [VStr "Red "; VDict [("span", VNone)]])]
           [("span", VNone)] [VStr "Red "] ["Red "] VNone []).
  - reflexivity.
  - reflexivity.
  - now left.
  - reflexivity.
  - reflexivity.
  - repeat constructor.
  - reflexivity.
  - intros s. discriminate.
Defined.

(** X30. A configuration without [guardrail_id] silently switches the
    filter off: [apply_output_guardrail] makes no service call at all,
    prints its warning with the missing key, and returns the text
    unfiltered. *)
Theorem apply_output_guardrail_unconfigured :
  forall (w : world) (fields : list (string * pyval)) (regionName : string)
         (output_text : pyval),
    lookup "guardrail_id" fields = None ->
    Guardrails.apply_output_guardrail w (VDict fields) regionName output_text =
    ([Printed ("Warning: Output guardrail application failed: "
               ++ repr w (VStr "guardrail_id"))],
     Ok output_text).
Proof.
  intros w fields regionName output_text Hnone.
  unfold Guardrails.apply_output_guardrail, Guardrails.policy_evaluation.
  rewrite (getitem_no_field _ _ _ Hnone), bind_lift_raise.
  reflexivity.
Qed.

Lemma apply_output_guardrail_unconfigured_witness :
  Guardrails.apply_output_guardrail Scenario.guarded_rag
    (VDict [("regionName", VStr "us-west-2")]) Scenario.region
    (VStr "You should buy the stock.") =
  ([Printed "Warning: Output guardrail application failed: 'guardrail_id'"],
   Ok (VStr "You should buy the stock.")).
Proof.
  apply (apply_output_guardrail_unconfigured Scenario.guarded_rag
           [("regionName", VStr "us-west-2")] Scenario.region
           (VStr "You should buy the stock.")).
  reflexivity.
Defined.
